(** * RenalDose: renal-function metrics and audit summaries of the React front end

    A shallow embedding of the client-side logic of
    [src/components/NewAudit.tsx], [src/components/PatientManagement.tsx],
    [src/components/AuditHistory.tsx], [src/components/PrescriptionInput.tsx]
    and [AuditResultPopup.tsx], with the properties of the written
    specification stated against it.

    Numbers.  A JavaScript [number] is modelled as an extended real: a finite
    real, [+Infinity], [-Infinity] or [NaN].  Binary64 rounding, overflow and
    the sign of zero are not modelled; every other special case of the
    arithmetic operators, of [Math.max] and of [Math.pow] follows ECMAScript.

    Host functions.  [parseFloat], [Number.prototype.toFixed],
    [Number.prototype.toString], [String.prototype.trim] and the [Date]
    constructor applied to a string are taken as parameters (record [Host]);
    every theorem holds for every host.  The system clock ([new Date()]) is the explicit argument [today]. *)

From Stdlib Require Import Reals Lra Lia ZArith QArith String List Bool.
From Stdlib Require Import DecimalString.
Import ListNotations.

Local Open Scope R_scope.

(** ** JavaScript numbers *)

Module JsNumber.

Inductive number : Type :=
| Fin (r : R)
| PosInf
| NegInf
| NaN.

Definition Rltb (a b : R) : bool := if Rlt_dec a b then true else false.
Definition Reqb (a b : R) : bool := if Req_dec_T a b then true else false.

Definition isNaN (x : number) : bool :=
  match x with NaN => true | _ => false end.

(** Unary minus. *)
Definition neg (x : number) : number :=
  match x with
  | Fin r => Fin (- r)
  | PosInf => NegInf
  | NegInf => PosInf
  | NaN => NaN
  end.

(** [x + y] *)
Definition add (x y : number) : number :=
  match x, y with
  | NaN, _ | _, NaN => NaN
  | Fin a, Fin b => Fin (a + b)
  | PosInf, NegInf | NegInf, PosInf => NaN
  | PosInf, _ | _, PosInf => PosInf
  | NegInf, _ | _, NegInf => NegInf
  end.

(** [x - y] *)
Definition sub (x y : number) : number := add x (neg y).

(** [x * y] *)
Definition mul (x y : number) : number :=
  match x, y with
  | NaN, _ | _, NaN => NaN
  | Fin a, Fin b => Fin (a * b)
  | Fin a, PosInf | PosInf, Fin a =>
      if Reqb a 0 then NaN else if Rltb 0 a then PosInf else NegInf
  | Fin a, NegInf | NegInf, Fin a =>
      if Reqb a 0 then NaN else if Rltb 0 a then NegInf else PosInf
  | PosInf, PosInf | NegInf, NegInf => PosInf
  | PosInf, NegInf | NegInf, PosInf => NegInf
  end.

(** [x / y]; a zero divisor is taken as [+0]. *)
Definition div (x y : number) : number :=
  match x, y with
  | NaN, _ | _, NaN => NaN
  | Fin a, Fin b =>
      if Reqb b 0
      then (if Reqb a 0 then NaN else if Rltb 0 a then PosInf else NegInf)
      else Fin (a / b)
  | Fin _, PosInf | Fin _, NegInf => Fin 0
  | PosInf, Fin b => if Rltb b 0 then NegInf else PosInf
  | NegInf, Fin b => if Rltb b 0 then PosInf else NegInf
  | _, _ => NaN
  end.

(** [x < y] *)
Definition lt (x y : number) : bool :=
  match x, y with
  | NaN, _ | _, NaN => false
  | Fin a, Fin b => Rltb a b
  | NegInf, NegInf => false
  | NegInf, _ => true
  | _, PosInf => match x with PosInf => false | _ => true end
  | _, _ => false
  end.

(** [x === y] *)
Definition strict_eq (x y : number) : bool :=
  match x, y with
  | Fin a, Fin b => Reqb a b
  | PosInf, PosInf | NegInf, NegInf => true
  | _, _ => false
  end.

(** [Math.max(x, y)] *)
Definition Math_max (x y : number) : number :=
  match x, y with
  | NaN, _ | _, NaN => NaN
  | PosInf, _ | _, PosInf => PosInf
  | NegInf, z | z, NegInf => z
  | Fin a, Fin b => Fin (Rmax a b)
  end.

Definition is_integer (y : R) : bool := Reqb (frac_part y) 0.
Definition is_odd_integer (y : number) : bool :=
  match y with
  | Fin r => is_integer r && Z.odd (Int_part r)
  | _ => false
  end.

(** [Math.pow(base, exponent)], the cases of Number::exponentiate in order. *)
Definition Math_pow (base exponent : number) : number :=
  if isNaN exponent then NaN
  else if strict_eq exponent (Fin 0) then Fin 1
  else
    match base with
    | NaN => NaN
    | PosInf => if lt (Fin 0) exponent then PosInf else Fin 0
    | NegInf =>
        if lt (Fin 0) exponent
        then (if is_odd_integer exponent then NegInf else PosInf)
        else Fin 0
    | Fin x =>
        if Reqb x 0
        then (if lt (Fin 0) exponent then Fin 0 else PosInf)
        else
          match exponent with
          | PosInf =>
              if Rltb 1 (Rabs x) then PosInf
              else if Reqb (Rabs x) 1 then NaN else Fin 0
          | NegInf =>
              if Rltb 1 (Rabs x) then Fin 0
              else if Reqb (Rabs x) 1 then NaN else PosInf
          | Fin y =>
              if Rltb 0 x then Fin (Rpower x y)
              else if is_integer y then Fin (powerRZ x (Int_part y))
              else NaN
          | NaN => NaN
          end
    end.

(** [x || 0] on numbers: [NaN] and zero are falsy. *)
Definition or_zero (x : number) : number :=
  match x with
  | NaN => Fin 0
  | Fin r => if Reqb r 0 then Fin 0 else x
  | _ => x
  end.


Definition negative (x : number) : Prop :=
  match x with
  | Fin r => r < 0
  | NegInf => True
  | PosInf | NaN => False
  end.

End JsNumber.

Import JsNumber.

Declare Scope js_scope.
Delimit Scope js_scope with js.
Bind Scope js_scope with number.
Infix "+" := add : js_scope.
Infix "-" := sub : js_scope.
Infix "*" := mul : js_scope.
Infix "/" := div : js_scope.
Infix "<?" := lt (at level 70) : js_scope.
Infix "===" := strict_eq (at level 70) : js_scope.

(** Numeric literals of the source. *)
Definition lit (r : R) : number := Fin r.
Coercion lit : R >-> number.

(** ** Dates *)

(** A [Date] object seen through [getFullYear], [getMonth] (0-based) and
    [getDate] in local time; [timeOfDay] stands for the rest of the time
    value.  [InvalidDate] is the date whose time value is [NaN]. *)
Inductive Date : Type :=
| ValidDate (fullYear month date : Z) (timeOfDay : Z)
| InvalidDate.

Definition getFullYear (d : Date) : number :=
  match d with ValidDate y _ _ _ => Fin (IZR y) | InvalidDate => NaN end.
Definition getMonth (d : Date) : number :=
  match d with ValidDate _ m _ _ => Fin (IZR m) | InvalidDate => NaN end.
Definition getDate (d : Date) : number :=
  match d with ValidDate _ _ n _ => Fin (IZR n) | InvalidDate => NaN end.

(** ** Host functions *)

Record Host : Type := {
  parseFloat : string -> number;
  toFixed : number -> nat -> string;
  toString : number -> string;
  newDate : string -> Date;
  trim : string -> string
}.

Local Open Scope string_scope.

(** JavaScript truthiness of a string, and [s || fallback]. *)
Definition truthy (s : string) : bool := negb (String.eqb s "").
Definition or_else (s fallback : string) : string :=
  if truthy s then s else fallback.

(** interface PatientInfo, declared alike in NewAudit.tsx,
    AuditResultPopup.tsx and useAuditPopup.ts *)
Record PatientInfo : Type := {
  name : string;
  gender : string;
  birthDate : string;
  weight : string;
  height : string;
  scr : string;
  crcl : string;
  crclNormalized : string;
  egfr : string;
  bsa : string;
  isOnDialysis : bool
}.

(** ** NewAudit.tsx *)

Module NewAudit.

(** The initial state of the form ([useState<PatientInfo>]). *)
Definition initialPatientInfo : PatientInfo :=
  {| name := ""; gender := ""; birthDate := ""; weight := ""; height := "";
     scr := ""; crcl := ""; crclNormalized := ""; egfr := ""; bsa := "";
     isOnDialysis := false |}.

(** The object returned by [calculateKidneyFunction]. *)
Record KidneyFunction : Type := {
  kf_egfr : number;
  kf_crcl : number;
  kf_crclNormalized : number
}.

(** [const age = new Date().getFullYear() - new Date(birthDate).getFullYear()];
    [birth] is the value of [new Date(birthDate)]. *)
Definition kidneyAge (today birth : Date) : number :=
  (getFullYear today - getFullYear birth)%js.

(** The local [crcl] of [calculateKidneyFunction] (Cockcroft-Gault). *)
Definition rawCrCl (age scr weight : number) (gender : string) : number :=
  if String.eqb gender "male"
  then (((140 - age) * weight) / (72 * scr))%js
  else (((140 - age) * weight * 0.85) / (72 * scr))%js.

(** The local [bsa] (DuBois and DuBois). *)
Definition bsaValue (weight height : number) : number :=
  (0.007184 * Math_pow height 0.725 * Math_pow weight 0.425)%js.

(** The local [egfr] (MDRD). *)
Definition rawEgfr (age scr : number) (gender : string) : number :=
  if String.eqb gender "male"
  then (175 * Math_pow scr (-1.154) * Math_pow age (-0.203))%js
  else (175 * Math_pow scr (-1.154) * Math_pow age (-0.203) * 0.742)%js.

(** The local [crclNormalized]. *)
Definition normalizeCrCl (crcl bsa : number) : number :=
  ((crcl * 1.73) / bsa)%js.

Definition calculateKidneyFunction (today : Date)
    (scr weight height : number) (gender : string) (birth : Date)
  : KidneyFunction :=
  let age := kidneyAge today birth in
  let crcl := rawCrCl age scr weight gender in
  let bsa := bsaValue weight height in
  let crclNormalized := normalizeCrCl crcl bsa in
  let egfr := rawEgfr age scr gender in
  {| kf_egfr := Math_max egfr 0;
     kf_crcl := Math_max crcl 0;
     kf_crclNormalized := Math_max crclNormalized 0 |}.

(** [calculateAge] (the copy used for display). *)
Definition calculateAge (today birth : Date) : number :=
  let age := (getFullYear today - getFullYear birth)%js in
  let monthDiff := (getMonth today - getMonth birth)%js in
  if (monthDiff <? 0)%js
     || ((monthDiff === 0)%js && (getDate today <? getDate birth)%js)
  then (age - 1)%js
  else age.

(** The inputs of the form whose [onChange] is [handlePatientInfoChange]. *)
Inductive TextInput : Type :=
| In_name | In_gender | In_birthDate | In_weight | In_height | In_bsa
| In_scr | In_egfr | In_crcl | In_crclNormalized.

(** [e.target]: one of the text, number, date and select inputs with its
    [value], or the checkbox [isOnDialysis] with its [checked]. *)
Inductive ChangeEvent : Type :=
| TextChange (input : TextInput) (value : string)
| CheckboxChange (checked : bool).

(** [{ ...prev, [name]: type === 'checkbox' ? checkedValue : value }] *)
Definition updateField (prev : PatientInfo) (e : ChangeEvent) : PatientInfo :=
  let 'Build_PatientInfo n g b w h s c cn eg bs d := prev in
  match e with
  | TextChange In_name v => Build_PatientInfo v g b w h s c cn eg bs d
  | TextChange In_gender v => Build_PatientInfo n v b w h s c cn eg bs d
  | TextChange In_birthDate v => Build_PatientInfo n g v w h s c cn eg bs d
  | TextChange In_weight v => Build_PatientInfo n g b v h s c cn eg bs d
  | TextChange In_height v => Build_PatientInfo n g b w v s c cn eg bs d
  | TextChange In_scr v => Build_PatientInfo n g b w h v c cn eg bs d
  | TextChange In_crcl v => Build_PatientInfo n g b w h s v cn eg bs d
  | TextChange In_crclNormalized v => Build_PatientInfo n g b w h s c v eg bs d
  | TextChange In_egfr v => Build_PatientInfo n g b w h s c cn v bs d
  | TextChange In_bsa v => Build_PatientInfo n g b w h s c cn eg v d
  | CheckboxChange v => Build_PatientInfo n g b w h s c cn eg bs v
  end.

(** [{ ...updatedInfo, bsa }] *)
Definition withBsa (i : PatientInfo) (bsa' : string) : PatientInfo :=
  {| name := name i; gender := gender i; birthDate := birthDate i;
     weight := weight i; height := height i; scr := scr i;
     crcl := crcl i; crclNormalized := crclNormalized i; egfr := egfr i;
     bsa := bsa'; isOnDialysis := isOnDialysis i |}.

(** [{ ...updatedInfo, bsa, egfr, crcl, crclNormalized }] *)
Definition withRenal (i : PatientInfo) (bsa' egfr' crcl' crclNormalized' : string)
  : PatientInfo :=
  {| name := name i; gender := gender i; birthDate := birthDate i;
     weight := weight i; height := height i; scr := scr i;
     crcl := crcl'; crclNormalized := crclNormalized'; egfr := egfr';
     bsa := bsa'; isOnDialysis := isOnDialysis i |}.

(** The [bsa] string that [handlePatientInfoChange] builds, as a function of
    the weight and height fields. *)
Definition bsaField (host : Host) (weight height : string) : string :=
  let weight := parseFloat host weight in
  let height := parseFloat host height in
  if negb (isNaN weight) && negb (isNaN height)
  then toFixed host (bsaValue weight height) 3
  else "".

(** The state update of [handlePatientInfoChange]. *)
Definition handlePatientInfoChange (host : Host) (today : Date)
    (e : ChangeEvent) (prev : PatientInfo) : PatientInfo :=
  let updatedInfo := updateField prev e in
  let weight := parseFloat host (weight updatedInfo) in
  let height := parseFloat host (height updatedInfo) in
  let bsa :=
    if negb (isNaN weight) && negb (isNaN height)
    then toFixed host (bsaValue weight height) 3
    else "" in
  let scr := parseFloat host (scr updatedInfo) in
  let gender := gender updatedInfo in
  let birthDate := birthDate updatedInfo in
  let isOnDialysis := isOnDialysis updatedInfo in
  if negb (isNaN scr) && negb (isNaN weight) && negb (isNaN height)
     && truthy gender && truthy birthDate && negb isOnDialysis
  then
    let r := calculateKidneyFunction today scr weight height gender
               (newDate host birthDate) in
    withRenal updatedInfo bsa
      (toFixed host (kf_egfr r) 2)
      (toFixed host (kf_crcl r) 2)
      (toFixed host (kf_crclNormalized r) 2)
  else if isOnDialysis
  then withRenal updatedInfo bsa "" "" ""
  else withBsa updatedInfo bsa.

(** interface MedicationInfo *)
Record MedicationInfo : Type := {
  med_id : string;
  productName : string;
  ingredientName : string;
  dosage : string;
  frequency : string;
  duration : string;
  unit : option string
}.

(** The [patientData] object posted by [handleAuditExecution]. *)
Module PatientData.
Record t : Type := {
  name : option string;
  sex : string;
  birth_date : string;
  weight_kg : number;
  height_cm : number;
  scr_mg_dl : number;
  egfr : number;
  crcl : number;
  crcl_normalized : number;
  bsa : number;
  is_hd : bool
}.
End PatientData.

Definition patientData (host : Host) (patientInfo : PatientInfo)
  : PatientData.t :=
  {| PatientData.name :=
       if truthy (name patientInfo) then Some (name patientInfo) else None;
     PatientData.sex :=
       if String.eqb (gender patientInfo) "male" then "M" else "F";
     PatientData.birth_date := birthDate patientInfo;
     PatientData.weight_kg := parseFloat host (weight patientInfo);
     PatientData.height_cm := parseFloat host (height patientInfo);
     PatientData.scr_mg_dl :=
       if isOnDialysis patientInfo then 10.0
       else parseFloat host (scr patientInfo);
     PatientData.egfr := or_zero (parseFloat host (egfr patientInfo));
     PatientData.crcl := or_zero (parseFloat host (crcl patientInfo));
     PatientData.crcl_normalized :=
       or_zero (parseFloat host (crclNormalized patientInfo));
     PatientData.bsa := or_zero (parseFloat host (bsa patientInfo));
     PatientData.is_hd := isOnDialysis patientInfo |}.

(** What [handleAuditExecution] does first: it stops with an alert, or posts
    [patientData] to [/api/patients/with-measurement-direct]. *)
Inductive Execution : Type :=
| Alert (message : string)
| PostPatient (body : PatientData.t).

Definition validMedication (host : Host) (med : MedicationInfo) : bool :=
  truthy (trim host (productName med)) && truthy (trim host (dosage med))
  && truthy (trim host (frequency med)) && truthy (trim host (duration med)).

Definition handleAuditExecution (host : Host) (patientInfo : PatientInfo)
    (medications : list MedicationInfo) : Execution :=
  if negb (truthy (gender patientInfo)) || negb (truthy (birthDate patientInfo))
     || negb (truthy (weight patientInfo)) || negb (truthy (height patientInfo))
  then Alert "환자 정보를 모두 입력해주세요."
  else if negb (isOnDialysis patientInfo)
          && (negb (truthy (scr patientInfo)) || negb (truthy (egfr patientInfo))
              || negb (truthy (crcl patientInfo)))
  then Alert "환자 정보를 모두 입력해주세요."
  else
    let validMedications := filter (validMedication host) medications in
    if (length validMedications =? 0)%nat
    then Alert "적어도 하나의 약물 정보를 완전히 입력해주세요."
    else PostPatient (patientData host patientInfo).

End NewAudit.

(** ** PatientManagement.tsx *)

Module PatientManagement.

(** interface Patient *)
Record Patient : Type := {
  id : string;
  patientId : string;
  name : string;
  birthDate : string;
  gender : string;
  phone : string;
  address : string;
  emergencyContact : string;
  emergencyPhone : string;
  medicalHistory : string;
  allergies : string;
  notes : string;
  weight : string;
  height : string;
  scr : string;
  crcl : string;
  crclNormalized : string;
  egfr : string;
  bsa : string;
  isOnDialysis : bool
}.

(** [calculateAge]; [birth] is the value of [new Date(birthDate)]. *)
Definition calculateAge (today birth : Date) : number :=
  let age := (getFullYear today - getFullYear birth)%js in
  let monthDiff := (getMonth today - getMonth birth)%js in
  if (monthDiff <? 0)%js
     || ((monthDiff === 0)%js && (getDate today <? getDate birth)%js)
  then (age - 1)%js
  else age.

(** The locals of [calculateKidneyFunction] before they are formatted. *)
Record KidneyValues : Type := {
  v_crcl : number;
  v_crclNormalized : number;
  v_egfr : number;
  v_bsa : number
}.

(** The local [crclNormalized]. *)
Definition normalizeCrCl (crcl bsa : number) : number :=
  (crcl * (1.73 / bsa))%js.

Definition kidneyValues (today : Date)
    (scr weight height : number) (gender : string) (birth : Date)
  : KidneyValues :=
  let age := calculateAge today birth in
  let crcl := (((140 - age) * weight) / (72 * scr))%js in
  let crcl := if String.eqb gender "female" then (crcl * 0.85)%js else crcl in
  let bsa := (0.007184 * Math_pow height 0.725 * Math_pow weight 0.425)%js in
  let crclNormalized := normalizeCrCl crcl bsa in
  let egfr := (175 * Math_pow scr (-1.154) * Math_pow age (-0.203))%js in
  let egfr := if String.eqb gender "female" then (egfr * 0.742)%js else egfr in
  {| v_crcl := crcl; v_crclNormalized := crclNormalized;
     v_egfr := egfr; v_bsa := bsa |}.

(** The object returned by [calculateKidneyFunction]: four strings. *)
Record KidneyFunction : Type := {
  kf_crcl : string;
  kf_crclNormalized : string;
  kf_egfr : string;
  kf_bsa : string
}.

Definition calculateKidneyFunction (host : Host) (today : Date)
    (scr weight height : number) (gender : string) (birth : Date)
  : KidneyFunction :=
  let v := kidneyValues today scr weight height gender birth in
  {| kf_crcl := toFixed host (v_crcl v) 1;
     kf_crclNormalized := toFixed host (v_crclNormalized v) 1;
     kf_egfr := toFixed host (v_egfr v) 1;
     kf_bsa := toFixed host (v_bsa v) 3 |}.

(** The inputs of the registration form whose [onChange] is
    [handlePatientInfoChange]. *)
Inductive TextInput : Type :=
| In_weight | In_height | In_bsa | In_scr | In_egfr | In_crcl
| In_crclNormalized.

Inductive ChangeEvent : Type :=
| TextChange (input : TextInput) (value : string)
| CheckboxChange (checked : bool).

(** [{ ...updated, bsa, crcl, crclNormalized, egfr }] *)
Definition withRenal (p : Patient) (bsa' crcl' crclNormalized' egfr' : string)
  : Patient :=
  {| id := id p; patientId := patientId p; name := name p;
     birthDate := birthDate p; gender := gender p; phone := phone p;
     address := address p; emergencyContact := emergencyContact p;
     emergencyPhone := emergencyPhone p; medicalHistory := medicalHistory p;
     allergies := allergies p; notes := notes p;
     weight := weight p; height := height p; scr := scr p;
     crcl := crcl'; crclNormalized := crclNormalized'; egfr := egfr';
     bsa := bsa'; isOnDialysis := isOnDialysis p |}.

(** [{ ...prev, [name]: type === 'checkbox' ? checked : value }] *)
Definition updateField (prev : Patient) (e : ChangeEvent) : Patient :=
  let set w h s c cn eg bs d :=
    {| id := id prev; patientId := patientId prev; name := name prev;
       birthDate := birthDate prev; gender := gender prev;
       phone := phone prev; address := address prev;
       emergencyContact := emergencyContact prev;
       emergencyPhone := emergencyPhone prev;
       medicalHistory := medicalHistory prev; allergies := allergies prev;
       notes := notes prev;
       weight := w; height := h; scr := s; crcl := c; crclNormalized := cn;
       egfr := eg; bsa := bs; isOnDialysis := d |} in
  let w := weight prev in let h := height prev in let s := scr prev in
  let c := crcl prev in let cn := crclNormalized prev in
  let eg := egfr prev in let bs := bsa prev in let d := isOnDialysis prev in
  match e with
  | TextChange In_weight v => set v h s c cn eg bs d
  | TextChange In_height v => set w v s c cn eg bs d
  | TextChange In_scr v => set w h v c cn eg bs d
  | TextChange In_crcl v => set w h s v cn eg bs d
  | TextChange In_crclNormalized v => set w h s c v eg bs d
  | TextChange In_egfr v => set w h s c cn v bs d
  | TextChange In_bsa v => set w h s c cn eg v d
  | CheckboxChange v => set w h s c cn eg bs v
  end.

(** The state update of [handlePatientInfoChange]. *)
Definition handlePatientInfoChange (host : Host) (today : Date)
    (e : ChangeEvent) (prev : Patient) : Patient :=
  let updated := updateField prev e in
  let weight := parseFloat host (weight updated) in
  let height := parseFloat host (height updated) in
  let bsa :=
    if negb (isNaN weight) && negb (isNaN height)
    then toFixed host
           (0.007184 * Math_pow height 0.725 * Math_pow weight 0.425)%js 3
    else "" in
  let computed :=
    if truthy (PatientManagement.weight updated)
       && truthy (PatientManagement.height updated)
       && truthy (scr updated) && truthy (gender updated)
       && truthy (birthDate updated) && negb (isOnDialysis updated)
    then
      let scr := parseFloat host (scr updated) in
      if negb (isNaN scr) && negb (isNaN weight) && negb (isNaN height)
      then Some (calculateKidneyFunction host today scr weight height
                   (gender updated) (newDate host (birthDate updated)))
      else None
    else None in
  match computed with
  | Some kidneyFunction =>
      withRenal updated bsa (kf_crcl kidneyFunction)
        (kf_crclNormalized kidneyFunction) (kf_egfr kidneyFunction)
  | None => withRenal updated bsa "" "" ""
  end.

(** interface PatientMeasurement (services/api.ts), as built by
    [handleNewPatientSubmit]. *)
Record PatientMeasurement : Type := {
  weight_kg : number;
  height_cm : number;
  scr_mg_dl : number;
  m_egfr : number;
  m_crcl : number;
  crcl_normalized : number;
  m_bsa : number;
  is_hd : bool
}.

Definition measurement (host : Host) (newPatientData : Patient)
  : PatientMeasurement :=
  {| weight_kg := parseFloat host (weight newPatientData);
     height_cm := parseFloat host (height newPatientData);
     scr_mg_dl :=
       if isOnDialysis newPatientData then 10
       else parseFloat host (scr newPatientData);
     m_egfr :=
       if isOnDialysis newPatientData then 0
       else parseFloat host (or_else (egfr newPatientData) "0");
     m_crcl :=
       if isOnDialysis newPatientData then 0
       else parseFloat host (or_else (crcl newPatientData) "0");
     crcl_normalized :=
       if isOnDialysis newPatientData then 0
       else parseFloat host (or_else (crclNormalized newPatientData) "0");
     m_bsa := parseFloat host (or_else (bsa newPatientData) "0");
     is_hd := isOnDialysis newPatientData |}.

End PatientManagement.


(** ** AuditHistory.tsx *)

Module AuditHistory.

(** interface Prescription *)
Record Prescription : Type := {
  id : Z;
  drug_name : string;
  audit_result : string;
  information : option string;
  dose_amount : option string;
  dose_unit : option string;
  doses_per_day : option Z;
  duration_days : option Z
}.

(** interface Patient *)
Record Patient : Type := {
  p_id : Z;
  p_name : string;
  sex : string;
  birth_date : string
}.

(** interface Measurement; the numeric members are read through [?.] *)
Record Measurement : Type := {
  weight_kg : option number;
  height_cm : option number;
  scr_mg_dl : option number;
  m_bsa : option number;
  m_egfr : option number;
  m_crcl : option number;
  crcl_normalized : option number;
  is_hd : bool;
  measured_at : string
}.

(** interface AuditRecord *)
Record AuditRecord : Type := {
  order_id : Z;
  patient_id : Z;
  patient_name : string;
  submitted_at : string;
  prescription_count : Z;
  prescriptions : list Prescription;
  patient : Patient;
  measurement : option Measurement
}.

Definition calculateAge (today birth : Date) : number :=
  let age := (getFullYear today - getFullYear birth)%js in
  let monthDiff := (getMonth today - getMonth birth)%js in
  if (monthDiff <? 0)%js
     || ((monthDiff === 0)%js && (getDate today <? getDate birth)%js)
  then (age - 1)%js
  else age.

(** [<span className=...>text</span>] *)
Record StatusBadge : Type := {
  className : string;
  text : string
}.

(** [p.audit_result !== '-' && p.audit_result !== '대기중'] *)
Definition isAbnormal (p : Prescription) : bool :=
  negb (String.eqb (audit_result p) "-")
  && negb (String.eqb (audit_result p) "대기중").

(** [p.audit_result === '대기중'] *)
Definition isPending (p : Prescription) : bool :=
  String.eqb (audit_result p) "대기중".

Definition getStatusBadge (record : AuditRecord) : StatusBadge :=
  let hasAbnormal := existsb isAbnormal (prescriptions record) in
  let hasPending := existsb isPending (prescriptions record) in
  if hasPending
  then {| className := "status-badge pending"; text := "대기중" |}
  else if hasAbnormal
  then {| className := "status-badge failed"; text := "이상" |}
  else {| className := "status-badge completed"; text := "정상" |}.

Definition getAbnormalCount (record : AuditRecord) : nat :=
  length (filter isAbnormal (prescriptions record)).

(** [x?.toString() || '-'] *)
Definition showOr (host : Host) (x : option number) : string :=
  match x with
  | Some v => or_else (toString host v) "-"
  | None => "-"
  end.

Definition convertToPatientInfo (host : Host) (audit : AuditRecord)
  : PatientInfo :=
  let gender :=
    if String.eqb (sex (patient audit)) "M" then "male" else "female" in
  match measurement audit with
  | None =>
      Build_PatientInfo (p_name (patient audit)) gender
        (birth_date (patient audit)) "-" "-" "-" "-" "-" "-" "-" false
  | Some m =>
      Build_PatientInfo (p_name (patient audit)) gender
        (birth_date (patient audit))
        (showOr host (weight_kg m))
        (showOr host (height_cm m))
        (if is_hd m then "투석 중" else showOr host (scr_mg_dl m))
        (if is_hd m then "투석 중" else showOr host (m_crcl m))
        (if is_hd m then "투석 중" else showOr host (crcl_normalized m))
        (if is_hd m then "투석 중" else showOr host (m_egfr m))
        (showOr host (m_bsa m))
        (is_hd m)
  end.

End AuditHistory.

(** ** PrescriptionInput.tsx *)

Module PrescriptionInput.

(** interface PatientMeasurementResponse (services/api.ts) *)
Record PatientMeasurementResponse : Type := {
  weight_kg : option number;
  height_cm : option number;
  scr_mg_dl : option number;
  m_egfr : option number;
  m_crcl : option number;
  crcl_normalized : option number;
  m_bsa : option number;
  is_hd : bool
}.

(** interface PatientInfoResponse (services/api.ts) *)
Record PatientInfoResponse : Type := {
  p_id : Z;
  p_name : string;
  sex : string;
  birth_date : string;
  created_at : string;
  latest_measurement : option PatientMeasurementResponse
}.

(** [selectedPatient.latest_measurement?.f?.toString() || '-'] *)
Definition showOr (host : Host) (m : option PatientMeasurementResponse)
    (f : PatientMeasurementResponse -> option number) : string :=
  match m with
  | Some r =>
      match f r with
      | Some v => or_else (toString host v) "-"
      | None => "-"
      end
  | None => "-"
  end.

(** [selectedPatient.latest_measurement?.is_hd], falsy when absent. *)
Definition on_hd (m : option PatientMeasurementResponse) : bool :=
  match m with Some r => is_hd r | None => false end.

(** The [patientInfo] that [handleSubmitPrescription] hands to the popup. *)
Definition patientInfo (host : Host) (selectedPatient : PatientInfoResponse)
  : PatientInfo :=
  let m := latest_measurement selectedPatient in
  Build_PatientInfo (p_name selectedPatient)
    (if String.eqb (sex selectedPatient) "M" then "male" else "female")
    (birth_date selectedPatient)
    (showOr host m weight_kg)
    (showOr host m height_cm)
    (if on_hd m then "투석 중" else showOr host m scr_mg_dl)
    (if on_hd m then "투석 중" else showOr host m m_crcl)
    (if on_hd m then "투석 중" else showOr host m crcl_normalized)
    (if on_hd m then "투석 중" else showOr host m m_egfr)
    (showOr host m m_bsa)
    (on_hd m).

End PrescriptionInput.

(** ** AuditResultPopup.tsx *)

Module AuditResultPopup.

(** interface Prescription *)
Record Prescription : Type := {
  id : Z;
  drug_korean_name : string;
  audit_result : string;
  information : option string;
  dose_amount : option string;
  dose_unit : option string;
  doses_per_day : option Z;
  duration_days : option Z;
  audit_comment : option string
}.

(** interface AuditResultInfo *)
Record AuditResultInfo : Type := {
  icon : string;
  label : string;
  badgeClass : string;
  description : string
}.

(** [getBaseInfo], the inner function of [getAuditResultInfo]. *)
Definition getBaseInfo (result : string) : AuditResultInfo :=
  if String.eqb result "금기" then
    {| icon := "🚫"; label := "금기"; badgeClass := "contraindicated";
       description := "이 약물은 현재 상황에서 사용이 금기됩니다." |}
  else if String.eqb result "용량조절필요" then
    {| icon := "⚠️"; label := "용량조절필요"; badgeClass := "dose-adjustment";
       description := "환자의 상태에 따라 용량 조절이 필요합니다." |}
  else if String.eqb result "투여간격조절필요" then
    {| icon := "⏰"; label := "투여간격조절필요";
       badgeClass := "interval-adjustment";
       description := "투여 간격을 조절해야 합니다." |}
  else if String.eqb result "정상" || String.eqb result "-" then
    {| icon := "✅"; label := "정상"; badgeClass := "normal";
       description := "처방이 정상입니다." |}
  else
    {| icon := "❓"; label := "알 수 없음"; badgeClass := "unknown";
       description := "감사 결과를 확인할 수 없습니다." |}.

(** [p.audit_result !== '-' && p.audit_result !== '정상'] *)
Definition isIssue (p : Prescription) : bool :=
  negb (String.eqb (audit_result p) "-")
  && negb (String.eqb (audit_result p) "정상").

Definition getPopupTitle (prescriptions : list Prescription) : string :=
  let hasIssues := existsb isIssue prescriptions in
  if hasIssues then "⚠️ 처방 이상 사항" else "✅ 처방 감사 결과".

(** The decimal text of a count, as a template literal prints it. *)
Definition showCount (n : nat) : string :=
  NilZero.string_of_uint (Nat.to_uint n).

Definition getSectionTitle (prescriptions : list Prescription) : string :=
  let hasIssues := existsb isIssue prescriptions in
  let issueCount := length (filter isIssue prescriptions) in
  if hasIssues
  then "처방 이상 사항 (" ++ showCount issueCount ++ "건)"
  else "처방 감사 결과 (모두 정상)".

(** [calculateAge], with its guard on an empty [birthDate]. *)
Definition calculateAge (host : Host) (today : Date) (birthDate : string)
  : number :=
  if negb (truthy birthDate) then 0
  else
    let birth := newDate host birthDate in
    let age := (getFullYear today - getFullYear birth)%js in
    let monthDiff := (getMonth today - getMonth birth)%js in
    if (monthDiff <? 0)%js
       || ((monthDiff === 0)%js && (getDate today <? getDate birth)%js)
    then (age - 1)%js
    else age.

(** A renal cell of the patient table:
    [isOnDialysis ? "투석 중" : (v && v !== '-' ? v : "-")]. *)
Definition renalCell (patientInfo : PatientInfo) (v : string) : string :=
  if isOnDialysis patientInfo then "투석 중"
  else if truthy v && negb (String.eqb v "-") then v else "-".

End AuditResultPopup.

(** ** The written specification, restated *)

Module Spec.

(** AuditOutcome.category *)
Inductive Category : Type :=
| Contraindicated
| DoseAdjustmentNeeded
| IntervalAdjustmentNeeded
| Normal.

(** The category that the front end reads off an [audit_result] string
    ([getBaseInfo] of AuditResultPopup.tsx); [None] is its "unknown". *)
Definition categoryOf (audit_result : string) : option Category :=
  if String.eqb audit_result "금기" then Some Contraindicated
  else if String.eqb audit_result "용량조절필요" then Some DoseAdjustmentNeeded
  else if String.eqb audit_result "투여간격조절필요"
  then Some IntervalAdjustmentNeeded
  else if String.eqb audit_result "정상" || String.eqb audit_result "-"
  then Some Normal
  else None.

(** computeAge of section 4.1, in the words of the specification: the
    whole-year difference, less one when the month and day of [asOf] come
    before those of [birthDate]. *)
Definition monthDayEarlier (asOfMonth asOfDay birthMonth birthDay : Z) : bool :=
  ((asOfMonth <? birthMonth)
   || ((asOfMonth =? birthMonth) && (asOfDay <? birthDay)))%Z.

Definition computeAge (birthYear birthMonth birthDay : Z)
    (asOfYear asOfMonth asOfDay : Z) : Z :=
  (asOfYear - birthYear
   - (if monthDayEarlier asOfMonth asOfDay birthMonth birthDay then 1 else 0))%Z.

(** computeCreatinineClearance of section 4.1 before clamping:
    [((140 - age) * weightKg) / (72 * scr)], times 0.85 for a female. *)
Definition cockcroftGault (age weightKg scr : R) (female : bool) : R :=
  (140 - age) * weightKg / (72 * scr) * (if female then 0.85 else 1).

(** computeBSA of section 4.1: [0.007184 * heightCm^0.725 * weightKg^0.425]. *)
Definition computeBSA (weightKg heightCm : R) : R :=
  0.007184 * Rpower heightCm 0.725 * Rpower weightKg 0.425.

(** normalizeCrCl of section 4.1: [crcl * 1.73 / bsa]. *)
Definition normalizeCrCl (crcl bsa : R) : R := crcl * 1.73 / bsa.

(** Calendar order on (year, month, day). *)
Definition dateLe (y1 m1 d1 y2 m2 d2 : Z) : Prop :=
  (y1 < y2 \/ (y1 = y2 /\ (m1 < m2 \/ (m1 = m2 /\ d1 <= d2))))%Z.

End Spec.

(** ** DoseRuleEvaluator *)

Module DoseRuleEvaluator.

Import Spec.

(** Modelled from the spec: the renal-function metric a constraint tests
    (section 4.2); the rule table is not among the sources. *)
Inductive Metric : Type := CrCl | CrClNormalized | EGFR.

(** Modelled from the spec: one entry of [lookupRenalDosingRules]
    (section 6); the rule table is an external collaborator and is not among
    the sources.  A range holds its lower bound and excludes its upper
    bound. *)
Record Rule : Type := {
  metric : Metric;
  lower : option Q;
  upper : option Q;
  category : Category;
  rationaleTemplate : string;
  isDialysisRule : bool
}.

(** Modelled from the spec: the creatinine-derived members of RenalMetrics
    (section 3), each undefined when not applicable. *)
Record RenalMetrics : Type := {
  creatinineClearanceMlMin : option Q;
  creatinineClearanceNormalizedMlMin173m2 : option Q;
  egfrMlMin173m2 : option Q
}.

(** Modelled from the spec: the rationales that section 4.2 names, kept
    symbolic. *)
Inductive Rationale : Type :=
| NoConstraintOnRecord
| FromRule (template : string) (value : option Q)
| MetricUnavailable
| WithinNormalRange.

(** Modelled from the spec: AuditOutcome of section 3. *)
Record AuditOutcome : Type := {
  outcome_category : Category;
  rationale : Rationale
}.

(** Modelled from the spec: the fixed severity ordering of section 4.2,
    Contraindicated > IntervalAdjustmentNeeded > DoseAdjustmentNeeded > Normal. *)
Definition severity (c : Category) : nat :=
  match c with
  | Contraindicated => 3
  | IntervalAdjustmentNeeded => 2
  | DoseAdjustmentNeeded => 1
  | Normal => 0
  end.

Definition metricValue (m : RenalMetrics) (k : Metric) : option Q :=
  match k with
  | CrCl => creatinineClearanceMlMin m
  | CrClNormalized => creatinineClearanceNormalizedMlMin173m2 m
  | EGFR => egfrMlMin173m2 m
  end.

Definition inRange (r : Rule) (v : Q) : bool :=
  match lower r with Some lo => Qle_bool lo v | None => true end
  && match upper r with Some hi => negb (Qle_bool hi v) | None => true end.

(** Modelled from the spec: a numeric constraint matches when its metric is
    available and in range (section 4.2, step 3). *)
Definition matches (m : RenalMetrics) (r : Rule) : bool :=
  negb (isDialysisRule r)
  && match metricValue m (metric r) with
     | Some v => inRange r v
     | None => false
     end.

(** Modelled from the spec: a numeric constraint whose metric is not
    applicable (section 4.2, step 4). *)
Definition unavailable (m : RenalMetrics) (r : Rule) : bool :=
  negb (isDialysisRule r)
  && match metricValue m (metric r) with Some _ => false | None => true end.

(** Modelled from the spec: the most severe of the rules in a list
    (section 4.2, step 3); among equally severe rules the first one stays. *)
Fixpoint mostSevere (rules : list Rule) : option Rule :=
  match rules with
  | [] => None
  | r :: rest =>
      match mostSevere rest with
      | Some r' =>
          if (severity (category r) <? severity (category r'))%nat
          then Some r' else Some r
      | None => Some r
      end
  end.

(** Modelled from the spec: the DoseRuleEvaluator of section 4.2.  The
    evaluator runs in the back end (the method named in
    API_DOCUMENTATION.md), which is not among the sources; the definition
    follows steps 1 to 5 of the algorithm of section 4.2 over exact
    decimals. *)
Definition evaluate (onDialysis : bool) (m : RenalMetrics) (rules : list Rule)
  : AuditOutcome :=
  match rules with
  | [] => {| outcome_category := Normal; rationale := NoConstraintOnRecord |}
  | _ =>
      match (if onDialysis then find isDialysisRule rules else None) with
      | Some d =>
          {| outcome_category := category d;
             rationale := FromRule (rationaleTemplate d) None |}
      | None =>
          match mostSevere (filter (matches m) rules) with
          | Some r =>
              {| outcome_category := category r;
                 rationale :=
                   FromRule (rationaleTemplate r) (metricValue m (metric r)) |}
          | None =>
              {| outcome_category := Normal;
                 rationale :=
                   if existsb (unavailable m) rules
                   then MetricUnavailable else WithinNormalRange |}
          end
      end
  end.

End DoseRuleEvaluator.

(** ** A host for the worked examples *)

(** The theorems below hold for every host.  Where one of them is applied to
    a concrete form state, this host is used: it reads the three decimal
    literals and the date of the examples as ECMAScript does, trims nothing
    (the examples carry no white space) and prints every number as ["#"]. *)
Definition exampleHost : Host :=
  {| parseFloat := fun s =>
       if String.eqb s "70" then Fin 70
       else if String.eqb s "175" then Fin 175
       else if String.eqb s "1.0" then Fin 1
       else NaN;
     toFixed := fun _ _ => "#";
     toString := fun _ => "#";
     newDate := fun s =>
       if String.eqb s "1980-06-15" then ValidDate 1980 5 15 0
       else InvalidDate;
     trim := fun s => s |}.

(** An order of the history list with the given line results. *)
Definition exampleLine (result : string) : AuditHistory.Prescription :=
  {| AuditHistory.id := 1; AuditHistory.drug_name := "metformin";
     AuditHistory.audit_result := result; AuditHistory.information := None;
     AuditHistory.dose_amount := None; AuditHistory.dose_unit := None;
     AuditHistory.doses_per_day := None; AuditHistory.duration_days := None |}.

Definition exampleRecord (results : list string) : AuditHistory.AuditRecord :=
  {| AuditHistory.order_id := 1; AuditHistory.patient_id := 1;
     AuditHistory.patient_name := ""; AuditHistory.submitted_at := "";
     AuditHistory.prescription_count := Z.of_nat (length results);
     AuditHistory.prescriptions := map exampleLine results;
     AuditHistory.patient :=
       {| AuditHistory.p_id := 1; AuditHistory.p_name := "";
          AuditHistory.sex := "M"; AuditHistory.birth_date := "1980-06-15" |};
     AuditHistory.measurement := None |}.

(** ** Form states *)

(** The form states of NewAudit.tsx: the initial one and those that
    [handlePatientInfoChange] produces ([setPatientInfo] has no other
    caller). *)
Inductive NewAudit_reachable (host : Host) (today : Date)
  : PatientInfo -> Prop :=
| reach_initial : NewAudit_reachable host today NewAudit.initialPatientInfo
| reach_change e prev :
    NewAudit_reachable host today prev ->
    NewAudit_reachable host today
      (NewAudit.handlePatientInfoChange host today e prev).

From Stdlib Require Import Ascii Permutation.

(** ** Drug-name autocomplete (NewAudit.tsx and PrescriptionInput.tsx) *)

Module Autocomplete.

(** The three pieces of state that [handleKeyDown] reads and writes. *)
Record State : Type := {
  drugSuggestions : list string;
  activeSuggestionIndex : Z;
  showSuggestions : bool
}.

(** [drugSuggestions[i]], [undefined] outside the array. *)
Definition at_index (l : list string) (i : Z) : option string :=
  if (i <? 0)%Z then None else nth_error l (Z.to_nat i).

Definition withIndex (s : State) (i : Z) : State :=
  {| drugSuggestions := drugSuggestions s; activeSuggestionIndex := i;
     showSuggestions := showSuggestions s |}.

(** [handleKeyDown] on [e.key].  The second component is the suggestion
    handed to [handleSuggestionSelect], whose three state resets (made before
    its first [await]) are part of the state returned. *)
Definition handleKeyDown (key : string) (s : State) : State * option string :=
  let length := Z.of_nat (List.length (drugSuggestions s)) in
  let prev := activeSuggestionIndex s in
  if negb (showSuggestions s) then (s, None)
  else if String.eqb key "ArrowDown" then
    (withIndex s (if (prev <? length - 1)%Z then (prev + 1)%Z else 0%Z), None)
  else if String.eqb key "ArrowUp" then
    (withIndex s (if (0 <? prev)%Z then (prev - 1)%Z else (length - 1)%Z), None)
  else if String.eqb key "Enter" then
    match at_index (drugSuggestions s) prev with
    | Some suggestion =>
        if (0 <=? prev)%Z && truthy suggestion
        then ({| drugSuggestions := []; activeSuggestionIndex := (-1)%Z;
                 showSuggestions := false |}, Some suggestion)
        else (s, None)
    | None => (s, None)
    end
  else if String.eqb key "Escape" then
    ({| drugSuggestions := drugSuggestions s; activeSuggestionIndex := (-1)%Z;
        showSuggestions := false |}, None)
  else (s, None).

(** The state after a run of key presses. *)
Definition pressAll (keys : list string) (s : State) : State :=
  fold_left (fun st key => fst (handleKeyDown key st)) keys s.

End Autocomplete.

(** ** The medication list (NewAudit.tsx and PrescriptionInput.tsx) *)

Module MedicationList.

Import NewAudit.

(** [keyof MedicationInfo] *)
Inductive Key : Type :=
| K_id | K_productName | K_ingredientName | K_dosage | K_frequency
| K_duration | K_unit.

(** [{ ...med, [field]: value }] *)
Definition setField (med : MedicationInfo) (field : Key) (value : string)
  : MedicationInfo :=
  let 'Build_MedicationInfo i p g d f u n := med in
  match field with
  | K_id => Build_MedicationInfo value p g d f u n
  | K_productName => Build_MedicationInfo i value g d f u n
  | K_ingredientName => Build_MedicationInfo i p value d f u n
  | K_dosage => Build_MedicationInfo i p g value f u n
  | K_frequency => Build_MedicationInfo i p g d value u n
  | K_duration => Build_MedicationInfo i p g d f value n
  | K_unit => Build_MedicationInfo i p g d f u (Some value)
  end.

(** The updater that [handleMedicationChange] passes to [setMedications]. *)
Definition handleMedicationChange (id : string) (field : Key) (value : string)
    (prev : list MedicationInfo) : list MedicationInfo :=
  map (fun med => if String.eqb (med_id med) id
                  then setField med field value else med) prev.

(** The updates of [medications] made by [handleDrugNameChange]: the product
    name is stored, and a blank name also clears the ingredient name. *)
Definition handleDrugNameChange (host : Host) (id value : string)
    (prev : list MedicationInfo) : list MedicationInfo :=
  let named := handleMedicationChange id K_productName value prev in
  if truthy (trim host value) then named
  else handleMedicationChange id K_ingredientName "" named.

(** The entry that [addMedication] appends; [newId] is
    [Date.now().toString() + Math.random().toString(36).slice(2)]. *)
Definition blankMedication (newId : string) : MedicationInfo :=
  {| med_id := newId; productName := ""; ingredientName := ""; dosage := "";
     frequency := ""; duration := ""; unit := Some "" |}.

Definition addMedication (newId : string) (prev : list MedicationInfo)
  : list MedicationInfo :=
  prev ++ [blankMedication newId].

(** [removeMedication]: with at most one medication in the list it sees, it
    alerts and stops ([None]); otherwise it schedules, 200 ms later, the
    updater returned here. *)
Definition removeMedication (medications : list MedicationInfo) (id : string)
  : option (list MedicationInfo -> list MedicationInfo) :=
  if (List.length medications <=? 1)%nat then None
  else Some (filter (fun med => negb (String.eqb (med_id med) id))).

(** The initial list ([useState<MedicationInfo[]>]). *)
Definition initialMedications : list MedicationInfo := [blankMedication "1"].

End MedicationList.

(** ** Prescription lines sent to the server *)

Module Submission.

Import NewAudit.

(** A member of [drug_data] that the code tests for truthiness and hands to
    [parseFloat]: a JSON string or a JSON number. *)
Inductive JsonScalar : Type :=
| JsonString (s : string)
| JsonNumber (n : number).

Definition scalarTruthy (v : JsonScalar) : bool :=
  match v with
  | JsonString s => truthy s
  | JsonNumber n => negb (isNaN n) && negb (strict_eq n (Fin 0))
  end.

(** [parseFloat(v)]: the argument is first converted to a string. *)
Definition parseFloatScalar (host : Host) (v : JsonScalar) : number :=
  match v with
  | JsonString s => parseFloat host s
  | JsonNumber n => parseFloat host (toString host n)
  end.

(** The two members of [drug_data] that the client reads. *)
Record DrugData : Type := {
  품목기준코드 : option JsonScalar;
  약품규격_숫자 : option JsonScalar
}.

(** interface DrugSearchResponse (services/api.ts) *)
Record DrugSearchResponse : Type := {
  found : bool;
  drug_data : option DrugData;
  message : option string
}.

(** One element of [prescriptionsData]. *)
Record PrescriptionCreateRequest : Type := {
  order_id : option Z;
  drug_id : option JsonScalar;
  drug_korean_name : string;
  drug_ingredient : string;
  dose_amount : string;
  dose_unit : string;
  real_amount : number;
  doses_per_day : number;
  duration_days : number
}.

(** [x || 1] on numbers. *)
Definition or_one (x : number) : number :=
  match x with
  | NaN => Fin 1
  | Fin r => if Reqb r 0 then Fin 1 else x
  | _ => x
  end.

(** [med.unit || "정"] *)
Definition unitOr (u : option string) (fallback : string) : string :=
  match u with Some s => or_else s fallback | None => fallback end.

(** [let real_amount = parseFloat(dosage) || 0], replaced by
    [specAmount * doseAmount] when the drug record carries 약품규격_숫자. *)
Definition realAmount (host : Host) (dosage : string) (data : option DrugData)
  : number :=
  match data with
  | Some d =>
      match 약품규격_숫자 d with
      | Some v =>
          if scalarTruthy v
          then
            let specAmount := parseFloatScalar host v in
            let doseAmount := or_one (parseFloat host dosage) in
            (specAmount * doseAmount)%js
          else or_zero (parseFloat host dosage)
      | None => or_zero (parseFloat host dosage)
      end
  | None => or_zero (parseFloat host dosage)
  end.

(** The body of the [map] callback of NewAudit.tsx for one medication and its
    [drugResults[index]]. *)
Definition lineOf (host : Host) (parseInt : string -> number)
    (order : option Z) (med : MedicationInfo) (drugResult : DrugSearchResponse)
  : PrescriptionCreateRequest :=
  let usable :=
    if found drugResult then drug_data drugResult else None in
  {| order_id := order;
     drug_id := match usable with Some d => 품목기준코드 d | None => None end;
     drug_korean_name := productName med;
     drug_ingredient := or_else (ingredientName med) "";
     dose_amount := dosage med;
     dose_unit := unitOr (unit med) "정";
     real_amount := realAmount host (dosage med) usable;
     doses_per_day := or_one (parseInt (frequency med));
     duration_days := or_one (parseInt (duration med)) |}.

(** The line built in the [catch] branch, without any drug record. *)
Definition defaultLine (host : Host) (parseInt : string -> number)
    (order : option Z) (med : MedicationInfo) : PrescriptionCreateRequest :=
  {| order_id := order;
     drug_id := None;
     drug_korean_name := productName med;
     drug_ingredient := or_else (ingredientName med) "";
     dose_amount := dosage med;
     dose_unit := unitOr (unit med) "정";
     real_amount := or_zero (parseFloat host (dosage med));
     doses_per_day := or_one (parseInt (frequency med));
     duration_days := or_one (parseInt (duration med)) |}.

(** What the batch search gave: a failed request, or the array
    [drugResults]. *)
Inductive BatchSearch : Type :=
| BatchFailed
| BatchResults (drugResults : list DrugSearchResponse).

(** [validMedications.map((med, index) => ...)]: reading a member of
    [drugResults[index]] throws when the array is too short. *)
Fixpoint mapWithResults (host : Host) (parseInt : string -> number)
    (order : option Z) (meds : list MedicationInfo)
    (drugResults : list DrugSearchResponse) (index : nat)
  : option (list PrescriptionCreateRequest) :=
  match meds with
  | [] => Some []
  | med :: rest =>
      match nth_error drugResults index with
      | Some drugResult =>
          match mapWithResults host parseInt order rest drugResults (S index) with
          | Some lines => Some (lineOf host parseInt order med drugResult :: lines)
          | None => None
          end
      | None => None
      end
  end.

(** [prescriptionsData] of [handleAuditExecution]: the mapped lines, or the
    default lines when the [try] block threw. *)
Definition prescriptionsData (host : Host) (parseInt : string -> number)
    (order : option Z) (validMedications : list MedicationInfo)
    (batch : BatchSearch) : list PrescriptionCreateRequest :=
  let fallback := map (defaultLine host parseInt order) validMedications in
  match batch with
  | BatchFailed => fallback
  | BatchResults drugResults =>
      match mapWithResults host parseInt order validMedications drugResults 0 with
      | Some lines => lines
      | None => fallback
      end
  end.

(** A number that [||] does not replace. *)
Definition truthyNumber (x : number) : Prop := x <> NaN /\ x <> Fin 0.

(** What a line owes to its medication, with or without a drug record. *)
Definition builtFrom (parseInt : string -> number) (order : option Z)
    (med : MedicationInfo) (line : PrescriptionCreateRequest) : Prop :=
  order_id line = order
  /\ drug_korean_name line = productName med
  /\ drug_ingredient line = ingredientName med
  /\ dose_amount line = dosage med
  /\ dose_unit line = unitOr (unit med) "정"
  /\ doses_per_day line = or_one (parseInt (frequency med))
  /\ duration_days line = or_one (parseInt (duration med)).

End Submission.

(** ** Resident registration numbers *)

(** The strings of this section are the two halves of a resident number.
    [handleInputChange] and [handleVerificationInputChange] keep nothing but
    the characters 0 to 9 in them, so a character is a byte and [length]
    counts characters. *)
Module ResidentNumber.

Local Open Scope char_scope.

(** [\d] *)
Definition isDigit (c : Ascii.ascii) : bool :=
  (48 <=? Ascii.nat_of_ascii c)%nat && (Ascii.nat_of_ascii c <=? 57)%nat.

Fixpoint onlyDigits (s : string) : bool :=
  match s with
  | EmptyString => true
  | String c rest => isDigit c && onlyDigits rest
  end.

(** [value.replace(/[^0-9]/g, '')] *)
Fixpoint stripNonDigits (value : string) : string :=
  match value with
  | EmptyString => EmptyString
  | String c rest =>
      if isDigit c then String c (stripNonDigits rest) else stripNonDigits rest
  end.

(** [s.charAt(0)] *)
Definition charAt0 (s : string) : string :=
  match s with
  | EmptyString => EmptyString
  | String c _ => String c EmptyString
  end.

(** [parseInt] of a string of at most one character, the only kind of
    argument it is given here: the digit, or [NaN] ([None]). *)
Definition parseIntChar (s : string) : option Z :=
  match s with
  | String c EmptyString =>
      if isDigit c then Some (Z.of_nat (Ascii.nat_of_ascii c) - 48)%Z else None
  | _ => None
  end.

(** [genderDigit === n] *)
Definition digitIs (genderDigit : option Z) (n : Z) : bool :=
  match genderDigit with Some d => (d =? n)%Z | None => false end.

Local Open Scope string_scope.

(** [s.substring(a, b)] for [a <= b] *)
Definition substring_js (a b : nat) (s : string) : string :=
  substring a (b - a) s.

End ResidentNumber.

Module PrescriptionInputForm.

Import ResidentNumber.

(** [formData] *)
Record FormData : Type := {
  patientName : string;
  residentNumberFront : string;
  residentNumberBack : string
}.

(** The three inputs whose [onChange] is [handleInputChange]. *)
Inductive Input : Type :=
| In_patientName | In_residentNumberFront | In_residentNumberBack.

(** [name.includes('residentNumber')] *)
Definition isResidentNumber (name : Input) : bool :=
  match name with In_patientName => false | _ => true end.

Definition handleInputChange (name : Input) (value : string) (prev : FormData)
  : FormData :=
  let processedValue :=
    if isResidentNumber name then stripNonDigits value else value in
  match name with
  | In_patientName =>
      {| patientName := processedValue;
         residentNumberFront := residentNumberFront prev;
         residentNumberBack := residentNumberBack prev |}
  | In_residentNumberFront =>
      {| patientName := patientName prev;
         residentNumberFront := processedValue;
         residentNumberBack := residentNumberBack prev |}
  | In_residentNumberBack =>
      {| patientName := patientName prev;
         residentNumberFront := residentNumberFront prev;
         residentNumberBack := processedValue |}
  end.

(** [extractInfoFromResidentNumber]: [null], or [{ birthDate, sex }]. *)
Definition extractInfoFromResidentNumber (front back : string)
  : option (string * string) :=
  if negb (String.length front =? 6)%nat || negb (String.length back =? 1)%nat
  then None
  else
    let year := substring_js 0 2 front in
    let month := substring_js 2 4 front in
    let day := substring_js 4 6 front in
    let genderDigit := parseIntChar back in
    let sex :=
      if digitIs genderDigit 1 || digitIs genderDigit 3 then "M" else "F" in
    let fullYear :=
      if digitIs genderDigit 1 || digitIs genderDigit 2
      then "19" ++ year else "20" ++ year in
    let birthDate := fullYear ++ "-" ++ month ++ "-" ++ day in
    Some (birthDate, sex).

(** What [autoSearchPatient] does first: it resets the patient status, or
    starts the search with the name, birth date and sex. *)
Inductive AutoSearch : Type :=
| ResetStatus
| SearchPatientByInfo (name birthDate sex : string).

Definition autoSearchPatient (name front back : string) : AutoSearch :=
  if negb (truthy name) || negb (String.length front =? 6)%nat
     || negb (String.length back =? 1)%nat
  then ResetStatus
  else
    match extractInfoFromResidentNumber front back with
    | None => ResetStatus
    | Some (birthDate, sex) => SearchPatientByInfo name birthDate sex
    end.

(** The form states: the initial one and those [handleInputChange] makes. *)
Definition initialFormData : FormData :=
  {| patientName := ""; residentNumberFront := ""; residentNumberBack := "" |}.

(** A sequence of [onChange] events, each handled by [handleInputChange]. *)
Definition typeAll (events : list (Input * string)) (form : FormData)
  : FormData :=
  fold_left (fun prev e => handleInputChange (fst e) (snd e) prev) events form.

End PrescriptionInputForm.

Module Verification.

Import ResidentNumber.

(** interface IdentityVerification (PatientManagement.tsx) *)
Record IdentityVerification : Type := {
  name : string;
  residentNumberFront : string;
  residentNumberBack : string;
  verificationCode : string;
  isVerified : bool
}.

(** The part of [handleSendVerificationCode] and of [handleVerifyCode] that
    derives the sex and the birth date. *)
Definition sexOf (back : string) : string :=
  let genderDigit := parseIntChar (charAt0 back) in
  if digitIs genderDigit 1 || digitIs genderDigit 3 then "M" else "F".

Definition birthDateOf (front back : string) : string :=
  let year := substring_js 0 2 front in
  let month := substring_js 2 4 front in
  let day := substring_js 4 6 front in
  let genderDigit := parseIntChar (charAt0 back) in
  let fullYear :=
    if digitIs genderDigit 1 || digitIs genderDigit 2
    then "19" ++ year else "20" ++ year in
  fullYear ++ "-" ++ month ++ "-" ++ day.

(** [handleSendVerificationCode] up to its request: an alert, or the
    duplicate check with name, birth date and sex. *)
Inductive SendCode : Type :=
| Alert (message : string)
| CheckPatientDuplicate (name birthDate sex : string).

Definition handleSendVerificationCode (v : IdentityVerification) : SendCode :=
  if negb (truthy (name v)) || negb (truthy (residentNumberFront v))
     || negb (truthy (residentNumberBack v))
  then Alert "이름과 주민등록번호를 모두 입력해주세요."
  else if negb (onlyDigits (residentNumberFront v)
                && (String.length (residentNumberFront v) =? 6)%nat)
  then Alert "주민등록번호 앞자리가 올바르지 않습니다. (6자리 숫자)"
  else if negb (onlyDigits (residentNumberBack v)
                && (String.length (residentNumberBack v) =? 7)%nat)
  then Alert "주민등록번호 뒷자리가 올바르지 않습니다. (7자리 숫자)"
  else
    CheckPatientDuplicate (name v)
      (birthDateOf (residentNumberFront v) (residentNumberBack v))
      (sexOf (residentNumberBack v)).

(** The gender that [handleVerificationInputChange] writes into the new
    patient once the back half has seven digits:
    [genderDigit % 2 === 1 ? 'male' : 'female']. *)
Definition genderOf (numericValue : string) : string :=
  match parseIntChar (charAt0 numericValue) with
  | Some d => if (Z.rem d 2 =? 1)%Z then "male" else "female"
  | None => "female"
  end.

(** The four inputs whose [onChange] is [handleVerificationInputChange]. *)
Inductive Input : Type :=
| In_name | In_residentNumberFront | In_residentNumberBack
| In_verificationCode.

(** What one call of [handleVerificationInputChange] does: the new
    [identityVerification], and the birth date and the gender it writes into
    [newPatientData], if any. *)
Record Change : Type := {
  updated : IdentityVerification;
  newBirthDate : option string;
  newGender : option string
}.

Definition handleVerificationInputChange (input : Input) (value : string)
    (prev : IdentityVerification) : Change :=
  let numericValue :=
    match input with
    | In_residentNumberFront | In_residentNumberBack => stripNonDigits value
    | _ => value
    end in
  let updated :=
    match input with
    | In_name =>
        {| name := numericValue;
           residentNumberFront := residentNumberFront prev;
           residentNumberBack := residentNumberBack prev;
           verificationCode := verificationCode prev;
           isVerified := isVerified prev |}
    | In_residentNumberFront =>
        {| name := name prev;
           residentNumberFront := numericValue;
           residentNumberBack := residentNumberBack prev;
           verificationCode := verificationCode prev;
           isVerified := isVerified prev |}
    | In_residentNumberBack =>
        {| name := name prev;
           residentNumberFront := residentNumberFront prev;
           residentNumberBack := numericValue;
           verificationCode := verificationCode prev;
           isVerified := isVerified prev |}
    | In_verificationCode =>
        {| name := name prev;
           residentNumberFront := residentNumberFront prev;
           residentNumberBack := residentNumberBack prev;
           verificationCode := numericValue;
           isVerified := isVerified prev |}
    end in
  {| updated := updated;
     newBirthDate :=
       match input with
       | In_residentNumberFront =>
           if (String.length numericValue =? 6)%nat
              && (1 <=? String.length (residentNumberBack updated))%nat
           then Some (birthDateOf numericValue (residentNumberBack updated))
           else None
       | _ => None
       end;
     newGender :=
       match input with
       | In_residentNumberBack =>
           if (String.length numericValue =? 7)%nat
           then Some (genderOf numericValue) else None
       | _ => None
       end |}.

End Verification.

(** ** Patient identifiers (PatientManagement.tsx) *)

Module PatientIds.

Import ResidentNumber.

(** A value of [maxNumber] and [nextNumber]: each number fed to [Math.max]
    is the literal 0 or the [parseInt] of three digits, so the maximum is an
    integer, or [-Infinity] for the empty list. *)
Inductive Count : Type :=
| NegInfinity
| Finite (n : Z).

(** [id.match(/P\d{4}(\d{3})/)]: the capture group of the leftmost match. *)
Fixpoint matchId (id : string) : option string :=
  match id with
  | EmptyString => None
  | String c rest =>
      if Ascii.eqb c "P"%char
         && (String.length (substring 0 7 rest) =? 7)%nat
         && onlyDigits (substring 0 7 rest)
      then Some (substring 4 3 rest)
      else matchId rest
  end.

(** [parseInt] of a string of decimal digits (here the capture group). *)
Definition parseIntDigits (digits : string) : Z :=
  let fix go (acc : Z) (s : string) : Z :=
    match s with
    | EmptyString => acc
    | String c rest =>
        go (10 * acc + (Z.of_nat (Ascii.nat_of_ascii c) - 48))%Z rest
    end in
  go 0%Z digits.

(** [match ? parseInt(match[1]) : 0] *)
Definition numberOf (id : string) : Z :=
  match matchId id with
  | Some digits => parseIntDigits digits
  | None => 0%Z
  end.

(** [Math.max(...numbers)] *)
Definition Math_max_all (numbers : list Z) : Count :=
  fold_left (fun m n => match m with
                        | NegInfinity => Finite n
                        | Finite k => Finite (Z.max k n)
                        end) numbers NegInfinity.

(** [m + 1] *)
Definition succ (m : Count) : Count :=
  match m with NegInfinity => NegInfinity | Finite n => Finite (n + 1) end.

(** The decimal text of an integer. *)
Definition showZ (n : Z) : string := NilZero.string_of_int (Z.to_int n).

(** [m.toString()] *)
Definition showCount (m : Count) : string :=
  match m with NegInfinity => "-Infinity" | Finite n => showZ n end.

(** [s.padStart(3, '0')] *)
Definition padStart3 (s : string) : string :=
  match String.length s with
  | 0%nat => "000" ++ s
  | 1%nat => "00" ++ s
  | 2%nat => "0" ++ s
  | _ => s
  end.

(** [generatePatientId]; [year] is [new Date().getFullYear()] and
    [existingIds] is [patients.map(p => p.id.toString())]. *)
Definition generatePatientId (year : Z) (existingIds : list string) : string :=
  let maxNumber := Math_max_all (map numberOf existingIds) in
  let nextNumber := succ maxNumber in
  "P" ++ showZ year ++ padStart3 (showCount nextNumber).

End PatientIds.

(** ** The history list (AuditHistory.tsx) *)

Module HistoryList.

Import AuditHistory.

(** The [matchesStatus] of the filter callback. *)
Definition matchesStatus (statusFilter : string) (record : AuditRecord) : bool :=
  String.eqb statusFilter "all"
  || (String.eqb statusFilter "completed"
      && forallb (fun p => String.eqb (audit_result p) "-")
           (prescriptions record))
  || (String.eqb statusFilter "pending"
      && existsb isPending (prescriptions record))
  || (String.eqb statusFilter "failed"
      && existsb isAbnormal (prescriptions record)).

(** The [matchesSearch] of the filter callback; [toLowerCase] and [includes]
    are the methods of [String.prototype]. *)
Definition matchesSearch (host : Host) (toLowerCase : string -> string)
    (includes : string -> string -> bool)
    (searchTerm : string) (record : AuditRecord) : bool :=
  String.eqb searchTerm ""
  || includes (toLowerCase (patient_name record)) (toLowerCase searchTerm)
  || includes (toString host (Fin (IZR (order_id record)))) searchTerm.

Definition filteredRecords (host : Host) (toLowerCase : string -> string)
    (includes : string -> string -> bool)
    (searchTerm statusFilter : string) (auditRecords : list AuditRecord)
  : list AuditRecord :=
  filter (fun record =>
            matchesSearch host toLowerCase includes searchTerm record
            && matchesStatus statusFilter record) auditRecords.

(** [filteredRecords.slice(0, displayCount)] *)
Definition displayedRecords (filtered : list AuditRecord) (displayCount : nat)
  : list AuditRecord :=
  firstn displayCount filtered.

Definition hasMoreRecords (filtered : list AuditRecord) (displayCount : nat)
  : bool :=
  (displayCount <? List.length filtered)%nat.

(** [setDisplayCount(prev => prev + 30)] *)
Definition handleLoadMore (prev : nat) : nat := (prev + 30)%nat.

(** [convertToPopupPrescriptions] *)
Definition convertToPopupPrescriptions (prescriptions : list Prescription)
  : list AuditResultPopup.Prescription :=
  map (fun p =>
         {| AuditResultPopup.id := id p;
            AuditResultPopup.drug_korean_name := drug_name p;
            AuditResultPopup.audit_result := audit_result p;
            AuditResultPopup.information := information p;
            AuditResultPopup.dose_amount := dose_amount p;
            AuditResultPopup.dose_unit := dose_unit p;
            AuditResultPopup.doses_per_day := doses_per_day p;
            AuditResultPopup.duration_days := duration_days p;
            AuditResultPopup.audit_comment := None |}) prescriptions.

End HistoryList.

(** ** The result popup and its fax report (AuditResultPopup.tsx) *)

Module PopupActions.

Import AuditResultPopup.

(** [s && ...] on an optional string member. *)
Definition present (s : option string) : bool :=
  match s with Some v => truthy v | None => false end.

(** [getAuditResultInfo]: the information stored with the line, when there
    is one, replaces the description of the table. *)
Definition getAuditResultInfo (prescription : Prescription) : AuditResultInfo :=
  let baseInfo := getBaseInfo (audit_result prescription) in
  match information prescription with
  | Some info =>
      if truthy info
      then {| icon := icon baseInfo; label := label baseInfo;
              badgeClass := badgeClass baseInfo; description := info |}
      else baseInfo
  | None => baseInfo
  end.

(** [getDefaultDescription] *)
Definition getDefaultDescription (auditResult : string) : string :=
  if String.eqb auditResult "금기"
  then "이 약물은 현재 상황에서 사용이 금기됩니다."
  else if String.eqb auditResult "용량조절필요"
  then "환자의 상태에 따라 용량 조절이 필요합니다."
  else if String.eqb auditResult "투여간격조절필요"
  then "투여 간격을 조절해야 합니다."
  else if String.eqb auditResult "정상" || String.eqb auditResult "-"
  then "처방이 정상입니다."
  else "감사 결과를 확인할 수 없습니다.".

(** [prescription.information || auditInfo.description], the text of the
    information row. *)
Definition informationRow (prescription : Prescription) : string :=
  match information prescription with
  | Some info =>
      or_else info (description (getAuditResultInfo prescription))
  | None => description (getAuditResultInfo prescription)
  end.

(** The updater of [handlePrescriptionToggle]. *)
Definition handlePrescriptionToggle (prescriptionId : Z) (prev : list Z)
  : list Z :=
  if existsb (Z.eqb prescriptionId) prev
  then filter (fun id => negb (id =? prescriptionId)%Z) prev
  else prev ++ [prescriptionId].

(** The comparator of the two [sort] calls: normal lines go last. *)
Definition isNormal (p : Prescription) : bool :=
  String.eqb (audit_result p) "-" || String.eqb (audit_result p) "정상".

Definition compareLines (a b : Prescription) : Z :=
  let aIsNormal := isNormal a in
  let bIsNormal := isNormal b in
  if aIsNormal && negb bIsNormal then 1%Z
  else if negb aIsNormal && bIsNormal then (-1)%Z
  else 0%Z.

(** The parts of the text of [generateFaxContent] that depend on the audit
    results: the header, the summary line and the lines in printed order.
    [sort] is [Array.prototype.sort]. *)
Record FaxContent : Type := {
  header : string;
  summary : string;
  lines : list Prescription
}.

Definition generateFaxContent
    (sort : (Prescription -> Prescription -> Z) -> list Prescription
            -> list Prescription)
    (prescriptionsToUse : list Prescription) : FaxContent :=
  let hasIssues := existsb isIssue prescriptionsToUse in
  let issueCount := List.length (filter isIssue prescriptionsToUse) in
  {| header :=
       if hasIssues then "⚠️ 처방 이상 사항 보고서"
       else "✅ 처방 감사 결과 보고서";
     summary :=
       "처방 감사 결과 (총 " ++ showCount (List.length prescriptionsToUse)
       ++ "건"
       ++ (if hasIssues then ", 이상 " ++ showCount issueCount ++ "건"
           else ", 모두 정상")
       ++ ")";
     lines := sort compareLines prescriptionsToUse |}.

(** [handleGenerateFaxReport]: an alert when nothing is selected, otherwise
    the report on the selected lines. *)
Inductive FaxReport : Type :=
| NothingSelected (message : string)
| Printed (content : FaxContent).

Definition handleGenerateFaxReport
    (sort : (Prescription -> Prescription -> Z) -> list Prescription
            -> list Prescription)
    (selectedPrescriptions : list Z) (prescriptions : list Prescription)
  : FaxReport :=
  if (List.length selectedPrescriptions =? 0)%nat
  then NothingSelected
         "선택된 처방이 없습니다. 하나 이상의 처방을 선택해주세요."
  else
    let selectedPrescriptionData :=
      filter (fun p => existsb (Z.eqb (id p)) selectedPrescriptions)
        prescriptions in
    Printed (generateFaxContent sort selectedPrescriptionData).

(** The lines offered for selection in the fax dialog. *)
Definition selectable (prescriptions : list Prescription) : list Prescription :=
  filter isIssue prescriptions.

(** A sort that meets the contract of [Array.prototype.sort] for
    [compareLines]: the lines that are not normal, then the normal ones, each
    group in its original order. *)
Definition abnormalFirst (_ : Prescription -> Prescription -> Z)
    (l : list Prescription) : list Prescription :=
  filter (fun p => negb (isNormal p)) l ++ filter isNormal l.

(** The selection after a sequence of clicks in the fax dialog. *)
Definition toggleAll (clicks : list Z) (selected : list Z) : list Z :=
  fold_left (fun prev prescriptionId =>
               handlePrescriptionToggle prescriptionId prev) clicks selected.

(** The first half of the contract of [Array.prototype.sort] for
    [compareLines]: the comparator is not positive on two lines taken in the
    order of the sorted list. *)
Fixpoint ordered (l : list Prescription) : bool :=
  match l with
  | [] => true
  | a :: rest =>
      forallb (fun b => (compareLines a b <=? 0)%Z) rest && ordered rest
  end.

(** The second half: the sort is stable, so the lines that compare equal,
    which are the normal ones and the others, keep their relative order. *)
Definition stable (sorted l : list Prescription) : Prop :=
  filter isNormal sorted = filter isNormal l
  /\ filter (fun p => negb (isNormal p)) sorted
     = filter (fun p => negb (isNormal p)) l.

End PopupActions.

(** ** useAuditPopup *)

Module UseAuditPopup.

(** interface AuditPopupData *)
Record AuditPopupData : Type := {
  patientInfo : PatientInfo;
  prescriptions : list AuditResultPopup.Prescription
}.

(** interface UseAuditPopupOptions, with its defaults applied *)
Record Options : Type := {
  autoNavigate : bool;
  navigatePath : string
}.

Definition defaultOptions : Options :=
  {| autoNavigate := false; navigatePath := "/" |}.

Record State : Type := {
  showAuditPopup : bool;
  auditPopupData : option AuditPopupData
}.

Definition initialState : State :=
  {| showAuditPopup := false; auditPopupData := None |}.

Inductive Call : Type :=
| OpenAuditPopup (data : AuditPopupData)
| CloseAuditPopup
| ResetAuditPopup.

(** One call of the hook's functions: the new state and the path handed to
    [navigate], if any. *)
Definition call (options : Options) (c : Call) (s : State)
  : State * option string :=
  match c with
  | OpenAuditPopup data =>
      ({| showAuditPopup := true; auditPopupData := Some data |}, None)
  | CloseAuditPopup =>
      ({| showAuditPopup := false; auditPopupData := None |},
       if autoNavigate options then Some (navigatePath options) else None)
  | ResetAuditPopup =>
      ({| showAuditPopup := false; auditPopupData := None |}, None)
  end.

Definition run (options : Options) (calls : list Call) (s : State) : State :=
  fold_left (fun st c => fst (call options c st)) calls s.

End UseAuditPopup.

(** ** Evaluating the number model *)

Lemma Rltb_true (a b : R) : a < b -> Rltb a b = true.
Proof. intros H. unfold Rltb. destruct (Rlt_dec a b); [reflexivity | contradiction]. Qed.

Lemma Rltb_false (a b : R) : b <= a -> Rltb a b = false.
Proof. intros H. unfold Rltb. destruct (Rlt_dec a b); [lra | reflexivity]. Qed.

Lemma Reqb_true (a b : R) : a = b -> Reqb a b = true.
Proof. intros H. unfold Reqb. destruct (Req_dec_T a b); [reflexivity | contradiction]. Qed.

Lemma Reqb_false (a b : R) : a <> b -> Reqb a b = false.
Proof. intros H. unfold Reqb. destruct (Req_dec_T a b); [contradiction | reflexivity]. Qed.

Lemma Rltb_IZR (a b : Z) : Rltb (IZR a) (IZR b) = (a <? b)%Z.
Proof.
  destruct (Z.ltb_spec a b) as [H | H].
  - apply Rltb_true. now apply IZR_lt.
  - apply Rltb_false. now apply IZR_le.
Qed.

Lemma Reqb_IZR (a b : Z) : Reqb (IZR a) (IZR b) = (a =? b)%Z.
Proof.
  destruct (Z.eqb_spec a b) as [H | H].
  - apply Reqb_true. now subst.
  - apply Reqb_false. intros E. now apply eq_IZR in E.
Qed.

Lemma div_Fin (a b : R) : b <> 0 -> (Fin a / Fin b)%js = Fin (a / b).
Proof. intros H. unfold div. now rewrite (Reqb_false _ _ H). Qed.

Lemma div_zero_pos (a : R) : 0 < a -> (Fin a / Fin 0)%js = PosInf.
Proof.
  intros H. unfold div. rewrite Reqb_true by reflexivity.
  rewrite Reqb_false by lra. now rewrite Rltb_true.
Qed.

Lemma div_zero_zero : (Fin 0 / Fin 0)%js = NaN.
Proof. unfold div. now rewrite Reqb_true. Qed.

Lemma Math_pow_pos (x y : R) :
  0 < x -> y <> 0 -> Math_pow (Fin x) (Fin y) = Fin (Rpower x y).
Proof.
  intros Hx Hy. unfold Math_pow; simpl.
  rewrite (Reqb_false y 0 Hy), Reqb_false by lra.
  now rewrite Rltb_true.
Qed.

Lemma Math_pow_zero_pos (y : R) : 0 < y -> Math_pow (Fin 0) (Fin y) = Fin 0.
Proof.
  intros Hy. unfold Math_pow; simpl.
  rewrite (Reqb_false y 0) by lra. rewrite Reqb_true by reflexivity.
  now rewrite Rltb_true.
Qed.


Lemma Rpower_pos (x y : R) : 0 < Rpower x y.
Proof. unfold Rpower. apply exp_pos. Qed.


(** Unfolds the arithmetic on finite arguments and settles the comparisons
    that linear arithmetic decides. *)
Ltac js_eval :=
  unfold lit;
  cbn [add sub neg mul lit getFullYear getMonth getDate
       lt strict_eq isNaN orb andb negb Math_max];
  repeat first
    [ rewrite div_Fin by lra
    | rewrite Rltb_true by lra
    | rewrite Rltb_false by lra
    | rewrite Reqb_true by lra
    | rewrite Reqb_false by lra
    | rewrite Math_pow_pos by lra
    | progress cbn [add sub neg mul lit lt strict_eq isNaN orb andb negb
                    Math_max] ].

(** ** Age *)

Section Age.

Variables (birthYear birthMonth birthDay : Z) (birthTime : Z).
Variables (year month day : Z) (time : Z).

Let birth := ValidDate birthYear birthMonth birthDay birthTime.
Let today := ValidDate year month day time.

(** [calculateAge] of PatientManagement.tsx computes [computeAge] of the
    specification on every pair of valid dates. *)
Lemma calculateAge_computeAge :
  PatientManagement.calculateAge today birth
  = Fin (IZR (Spec.computeAge birthYear birthMonth birthDay year month day)).
Proof.
  unfold PatientManagement.calculateAge, Spec.computeAge, Spec.monthDayEarlier.
  cbn [today birth getFullYear getMonth getDate sub add neg lt strict_eq lit].
  change (IZR month + - IZR birthMonth) with (IZR month - IZR birthMonth).
  rewrite <- minus_IZR.
  rewrite (Rltb_IZR (month - birthMonth) 0), (Reqb_IZR (month - birthMonth) 0).
  rewrite Rltb_IZR.
  replace (month - birthMonth <? 0)%Z with (month <? birthMonth)%Z
    by (destruct (Z.ltb_spec month birthMonth),
                 (Z.ltb_spec (month - birthMonth) 0); lia).
  replace (month - birthMonth =? 0)%Z with (month =? birthMonth)%Z
    by (destruct (Z.eqb_spec month birthMonth),
                 (Z.eqb_spec (month - birthMonth) 0); lia).
  destruct ((month <? birthMonth)%Z
            || (month =? birthMonth)%Z && (day <? birthDay)%Z);
    cbn [add neg]; f_equal; rewrite !minus_IZR; lra.
Qed.

(** The copies in NewAudit.tsx and AuditHistory.tsx are the same function. *)
Lemma calculateAge_copies :
  NewAudit.calculateAge today birth = PatientManagement.calculateAge today birth
  /\ AuditHistory.calculateAge today birth
     = PatientManagement.calculateAge today birth.
Proof. split; reflexivity. Qed.

(** The copy in AuditResultPopup.tsx agrees on a non-empty [birthDate] and
    answers 0 on an empty one. *)
Lemma calculateAge_popup (host : Host) (birthDate : string) :
  AuditResultPopup.calculateAge host today birthDate
  = if truthy birthDate
    then PatientManagement.calculateAge today (newDate host birthDate)
    else Fin 0.
Proof.
  unfold AuditResultPopup.calculateAge. now destruct (truthy birthDate).
Qed.

(** [computeAge] is the number of birthdays reached: the birthday of that
    age is on or before [asOf], the next one is after it. *)
Lemma computeAge_birthdays :
  let age := Spec.computeAge birthYear birthMonth birthDay year month day in
  Spec.dateLe (birthYear + age) birthMonth birthDay year month day
  /\ ~ Spec.dateLe (birthYear + age + 1) birthMonth birthDay year month day.
Proof.
  unfold Spec.computeAge, Spec.monthDayEarlier, Spec.dateLe.
  destruct (Z.ltb_spec month birthMonth), (Z.eqb_spec month birthMonth),
           (Z.ltb_spec day birthDay); cbn [orb andb]; lia.
Qed.

End Age.

(** ** The renal formulas on finite, positive inputs *)

Section Formulas.

Variables scr weight : R.
Hypothesis scr_pos : 0 < scr.
Hypothesis weight_pos : 0 < weight.

Lemma female_not_male : String.eqb "female" "male" = false.
Proof. reflexivity. Qed.

(** The local [crcl] of NewAudit.tsx is the Cockcroft-Gault value. *)
Lemma rawCrCl_cockcroftGault (age : R) (gender : string) :
  gender = "male" \/ gender = "female" ->
  NewAudit.rawCrCl (Fin age) (Fin scr) (Fin weight) gender
  = Fin (Spec.cockcroftGault age weight scr (String.eqb gender "female")).
Proof.
  intros [-> | ->]; unfold NewAudit.rawCrCl, Spec.cockcroftGault;
    cbn [String.eqb Ascii.eqb Bool.eqb]; js_eval; f_equal; field; lra.
Qed.

(** The local [crcl] of PatientManagement.tsx is the Cockcroft-Gault value of
    the age that [calculateAge] returns. *)
Lemma kidneyValues_crcl (height : number) (gender : string)
    (by_ bm bd bt ty tm td tt : Z) :
  gender = "male" \/ gender = "female" ->
  PatientManagement.v_crcl
    (PatientManagement.kidneyValues (ValidDate ty tm td tt)
       (Fin scr) (Fin weight) height gender (ValidDate by_ bm bd bt))
  = Fin (Spec.cockcroftGault (IZR (Spec.computeAge by_ bm bd ty tm td))
           weight scr (String.eqb gender "female")).
Proof.
  intros Hg. unfold PatientManagement.kidneyValues.
  cbn [PatientManagement.v_crcl]. rewrite calculateAge_computeAge.
  destruct Hg as [-> | ->]; unfold Spec.cockcroftGault;
    cbn [String.eqb Ascii.eqb Bool.eqb]; js_eval; f_equal; field; lra.
Qed.

End Formulas.

Lemma cockcroftGault_factor (weight scr : R) (female : bool) :
  0 < scr -> 0 < weight ->
  0 < weight / (72 * scr) * (if female then 0.85 else 1).
Proof.
  intros Hs Hw. apply Rmult_lt_0_compat.
  - apply Rdiv_lt_0_compat; lra.
  - destruct female; lra.
Qed.

Lemma cockcroftGault_nonneg (age weight scr : R) (female : bool) :
  0 < scr -> 0 < weight -> age <= 140 ->
  0 <= Spec.cockcroftGault age weight scr female.
Proof.
  intros Hs Hw Ha. pose proof (cockcroftGault_factor weight scr female Hs Hw) as K.
  unfold Spec.cockcroftGault.
  replace ((140 - age) * weight / (72 * scr) * (if female then 0.85 else 1))
    with ((140 - age) * (weight / (72 * scr) * (if female then 0.85 else 1)))
    by (field; lra).
  apply Rmult_le_pos; lra.
Qed.

Lemma cockcroftGault_negative (age weight scr : R) (female : bool) :
  0 < scr -> 0 < weight -> 140 < age ->
  Spec.cockcroftGault age weight scr female < 0.
Proof.
  intros Hs Hw Ha. pose proof (cockcroftGault_factor weight scr female Hs Hw) as K.
  unfold Spec.cockcroftGault.
  replace ((140 - age) * weight / (72 * scr) * (if female then 0.85 else 1))
    with (- ((age - 140) * (weight / (72 * scr) * (if female then 0.85 else 1))))
    by (field; lra).
  assert (0 < (age - 140) * (weight / (72 * scr) * (if female then 0.85 else 1)))
    by (apply Rmult_lt_0_compat; lra).
  lra.
Qed.

(** The [crcl] that NewAudit.tsx returns: the Cockcroft-Gault value of the
    year difference, with a negative value replaced by zero. *)
Lemma NewAudit_crcl_clamped (scr weight : R) (height : number)
    (gender : string) (by_ bm bd bt ty tm td tt : Z) :
  0 < scr -> 0 < weight -> gender = "male" \/ gender = "female" ->
  NewAudit.kf_crcl
    (NewAudit.calculateKidneyFunction (ValidDate ty tm td tt)
       (Fin scr) (Fin weight) height gender (ValidDate by_ bm bd bt))
  = Fin (Rmax (Spec.cockcroftGault (IZR (ty - by_)) weight scr
                 (String.eqb gender "female")) 0).
Proof.
  intros Hs Hw Hg. unfold NewAudit.calculateKidneyFunction, NewAudit.kidneyAge.
  cbn [NewAudit.kf_crcl getFullYear sub add neg].
  change (IZR ty + - IZR by_) with (IZR ty - IZR by_). rewrite <- minus_IZR.
  now rewrite rawCrCl_cockcroftGault.
Qed.

(** C5, as amended.  For a positive serum creatinine, a positive weight and a
    sex, the creatinine clearance is
    [((140 - age) * weightKg) / (72 * scr)], times 0.85 exactly for a female,
    as long as the computed age is at most 140; for an older age the value
    that NewAudit.tsx returns is 0.  The age is the one each calculator
    computes: the year difference in NewAudit.tsx, [calculateAge] in
    PatientManagement.tsx. *)
Theorem crcl_cockcroft_gault_up_to_140 (scr weight : R) (height : number)
    (gender : string) (by_ bm bd bt ty tm td tt : Z) :
  0 < scr -> 0 < weight -> gender = "male" \/ gender = "female" ->
  let today := ValidDate ty tm td tt in
  let birth := ValidDate by_ bm bd bt in
  let female := String.eqb gender "female" in
  let yearsApart := (ty - by_)%Z in
  let age := Spec.computeAge by_ bm bd ty tm td in
  let r := NewAudit.calculateKidneyFunction today (Fin scr) (Fin weight)
             height gender birth in
  let v := PatientManagement.kidneyValues today (Fin scr) (Fin weight)
             height gender birth in
  ((yearsApart <= 140)%Z ->
     NewAudit.kf_crcl r
     = Fin (Spec.cockcroftGault (IZR yearsApart) weight scr female))
  /\ ((140 < yearsApart)%Z -> NewAudit.kf_crcl r = Fin 0)
  /\ ((age <= 140)%Z ->
        PatientManagement.v_crcl v
        = Fin (Spec.cockcroftGault (IZR age) weight scr female)).
Proof.
  intros Hs Hw Hg today birth female yearsApart age r v.
  subst r v today birth. rewrite NewAudit_crcl_clamped by assumption.
  repeat split.
  - intros Ha. f_equal. apply Rmax_left.
    apply cockcroftGault_nonneg; try assumption.
    change 140 with (IZR 140). now apply IZR_le.
  - intros Ha. f_equal. apply Rmax_right. apply Rlt_le.
    apply cockcroftGault_negative; try assumption.
    change 140 with (IZR 140). now apply IZR_lt.
  - intros _. now apply kidneyValues_crcl.
Qed.

(** The scenario of the specification: male, 45 years, 70 kg, 1.0 mg/dL. *)
Lemma crcl_cockcroft_gault_scenario :
  let today := ValidDate 2025 5 15 0 in
  let birth := ValidDate 1980 5 15 0 in
  NewAudit.kf_crcl
    (NewAudit.calculateKidneyFunction today (Fin 1) (Fin 70) (Fin 175)
       "male" birth) = Fin (6650 / 72)
  /\ PatientManagement.v_crcl
       (PatientManagement.kidneyValues today (Fin 1) (Fin 70) (Fin 175)
          "male" birth) = Fin (6650 / 72).
Proof.
  intros today birth.
  destruct (crcl_cockcroft_gault_up_to_140 1 70 (Fin 175) "male"
              1980 5 15 0 2025 5 15 0) as (H1 & _ & H3);
    [lra | lra | now left | ].
  split.
  - unfold today, birth. rewrite H1 by lia.
    unfold Spec.cockcroftGault; cbn [String.eqb Ascii.eqb Bool.eqb].
    f_equal. replace (IZR (2025 - 1980)) with 45 by (simpl; lra). lra.
  - unfold today, birth. rewrite H3 by (vm_compute; discriminate).
    unfold Spec.cockcroftGault; cbn [String.eqb Ascii.eqb Bool.eqb].
    f_equal.
    replace (IZR (Spec.computeAge 1980 5 15 2025 5 15)) with 45
      by (vm_compute; lra).
    lra.
Defined.

(** C5, as stated, fails in NewAudit.tsx for an age above 140: the value
    returned is 0, not the negative Cockcroft-Gault value. *)
Lemma crcl_not_formula_above_140 :
  let r := NewAudit.calculateKidneyFunction (ValidDate 2025 5 15 0)
             (Fin 1) (Fin 70) (Fin 175) "male" (ValidDate 1875 0 1 0) in
  NewAudit.kf_crcl r = Fin 0
  /\ Spec.cockcroftGault 150 70 1 false < 0
  /\ NewAudit.kf_crcl r <> Fin (Spec.cockcroftGault 150 70 1 false).
Proof.
  intros r. subst r.
  rewrite NewAudit_crcl_clamped by (lra || now left).
  assert (Hneg : Spec.cockcroftGault 150 70 1 false < 0)
    by (apply cockcroftGault_negative; lra).
  replace (IZR (2025 - 1875)) with 150 by (simpl; lra).
  cbn [String.eqb Ascii.eqb Bool.eqb].
  rewrite Rmax_right by lra.
  repeat split; [assumption | ].
  intros E. injection E as E. lra.
Qed.

(** ** Sign of the metrics *)

Lemma bsaValue_computeBSA (weight height : R) :
  0 < weight -> 0 < height ->
  NewAudit.bsaValue (Fin weight) (Fin height)
  = Fin (Spec.computeBSA weight height).
Proof.
  intros Hw Hh. unfold NewAudit.bsaValue, Spec.computeBSA. now js_eval.
Qed.




(** C2 fails in PatientManagement.tsx, whose copy of the calculator returns
    the raw values: for a male of 70 kg, 175 cm and 1.0 mg/dL who is 145
    years old (born in 1880 and seen in 2025, or born in 1900, the earliest
    year the registration form derives, and seen in 2045) the creatinine
    clearance it formats is -350/72, while NewAudit.tsx returns 0 on the
    same input. *)
Theorem PatientManagement_crcl_negative :
  let run today birth :=
    PatientManagement.kidneyValues today (Fin 1) (Fin 70) (Fin 175)
      "male" birth in
  let today := ValidDate 2025 5 15 0 in
  let birth := ValidDate 1880 0 1 0 in
  PatientManagement.v_crcl (run today birth) = Fin (- 350 / 72)
  /\ PatientManagement.v_crcl
       (run (ValidDate 2045 5 15 0) (ValidDate 1900 0 1 0))
     = Fin (- 350 / 72)
  /\ (forall host,
        PatientManagement.kf_crcl
          (PatientManagement.calculateKidneyFunction host today
             (Fin 1) (Fin 70) (Fin 175) "male" birth)
        = toFixed host (Fin (- 350 / 72)) 1)
  /\ negative (Fin (- 350 / 72))
  /\ NewAudit.kf_crcl
       (NewAudit.calculateKidneyFunction today (Fin 1) (Fin 70) (Fin 175)
          "male" birth) = Fin 0.
Proof.
  intros run today birth.
  assert (E : forall by_ bm bd ty tm td,
            Spec.computeAge by_ bm bd ty tm td = 145%Z ->
            PatientManagement.v_crcl
              (run (ValidDate ty tm td 0) (ValidDate by_ bm bd 0))
            = Fin (- 350 / 72)).
  { intros by_ bm bd ty tm td A. unfold run.
    rewrite kidneyValues_crcl by (lra || now left). rewrite A.
    unfold Spec.cockcroftGault; cbn [String.eqb Ascii.eqb Bool.eqb].
    f_equal. lra. }
  repeat split.
  - now apply E.
  - now apply E.
  - intros host. unfold PatientManagement.calculateKidneyFunction.
    cbn [PatientManagement.kf_crcl]. fold (run today birth).
    unfold today, birth. now rewrite E.
  - simpl. lra.
  - unfold today, birth. rewrite NewAudit_crcl_clamped by (lra || now left).
    f_equal. apply Rmax_right. apply Rlt_le.
    apply cockcroftGault_negative; try lra.
    replace (IZR (2025 - 1880)) with 145 by (simpl; lra). lra.
Qed.

(** ** Normalisation by body surface area *)

(** C6, as amended.  For every finite CrCl and every finite non-zero BSA the
    normalised CrCl is [crcl * 1.73 / bsa].  With a BSA of zero nothing
    fails: the division follows IEEE 754 and the value is +Infinity for a
    positive CrCl, -Infinity for a negative one and NaN for a CrCl of zero;
    NewAudit.tsx then returns [Math.max] of that value and 0. *)
Theorem normalized_crcl_ieee_division (crcl bsa : R) :
  (bsa <> 0 ->
     NewAudit.normalizeCrCl (Fin crcl) (Fin bsa)
     = Fin (Spec.normalizeCrCl crcl bsa)
     /\ PatientManagement.normalizeCrCl (Fin crcl) (Fin bsa)
        = Fin (Spec.normalizeCrCl crcl bsa))
  /\ (0 < crcl ->
        NewAudit.normalizeCrCl (Fin crcl) (Fin 0) = PosInf
        /\ PatientManagement.normalizeCrCl (Fin crcl) (Fin 0) = PosInf)
  /\ (crcl < 0 ->
        NewAudit.normalizeCrCl (Fin crcl) (Fin 0) = NegInf
        /\ PatientManagement.normalizeCrCl (Fin crcl) (Fin 0) = NegInf)
  /\ (NewAudit.normalizeCrCl (Fin 0) (Fin 0) = NaN
      /\ PatientManagement.normalizeCrCl (Fin 0) (Fin 0) = NaN)
  /\ (forall today scr weight height gender birth,
        NewAudit.kf_crclNormalized
          (NewAudit.calculateKidneyFunction today scr weight height gender
             birth)
        = Math_max
            (NewAudit.normalizeCrCl
               (NewAudit.rawCrCl (NewAudit.kidneyAge today birth) scr weight
                  gender)
               (NewAudit.bsaValue weight height)) (Fin 0)).
Proof.
  unfold NewAudit.normalizeCrCl, PatientManagement.normalizeCrCl,
    Spec.normalizeCrCl.
  repeat split.
  - js_eval. reflexivity.
  - js_eval. f_equal. now field.
  - unfold lit, div, mul. rewrite Reqb_true by reflexivity.
    rewrite Reqb_false by lra. now rewrite Rltb_true by lra.
  - unfold lit, div, mul. rewrite Reqb_true by reflexivity.
    rewrite Reqb_false by lra. rewrite Rltb_true by lra.
    rewrite Reqb_false by lra. now rewrite Rltb_true by lra.
  - unfold lit, div, mul. rewrite Reqb_true by reflexivity.
    rewrite Reqb_false by lra. now rewrite Rltb_false by lra.
  - unfold lit, div, mul. rewrite Reqb_true by reflexivity.
    rewrite Reqb_false by lra. rewrite Rltb_true by lra.
    rewrite Reqb_false by lra. now rewrite Rltb_false by lra.
  - unfold lit, div, mul. rewrite Reqb_true by reflexivity.
    now rewrite Reqb_true by lra.
  - unfold lit, div, mul. rewrite Reqb_true by reflexivity.
    rewrite Reqb_false by lra. now rewrite Rltb_true by lra.
Qed.

Lemma normalized_crcl_scenario :
  NewAudit.normalizeCrCl (Fin (6650 / 72)) (Fin 1.848)
  = Fin (6650 / 72 * 1.73 / 1.848)
  /\ NewAudit.normalizeCrCl (Fin 92) (Fin 0) = PosInf.
Proof.
  destruct (normalized_crcl_ieee_division (6650 / 72) 1.848) as (H1 & _).
  destruct (normalized_crcl_ieee_division 92 0) as (_ & H2 & _).
  split.
  - destruct H1 as [H1 _]; [lra | exact H1].
  - destruct H2 as [H2 _]; [lra | exact H2].
Defined.

(** C6, as stated, fails: with a height of 0 cm the BSA is zero, and the
    calculator of NewAudit.tsx returns +Infinity as the normalised CrCl
    instead of reporting that it cannot be computed. *)
Lemma normalized_crcl_zero_bsa_infinite :
  let r := NewAudit.calculateKidneyFunction (ValidDate 2025 5 15 0)
             (Fin 1) (Fin 70) (Fin 0) "male" (ValidDate 1980 5 15 0) in
  NewAudit.bsaValue (Fin 70) (Fin 0) = Fin 0
  /\ NewAudit.kf_crclNormalized r = PosInf
  /\ isNaN (NewAudit.kf_crclNormalized r) = false.
Proof.
  intros r.
  assert (B : NewAudit.bsaValue (Fin 70) (Fin 0) = Fin 0).
  { unfold NewAudit.bsaValue, lit. rewrite Math_pow_zero_pos by lra.
    rewrite Math_pow_pos by lra. cbn [mul]. f_equal. ring. }
  assert (E : NewAudit.kf_crclNormalized r = PosInf).
  { subst r. unfold NewAudit.calculateKidneyFunction.
    cbn [NewAudit.kf_crclNormalized]. rewrite B.
    unfold NewAudit.kidneyAge, NewAudit.rawCrCl, NewAudit.normalizeCrCl.
    cbn [String.eqb Ascii.eqb Bool.eqb getFullYear].
    js_eval. unfold div. rewrite Reqb_true by reflexivity.
    rewrite Reqb_false by lra. rewrite Rltb_true by lra. reflexivity. }
  repeat split; [exact B | exact E | now rewrite E].
Qed.

(** ** Body surface area *)

Lemma Rpower_rational (x y : R) (p q : nat) :
  0 < x -> y * INR q = INR p -> Rpower x y ^ q = x ^ p.
Proof.
  intros Hx Hy.
  rewrite <- (Rpower_pow q) by apply Rpower_pos.
  rewrite Rpower_mult, Hy. now apply Rpower_pow.
Qed.

Lemma pow_lt_inv (a b : R) (n : nat) :
  0 <= a -> 0 <= b -> a ^ n < b ^ n -> a < b.
Proof.
  intros Ha Hb H. destruct (Rlt_le_dec a b) as [L | L]; [assumption |].
  assert (b ^ n <= a ^ n) by (apply pow_incr; lra). lra.
Qed.

(** The DuBois value for 70 kg and 175 cm, bracketed through its 40th power:
    [(175^0.725 * 70^0.425)^40 = 175^29 * 70^17]. *)
Lemma computeBSA_70_175 : 1.837 < Spec.computeBSA 70 175 < 1.857.
Proof.
  unfold Spec.computeBSA.
  set (a := Rpower 175 0.725). set (b := Rpower 70 0.425).
  assert (Ha : 0 < a) by apply Rpower_pos.
  assert (Hb : 0 < b) by apply Rpower_pos.
  assert (Ea : a ^ 40 = 175 ^ 29).
  { apply Rpower_rational; [lra |]. rewrite !INR_IZR_INZ. simpl. lra. }
  assert (Eb : b ^ 40 = 70 ^ 17).
  { apply Rpower_rational; [lra |]. rewrite !INR_IZR_INZ. simpl. lra. }
  assert (Hab : 0 < a * b) by now apply Rmult_lt_0_compat.
  assert (L : 1837000 < 7184 * (a * b)).
  { apply (pow_lt_inv _ _ 40); [lra | lra |].
    rewrite !Rpow_mult_distr, Ea, Eb. rewrite !pow_IZR, <- !mult_IZR.
    apply IZR_lt. vm_compute. reflexivity. }
  assert (U : 7184 * (a * b) < 1857000).
  { apply (pow_lt_inv _ _ 40); [lra | lra |].
    rewrite !Rpow_mult_distr, Ea, Eb. rewrite !pow_IZR, <- !mult_IZR.
    apply IZR_lt. vm_compute. reflexivity. }
  lra.
Qed.

(** C7.  For a positive weight and a positive height the body surface area
    is [0.007184 * heightCm^0.725 * weightKg^0.425], in the calculators of
    both components and in the [bsa] field that the forms display (there
    printed with three decimals); for 70 kg and 175 cm it lies within 0.01 of
    1.847. *)
Theorem bsa_dubois (weight height : R) :
  0 < weight -> 0 < height ->
  NewAudit.bsaValue (Fin weight) (Fin height)
  = Fin (0.007184 * Rpower height 0.725 * Rpower weight 0.425)
  /\ (forall today scr gender birth,
        PatientManagement.v_bsa
          (PatientManagement.kidneyValues today scr (Fin weight) (Fin height)
             gender birth)
        = Fin (0.007184 * Rpower height 0.725 * Rpower weight 0.425))
  /\ (forall host w h,
        parseFloat host w = Fin weight -> parseFloat host h = Fin height ->
        NewAudit.bsaField host w h
        = toFixed host
            (Fin (0.007184 * Rpower height 0.725 * Rpower weight 0.425)) 3)
  /\ (exists b, NewAudit.bsaValue (Fin 70) (Fin 175) = Fin b
                /\ Rabs (b - 1.847) < 0.01).
Proof.
  intros Hw Hh.
  assert (E : NewAudit.bsaValue (Fin weight) (Fin height)
              = Fin (0.007184 * Rpower height 0.725 * Rpower weight 0.425))
    by (now rewrite bsaValue_computeBSA).
  repeat split.
  - exact E.
  - intros. exact E.
  - intros host w h Pw Ph. unfold NewAudit.bsaField. rewrite Pw, Ph.
    cbn [isNaN negb andb]. now rewrite E.
  - exists (Spec.computeBSA 70 175). split.
    + apply bsaValue_computeBSA; lra.
    + pose proof computeBSA_70_175. apply Rabs_def1; lra.
Qed.

Lemma bsa_dubois_70_175 :
  NewAudit.bsaValue (Fin 70) (Fin 175)
  = Fin (0.007184 * Rpower 175 0.725 * Rpower 70 0.425).
Proof. apply (bsa_dubois 70 175); lra. Defined.

(** ** The clock *)

(** C8, as amended.  The calculators are deterministic functions of the
    biometrics and of the current date, which they read from the system
    clock: the result of NewAudit.tsx depends on the clock through its year
    only, that of PatientManagement.tsx through its year, month and day; the
    time of day never matters. *)
Theorem kidney_function_depends_on_date_only
    (year month day time month' day' time' : Z)
    (scr weight height : number) (gender : string) (birth : Date)
    (host : Host) :
  NewAudit.calculateKidneyFunction (ValidDate year month day time)
    scr weight height gender birth
  = NewAudit.calculateKidneyFunction (ValidDate year month' day' time')
      scr weight height gender birth
  /\ PatientManagement.calculateKidneyFunction host
       (ValidDate year month day time) scr weight height gender birth
     = PatientManagement.calculateKidneyFunction host
         (ValidDate year month day time') scr weight height gender birth.
Proof. split; reflexivity. Qed.

(** C8, as stated, fails: the same biometrics give different metrics when the
    clock has moved to the next year. *)
Lemma kidney_function_depends_on_clock :
  let run today :=
    NewAudit.calculateKidneyFunction today (Fin 1) (Fin 70) (Fin 175)
      "male" (ValidDate 1980 5 15 0) in
  NewAudit.kf_crcl (run (ValidDate 2025 5 15 0)) = Fin (6650 / 72)
  /\ NewAudit.kf_crcl (run (ValidDate 2026 5 15 0)) = Fin (6580 / 72)
  /\ run (ValidDate 2025 5 15 0) <> run (ValidDate 2026 5 15 0).
Proof.
  intros run.
  assert (E1 : NewAudit.kf_crcl (run (ValidDate 2025 5 15 0))
               = Fin (6650 / 72)).
  { subst run. cbv beta. rewrite NewAudit_crcl_clamped by (lra || now left).
    unfold Spec.cockcroftGault; cbn [String.eqb Ascii.eqb Bool.eqb].
    replace (IZR (2025 - 1980)) with 45 by (simpl; lra).
    f_equal. rewrite Rmax_left; lra. }
  assert (E2 : NewAudit.kf_crcl (run (ValidDate 2026 5 15 0))
               = Fin (6580 / 72)).
  { subst run. cbv beta. rewrite NewAudit_crcl_clamped by (lra || now left).
    unfold Spec.cockcroftGault; cbn [String.eqb Ascii.eqb Bool.eqb].
    replace (IZR (2026 - 1980)) with 46 by (simpl; lra).
    f_equal. rewrite Rmax_left; lra. }
  repeat split; [exact E1 | exact E2 |].
  intros E. rewrite E in E1. rewrite E1 in E2. injection E2 as E2. lra.
Qed.

(** ** Dialysis *)

Lemma NewAudit_dialysis_step (host : Host) (today : Date)
    (e : NewAudit.ChangeEvent) (prev : PatientInfo) :
  isOnDialysis (NewAudit.updateField prev e) = true ->
  NewAudit.handlePatientInfoChange host today e prev
  = NewAudit.withRenal (NewAudit.updateField prev e)
      (NewAudit.bsaField host (weight (NewAudit.updateField prev e))
         (height (NewAudit.updateField prev e))) "" "" "".
Proof.
  intros H. unfold NewAudit.handlePatientInfoChange, NewAudit.bsaField.
  rewrite H. cbn [negb]. now rewrite !andb_false_r.
Qed.

Lemma PatientManagement_dialysis_step (host : Host) (today : Date)
    (e : PatientManagement.ChangeEvent) (prev : PatientManagement.Patient) :
  PatientManagement.isOnDialysis (PatientManagement.updateField prev e) = true ->
  let r := PatientManagement.handlePatientInfoChange host today e prev in
  PatientManagement.egfr r = "" /\ PatientManagement.crcl r = ""
  /\ PatientManagement.crclNormalized r = "".
Proof.
  intros H r. subst r. unfold PatientManagement.handlePatientInfoChange.
  rewrite H. cbn [negb]. now rewrite !andb_false_r.
Qed.


Lemma handlePatientInfoChange_flag (host : Host) (today : Date)
    (e : NewAudit.ChangeEvent) (prev : PatientInfo) :
  isOnDialysis (NewAudit.handlePatientInfoChange host today e prev)
  = isOnDialysis (NewAudit.updateField prev e).
Proof.
  unfold NewAudit.handlePatientInfoChange.
  set (u := NewAudit.updateField prev e).
  destruct (isOnDialysis u) eqn:E;
    repeat match goal with
           | |- context [if ?b then _ else _] => destruct b
           end;
    cbn [NewAudit.withRenal NewAudit.withBsa isOnDialysis]; congruence.
Qed.

(** In every state the form of NewAudit.tsx can reach, a set dialysis flag
    comes with blank eGFR, CrCl and normalised CrCl. *)
Lemma NewAudit_dialysis_invariant (host : Host) (today : Date)
    (s : PatientInfo) :
  NewAudit_reachable host today s ->
  isOnDialysis s = true ->
  egfr s = "" /\ crcl s = "" /\ crclNormalized s = "".
Proof.
  intros R. destruct R as [| e prev _]; intros H.
  - discriminate H.
  - rewrite handlePatientInfoChange_flag in H.
    rewrite NewAudit_dialysis_step by assumption. now cbn.
Qed.

(** C1.  With the dialysis flag set, eGFR, CrCl and normalised CrCl are never
    derived from the creatinine field: the forms of NewAudit.tsx and
    PatientManagement.tsx leave the three fields blank while the BSA field
    is the one computed from weight and height, and the patient tables built
    by AuditHistory.tsx and PrescriptionInput.tsx read "투석 중" in their
    place and still show the stored BSA. *)
Theorem dialysis_suppresses_creatinine_metrics (host : Host) (today : Date) :
  (forall e prev,
     isOnDialysis (NewAudit.updateField prev e) = true ->
     let r := NewAudit.handlePatientInfoChange host today e prev in
     egfr r = "" /\ crcl r = "" /\ crclNormalized r = ""
     /\ bsa r = NewAudit.bsaField host (weight r) (height r))
  /\ (forall e prev,
        PatientManagement.isOnDialysis (PatientManagement.updateField prev e)
        = true ->
        let r := PatientManagement.handlePatientInfoChange host today e prev in
        PatientManagement.egfr r = "" /\ PatientManagement.crcl r = ""
        /\ PatientManagement.crclNormalized r = ""
        /\ PatientManagement.bsa r
           = NewAudit.bsaField host (PatientManagement.weight r)
               (PatientManagement.height r))
  /\ (forall audit m,
        AuditHistory.measurement audit = Some m ->
        AuditHistory.is_hd m = true ->
        let p := AuditHistory.convertToPatientInfo host audit in
        egfr p = "투석 중" /\ crcl p = "투석 중"
        /\ crclNormalized p = "투석 중"
        /\ bsa p = AuditHistory.showOr host (AuditHistory.m_bsa m))
  /\ (forall selectedPatient m,
        PrescriptionInput.latest_measurement selectedPatient = Some m ->
        PrescriptionInput.is_hd m = true ->
        let p := PrescriptionInput.patientInfo host selectedPatient in
        egfr p = "투석 중" /\ crcl p = "투석 중"
        /\ crclNormalized p = "투석 중"
        /\ bsa p = AuditHistory.showOr host (PrescriptionInput.m_bsa m)).
Proof.
  repeat apply conj.
  - intros e prev H r. subst r. rewrite NewAudit_dialysis_step by assumption.
    now cbn.
  - intros e prev H r.
    destruct (PatientManagement_dialysis_step host today e prev H)
      as (E1 & E2 & E3).
    repeat split; try assumption.
    subst r. unfold PatientManagement.handlePatientInfoChange.
    rewrite H. cbn [negb]. rewrite !andb_false_r.
    cbn [PatientManagement.withRenal PatientManagement.bsa
         PatientManagement.weight PatientManagement.height].
    reflexivity.
  - intros audit m Hm Hd p. subst p.
    unfold AuditHistory.convertToPatientInfo. rewrite Hm, Hd. now cbn.
  - intros sp m Hm Hd p. subst p.
    unfold PrescriptionInput.patientInfo, PrescriptionInput.on_hd,
      PrescriptionInput.showOr.
    rewrite Hm, Hd. now cbn.
Qed.

Lemma dialysis_suppresses_creatinine_metrics_example :
  let prev :=
    {| name := ""; gender := "male"; birthDate := "1980-06-15";
       weight := "70"; height := "175"; scr := "1.0";
       crcl := "#"; crclNormalized := "#"; egfr := "#"; bsa := "#";
       isOnDialysis := false |} in
  let r := NewAudit.handlePatientInfoChange exampleHost
             (ValidDate 2025 5 15 0) (NewAudit.CheckboxChange true) prev in
  egfr r = "" /\ crcl r = "" /\ crclNormalized r = "" /\ scr r = "1.0".
Proof.
  intros prev r.
  destruct (dialysis_suppresses_creatinine_metrics exampleHost
              (ValidDate 2025 5 15 0)) as (H & _).
  destruct (H (NewAudit.CheckboxChange true) prev eq_refl)
    as (E1 & E2 & E3 & _).
  repeat split; assumption.
Defined.

(** C10.  When [handleAuditExecution] posts the patient record, the record
    carries the dialysis flag of the form, and its serum creatinine is the
    fixed value 10.0 when the flag is set, whatever the (disabled) creatinine
    field holds, and the parsed creatinine field otherwise. *)
Theorem dialysis_sentinel_creatinine (host : Host) (patientInfo : PatientInfo)
    (medications : list NewAudit.MedicationInfo)
    (body : NewAudit.PatientData.t) :
  NewAudit.handleAuditExecution host patientInfo medications
  = NewAudit.PostPatient body ->
  NewAudit.PatientData.is_hd body = isOnDialysis patientInfo
  /\ NewAudit.PatientData.scr_mg_dl body
     = if isOnDialysis patientInfo then Fin 10
       else parseFloat host (scr patientInfo).
Proof.
  unfold NewAudit.handleAuditExecution.
  repeat match goal with
         | |- context [if ?b then NewAudit.Alert _ else _] => destruct b
         end; try discriminate.
  intros E. injection E as <-. unfold NewAudit.patientData.
  cbn [NewAudit.PatientData.is_hd NewAudit.PatientData.scr_mg_dl].
  split; [reflexivity |].
  destruct (isOnDialysis patientInfo); [| reflexivity].
  unfold lit. f_equal. lra.
Qed.

Lemma dialysis_sentinel_creatinine_example :
  let patientInfo :=
    {| name := ""; gender := "male"; birthDate := "1980-06-15";
       weight := "70"; height := "175"; scr := "1.0";
       crcl := ""; crclNormalized := ""; egfr := ""; bsa := "#";
       isOnDialysis := true |} in
  let medication :=
    {| NewAudit.med_id := "1"; NewAudit.productName := "metformin";
       NewAudit.ingredientName := ""; NewAudit.dosage := "1";
       NewAudit.frequency := "2"; NewAudit.duration := "7";
       NewAudit.unit := None |} in
  exists body,
    NewAudit.handleAuditExecution exampleHost patientInfo [medication]
    = NewAudit.PostPatient body
    /\ NewAudit.PatientData.scr_mg_dl body = Fin 10.
Proof.
  intros patientInfo medication.
  exists (NewAudit.patientData exampleHost patientInfo).
  assert (E : NewAudit.handleAuditExecution exampleHost patientInfo
                [medication]
              = NewAudit.PostPatient
                  (NewAudit.patientData exampleHost patientInfo))
    by reflexivity.
  split; [exact E |].
  exact (proj2 (dialysis_sentinel_creatinine exampleHost patientInfo
                  [medication] _ E)).
Defined.

(** The registration form of PatientManagement.tsx sends the same fixed
    value. *)
Lemma PatientManagement_sentinel_creatinine (host : Host)
    (newPatientData : PatientManagement.Patient) :
  PatientManagement.scr_mg_dl (PatientManagement.measurement host newPatientData)
  = if PatientManagement.isOnDialysis newPatientData then Fin 10
    else parseFloat host (PatientManagement.scr newPatientData).
Proof. reflexivity. Qed.

(** ** Age used by the calculator of NewAudit.tsx *)

(** C3 fails in [calculateKidneyFunction] of NewAudit.tsx, which takes the
    difference of the years and never looks at month and day: for a birth
    date of 31 December 1980 and the date 15 June 2025 it works with 45
    years, where the specification and [calculateAge] (also the copy in the
    same file) give 44; the creatinine clearance it returns is the one of a
    45-year-old. *)
Theorem NewAudit_kidney_age_ignores_birthday :
  let today := ValidDate 2025 5 15 0 in
  let birth := ValidDate 1980 11 31 0 in
  NewAudit.kidneyAge today birth = Fin 45
  /\ Spec.computeAge 1980 11 31 2025 5 15 = 44%Z
  /\ NewAudit.calculateAge today birth = Fin 44
  /\ PatientManagement.calculateAge today birth = Fin 44
  /\ NewAudit.kf_crcl
       (NewAudit.calculateKidneyFunction today (Fin 1) (Fin 70) (Fin 175)
          "male" birth) = Fin (6650 / 72)
  /\ PatientManagement.v_crcl
       (PatientManagement.kidneyValues today (Fin 1) (Fin 70) (Fin 175)
          "male" birth) = Fin (6720 / 72).
Proof.
  intros today birth.
  assert (A : PatientManagement.calculateAge today birth = Fin 44).
  { unfold today, birth. rewrite calculateAge_computeAge. reflexivity. }
  repeat split.
  - unfold NewAudit.kidneyAge, today, birth. js_eval. f_equal. lra.
  - exact A.
  - exact A.
  - unfold today, birth. rewrite NewAudit_crcl_clamped by (lra || now left).
    unfold Spec.cockcroftGault; cbn [String.eqb Ascii.eqb Bool.eqb].
    replace (IZR (2025 - 1980)) with 45 by (simpl; lra).
    f_equal. rewrite Rmax_left; lra.
  - unfold today, birth. rewrite kidneyValues_crcl by (lra || now left).
    unfold Spec.cockcroftGault; cbn [String.eqb Ascii.eqb Bool.eqb].
    replace (IZR (Spec.computeAge 1980 11 31 2025 5 15)) with 44
      by (vm_compute; lra).
    f_equal. lra.
Qed.

(** ** Order summary *)

Lemma categoryOf_Normal (s : string) :
  Spec.categoryOf s = Some Spec.Normal <-> s = "정상" \/ s = "-".
Proof.
  unfold Spec.categoryOf.
  destruct (String.eqb_spec s "금기") as [-> | _];
    [split; [discriminate | intros [E | E]; discriminate E] |].
  destruct (String.eqb_spec s "용량조절필요") as [-> | _];
    [split; [discriminate | intros [E | E]; discriminate E] |].
  destruct (String.eqb_spec s "투여간격조절필요") as [-> | _];
    [split; [discriminate | intros [E | E]; discriminate E] |].
  destruct (String.eqb_spec s "정상") as [-> | N1]; [cbn; tauto |].
  destruct (String.eqb_spec s "-") as [-> | N2]; cbn; [tauto |].
  split; [discriminate | tauto].
Qed.

Lemma isIssue_category (p : AuditResultPopup.Prescription) :
  AuditResultPopup.isIssue p = true
  <-> Spec.categoryOf (AuditResultPopup.audit_result p) <> Some Spec.Normal.
Proof.
  rewrite categoryOf_Normal. unfold AuditResultPopup.isIssue.
  destruct (String.eqb_spec (AuditResultPopup.audit_result p) "-"),
           (String.eqb_spec (AuditResultPopup.audit_result p) "정상");
    cbn; intuition congruence.
Qed.

Lemma isAbnormal_category (p : AuditHistory.Prescription) :
  AuditHistory.audit_result p <> "대기중" ->
  AuditHistory.audit_result p <> "정상" ->
  (AuditHistory.isAbnormal p = true
   <-> Spec.categoryOf (AuditHistory.audit_result p) <> Some Spec.Normal).
Proof.
  intros N1 N2. rewrite categoryOf_Normal. unfold AuditHistory.isAbnormal.
  destruct (String.eqb_spec (AuditHistory.audit_result p) "-"),
           (String.eqb_spec (AuditHistory.audit_result p) "대기중");
    cbn; intuition congruence.
Qed.

Lemma existsb_false_forall {A : Type} (f : A -> bool) (l : list A) :
  existsb f l = false <-> forall x, In x l -> f x = false.
Proof.
  induction l as [| a l IH]; cbn.
  - split; [intros _ x [] | reflexivity].
  - rewrite orb_false_iff, IH. split.
    + intros [Ha Hl] x [<- | Hx]; auto.
    + intros H. split; [apply H; now left | intros x Hx; apply H; now right].
Qed.

(** The badge of AuditHistory.tsx as a function of its two flags. *)
Lemma getStatusBadge_text (record : AuditHistory.AuditRecord) :
  AuditHistory.text (AuditHistory.getStatusBadge record)
  = if existsb AuditHistory.isPending (AuditHistory.prescriptions record)
    then "대기중"
    else if existsb AuditHistory.isAbnormal (AuditHistory.prescriptions record)
    then "이상" else "정상".
Proof.
  unfold AuditHistory.getStatusBadge.
  destruct (existsb AuditHistory.isPending _); [reflexivity |].
  now destruct (existsb AuditHistory.isAbnormal _).
Qed.

(** C4, as amended.  The badge of an order in AuditHistory.tsx is computed
    from the lines of the order alone.  It reads "대기중" as soon as one line
    is pending.  When no line is pending, and the lines carry "-" or one of
    the abnormal results, it reads "이상" exactly when at least one line's
    category is not Normal and "정상" otherwise.  The popup of
    AuditResultPopup.tsx announces issues exactly when at least one line's
    category is not Normal, and counts those lines. *)
Theorem order_summary_from_lines :
  (forall record : AuditHistory.AuditRecord,
     let lines := AuditHistory.prescriptions record in
     let badge := AuditHistory.text (AuditHistory.getStatusBadge record) in
     ((exists p, In p lines /\ AuditHistory.audit_result p = "대기중") ->
        badge = "대기중")
     /\ ((forall p, In p lines ->
            AuditHistory.audit_result p <> "대기중"
            /\ AuditHistory.audit_result p <> "정상") ->
         (badge = "이상"
          <-> exists p, In p lines
                /\ Spec.categoryOf (AuditHistory.audit_result p)
                   <> Some Spec.Normal)
         /\ (badge = "정상"
             <-> forall p, In p lines ->
                   Spec.categoryOf (AuditHistory.audit_result p)
                   = Some Spec.Normal)))
  /\ (forall prescriptions : list AuditResultPopup.Prescription,
        let abnormal p :=
          Spec.categoryOf (AuditResultPopup.audit_result p)
          <> Some Spec.Normal in
        (AuditResultPopup.getPopupTitle prescriptions = "⚠️ 처방 이상 사항"
         <-> exists p, In p prescriptions /\ abnormal p)
        /\ (AuditResultPopup.getPopupTitle prescriptions = "✅ 처방 감사 결과"
            <-> forall p, In p prescriptions -> ~ abnormal p)
        /\ (AuditResultPopup.getSectionTitle prescriptions
            = "처방 감사 결과 (모두 정상)"
            <-> forall p, In p prescriptions -> ~ abnormal p)).
Proof.
  split.
  - intros record lines badge. subst badge. rewrite getStatusBadge_text.
    fold lines. split.
    + intros (p & Hin & Hp).
      assert (E : existsb AuditHistory.isPending lines = true).
      { apply existsb_exists. exists p. split; [assumption |].
        unfold AuditHistory.isPending. now rewrite Hp. }
      now rewrite E.
    + intros Hlines.
      assert (E : existsb AuditHistory.isPending lines = false).
      { apply existsb_false_forall. intros p Hin.
        unfold AuditHistory.isPending.
        destruct (String.eqb_spec (AuditHistory.audit_result p) "대기중");
          [| reflexivity].
        now destruct (Hlines p Hin). }
      rewrite E.
      destruct (existsb AuditHistory.isAbnormal lines) eqn:A.
      * apply existsb_exists in A. destruct A as (p & Hin & Hp).
        destruct (Hlines p Hin) as [N1 N2].
        apply isAbnormal_category in Hp; try assumption.
        split; split; try discriminate; eauto.
        intros H. now specialize (H p Hin).
      * rewrite existsb_false_forall in A.
        split; split; try discriminate; try reflexivity.
        -- intros (p & Hin & Hp). destruct (Hlines p Hin) as [N1 N2].
           apply isAbnormal_category in Hp; try assumption.
           rewrite (A p Hin) in Hp. discriminate Hp.
        -- intros _ p Hin. destruct (Hlines p Hin) as [N1 N2].
           pose proof (isAbnormal_category p N1 N2) as I.
           destruct (Spec.categoryOf (AuditHistory.audit_result p))
             as [[| | |] |] eqn:C; try reflexivity;
             (assert (AuditHistory.isAbnormal p = true)
                by (apply I; discriminate));
             rewrite (A p Hin) in *; discriminate.
  - intros prescriptions abnormal.
    unfold AuditResultPopup.getPopupTitle, AuditResultPopup.getSectionTitle.
    destruct (existsb AuditResultPopup.isIssue prescriptions) eqn:A.
    + apply existsb_exists in A. destruct A as (p & Hin & Hp).
      apply isIssue_category in Hp.
      repeat split; try discriminate; eauto;
        intros H; exfalso; now apply (H p Hin).
    + rewrite existsb_false_forall in A.
      assert (N : forall p, In p prescriptions -> ~ abnormal p).
      { intros p Hin Hp. apply isIssue_category in Hp.
        rewrite (A p Hin) in Hp. discriminate Hp. }
      repeat split; try discriminate; try reflexivity; try (intros _; exact N).
      intros (p & Hin & Hp). exfalso. now apply (N p Hin).
Qed.


Lemma order_summary_example :
  AuditHistory.text
    (AuditHistory.getStatusBadge (exampleRecord ["-"; "금기"])) = "이상"
  /\ exists p, In p (AuditHistory.prescriptions (exampleRecord ["-"; "금기"]))
       /\ Spec.categoryOf (AuditHistory.audit_result p) <> Some Spec.Normal.
Proof.
  destruct order_summary_from_lines as [H _].
  destruct (H (exampleRecord ["-"; "금기"])) as [_ H2].
  destruct H2 as [[H3 _] _].
  - intros p [<- | [<- | []]]; split; discriminate.
  - split; [reflexivity |]. apply H3. reflexivity.
Defined.

(** C4, as stated, fails: an order with a pending line and a contraindicated
    line has a line whose category is not Normal, and its badge reads
    "대기중", not "이상". *)
Lemma order_summary_pending_overrides :
  let record := exampleRecord ["대기중"; "금기"] in
  AuditHistory.text (AuditHistory.getStatusBadge record) = "대기중"
  /\ AuditHistory.text (AuditHistory.getStatusBadge record) <> "이상"
  /\ exists p, In p (AuditHistory.prescriptions record)
       /\ Spec.categoryOf (AuditHistory.audit_result p)
          = Some Spec.Contraindicated.
Proof.
  intros record. repeat split.
  - discriminate.
  - exists (exampleLine "금기"). split; [right; now left | reflexivity].
Qed.

(** A line whose result is spelled "정상" is counted as abnormal by the badge
    of AuditHistory.tsx and as normal by the popup. *)
Lemma normal_spelled_out_differs :
  AuditHistory.text (AuditHistory.getStatusBadge (exampleRecord ["정상"]))
  = "이상"
  /\ AuditResultPopup.getPopupTitle
       [{| AuditResultPopup.id := 1;
           AuditResultPopup.drug_korean_name := "metformin";
           AuditResultPopup.audit_result := "정상";
           AuditResultPopup.information := None;
           AuditResultPopup.dose_amount := None;
           AuditResultPopup.dose_unit := None;
           AuditResultPopup.doses_per_day := None;
           AuditResultPopup.duration_days := None;
           AuditResultPopup.audit_comment := None |}]
     = "✅ 처방 감사 결과".
Proof. split; reflexivity. Qed.

(** ** Severity ordering *)

Section Severity.

Import DoseRuleEvaluator.

Lemma mostSevere_None (rules : list Rule) :
  mostSevere rules = None -> rules = [].
Proof.
  destruct rules as [| r rest]; [reflexivity |]. cbn [mostSevere].
  destruct (mostSevere rest) as [r' |]; [| discriminate].
  destruct (severity (category r) <? severity (category r'))%nat;
    discriminate.
Qed.

Lemma mostSevere_Some (rules : list Rule) (r : Rule) :
  mostSevere rules = Some r ->
  In r rules
  /\ forall r', In r' rules ->
       (severity (category r') <= severity (category r))%nat.
Proof.
  revert r. induction rules as [| a rest IH]; intros r; cbn [mostSevere].
  - discriminate.
  - destruct (mostSevere rest) as [b |] eqn:E.
    + destruct (IH b eq_refl) as [Hin Hmax].
      destruct (Nat.ltb_spec (severity (category a)) (severity (category b)))
        as [L | L]; intros [= <-]; (split; [cbn [In]; auto |]);
        intros r' [<- | Hr']; try lia; specialize (Hmax r' Hr'); lia.
    + apply mostSevere_None in E. subst rest. intros [= <-].
      split; [now left |]. intros r' [<- | []]. lia.
Qed.

(** C9.  For a patient evaluated on numeric constraints, the category
    returned is that of a matching constraint and no matching constraint is
    more severe, in the order Contraindicated > IntervalAdjustmentNeeded >
    DoseAdjustmentNeeded > Normal; with no matching constraint it is Normal.
    A CrCl of 20 against "Contraindicated below 30" and
    "DoseAdjustmentNeeded below 60" is Contraindicated, in either order of
    the two rules. *)
Theorem most_severe_matching_rule_wins :
  (forall (m : RenalMetrics) (rules : list Rule),
     let outcome := outcome_category (evaluate false m rules) in
     (forall r, In r rules -> matches m r = true ->
        (severity (category r) <= severity outcome)%nat)
     /\ ((exists r, In r rules /\ matches m r = true /\ category r = outcome)
         \/ (outcome = Spec.Normal
             /\ forall r, In r rules -> matches m r = false)))
  /\ (let contraindicated :=
        {| metric := CrCl; lower := None; upper := Some 30%Q;
           category := Spec.Contraindicated;
           rationaleTemplate := "CrCl < 30"; isDialysisRule := false |} in
      let adjust :=
        {| metric := CrCl; lower := None; upper := Some 60%Q;
           category := Spec.DoseAdjustmentNeeded;
           rationaleTemplate := "CrCl < 60"; isDialysisRule := false |} in
      let m :=
        {| creatinineClearanceMlMin := Some 20%Q;
           creatinineClearanceNormalizedMlMin173m2 := None;
           egfrMlMin173m2 := None |} in
      outcome_category (evaluate false m [contraindicated; adjust])
      = Spec.Contraindicated
      /\ outcome_category (evaluate false m [adjust; contraindicated])
         = Spec.Contraindicated).
Proof.
  split; [| split; reflexivity].
  intros m rules outcome. subst outcome.
  assert (E : outcome_category (evaluate false m rules)
              = match mostSevere (filter (matches m) rules) with
                | Some r => category r
                | None => Spec.Normal
                end).
  { destruct rules as [| a rest]; [reflexivity |]. unfold evaluate.
    now destruct (mostSevere (filter (matches m) (a :: rest))). }
  rewrite E. clear E.
  destruct (mostSevere (filter (matches m) rules)) as [r |] eqn:M.
  - apply mostSevere_Some in M. destruct M as [Hin Hmax].
    apply filter_In in Hin. split.
    + intros r' Hr' Hm. apply Hmax. apply filter_In. now split.
    + left. exists r. tauto.
  - apply mostSevere_None in M.
    assert (N : forall r, In r rules -> matches m r = false).
    { intros r Hr. destruct (matches m r) eqn:Hm; [| reflexivity].
      assert (In r (filter (matches m) rules)) by (apply filter_In; now split).
      rewrite M in *. contradiction. }
    split.
    + intros r Hr Hm. rewrite (N r Hr) in Hm. discriminate Hm.
    + right. now split.
Qed.

End Severity.

(** * Further properties of the code *)

(** ** Age and the two calculators *)

(** X1.  On valid dates every [calculateAge] returns the number of birthdays
    reached: an integer [n] such that the [n]-th birthday is on or before
    today and the next one is after it. *)
Theorem calculateAge_counts_birthdays
    (by_ bm bd bt ty tm td tt : Z) :
  let today := ValidDate ty tm td tt in
  let birth := ValidDate by_ bm bd bt in
  exists n : Z,
    PatientManagement.calculateAge today birth = Fin (IZR n)
    /\ NewAudit.calculateAge today birth = Fin (IZR n)
    /\ AuditHistory.calculateAge today birth = Fin (IZR n)
    /\ Spec.dateLe (by_ + n) bm bd ty tm td
    /\ ~ Spec.dateLe (by_ + n + 1) bm bd ty tm td.
Proof.
  intros today birth.
  exists (Spec.computeAge by_ bm bd ty tm td).
  pose proof (calculateAge_computeAge by_ bm bd bt ty tm td tt) as E.
  pose proof (computeAge_birthdays by_ bm bd ty tm td) as [B1 B2].
  repeat split; try exact E; assumption.
Qed.

(** X2.  The age that [calculateKidneyFunction] of NewAudit.tsx works with is
    the age of [calculateAge] plus one exactly when this year's birthday is
    still ahead, and equal to it otherwise. *)
Theorem kidneyAge_off_by_birthday (by_ bm bd bt ty tm td tt : Z) :
  let today := ValidDate ty tm td tt in
  let birth := ValidDate by_ bm bd bt in
  NewAudit.kidneyAge today birth
  = (NewAudit.calculateAge today birth
     + Fin (if Spec.monthDayEarlier tm td bm bd then 1 else 0))%js.
Proof.
  intros today birth.
  change (NewAudit.calculateAge today birth)
    with (PatientManagement.calculateAge today birth).
  unfold today, birth. rewrite calculateAge_computeAge.
  unfold NewAudit.kidneyAge, Spec.computeAge.
  cbn [getFullYear sub add neg]. f_equal.
  destruct (Spec.monthDayEarlier tm td bm bd);
    rewrite !minus_IZR; simpl; lra.
Qed.







(** X5.  In every state that the form of NewAudit.tsx can reach from its
    initial state, a set dialysis flag comes with blank eGFR, CrCl and
    normalised CrCl fields. *)
Theorem dialysis_flag_means_blank_fields (host : Host) (today : Date)
    (s : PatientInfo) :
  NewAudit_reachable host today s ->
  isOnDialysis s = true ->
  egfr s = "" /\ crcl s = "" /\ crclNormalized s = "".
Proof. exact (NewAudit_dialysis_invariant host today s). Qed.

Lemma dialysis_flag_means_blank_fields_example :
  let s := NewAudit.handlePatientInfoChange exampleHost
             (ValidDate 2025 5 15 0) (NewAudit.CheckboxChange true)
             NewAudit.initialPatientInfo in
  egfr s = "" /\ crcl s = "" /\ crclNormalized s = "".
Proof.
  apply (dialysis_flag_means_blank_fields exampleHost (ValidDate 2025 5 15 0)).
  - apply reach_change. apply reach_initial.
  - reflexivity.
Defined.



(** ** Keyboard navigation of the suggestions *)

Section Navigation.

Import Autocomplete.

Lemma arrowDown_step (s : State) :
  showSuggestions s = true ->
  let n := Z.of_nat (List.length (drugSuggestions s)) in
  (1 <= n)%Z -> (-1 <= activeSuggestionIndex s < n)%Z ->
  fst (handleKeyDown "ArrowDown" s)
  = withIndex s ((activeSuggestionIndex s + 1) mod n)%Z.
Proof.
  intros Hs n Hn Hi. unfold handleKeyDown. rewrite Hs. cbn. fold n.
  f_equal.
  destruct (Z.ltb_spec (activeSuggestionIndex s) (n - 1)) as [L | L].
  - now rewrite Z.mod_small by lia.
  - replace (activeSuggestionIndex s + 1)%Z with n by lia.
    now rewrite Z.mod_same by lia.
Qed.

Lemma pressAll_cons (key : string) (keys : list string) (s : State) :
  pressAll (key :: keys) s = pressAll keys (fst (handleKeyDown key s)).
Proof. reflexivity. Qed.

Lemma arrowDown_repeat (k : nat) (s : State) :
  showSuggestions s = true ->
  let n := Z.of_nat (List.length (drugSuggestions s)) in
  (1 <= n)%Z -> (0 <= activeSuggestionIndex s < n)%Z ->
  pressAll (repeat "ArrowDown" k) s
  = withIndex s ((activeSuggestionIndex s + Z.of_nat k) mod n)%Z.
Proof.
  revert s. induction k as [| k IH]; intros s Hs n Hn Hi.
  - cbn [repeat pressAll fold_left]. rewrite Z.add_0_r.
    rewrite Z.mod_small by lia. now destruct s.
  - cbn [repeat]. rewrite pressAll_cons.
    rewrite arrowDown_step by (assumption || lia). fold n.
    assert (B : (0 <= (activeSuggestionIndex s + 1) mod n < n)%Z)
      by (apply Z.mod_pos_bound; lia).
    rewrite IH; cbn [withIndex drugSuggestions activeSuggestionIndex
                     showSuggestions]; fold n; try assumption.
    unfold withIndex. f_equal. rewrite Zplus_mod_idemp_l. f_equal. lia.
Qed.

(** X7.  While the suggestions are shown and there is at least one, the
    arrow keys keep the active index inside the list and walk it cyclically:
    after [k + 1] presses of ArrowDown from index [i] (-1 when nothing is
    active) the index is [(i + 1 + k) mod n]; ArrowUp moves to [i - 1], or to
    the last suggestion from the first one or from -1; neither key changes
    the list or hides it. *)
Theorem arrow_keys_cycle (s : State) (k : nat) :
  showSuggestions s = true ->
  let n := Z.of_nat (List.length (drugSuggestions s)) in
  let i := activeSuggestionIndex s in
  (1 <= n)%Z -> (-1 <= i < n)%Z ->
  pressAll (repeat "ArrowDown" (S k)) s
  = withIndex s ((i + 1 + Z.of_nat k) mod n)%Z
  /\ fst (handleKeyDown "ArrowUp" s)
     = withIndex s (if (0 <? i)%Z then i - 1 else n - 1)%Z
  /\ (0 <= activeSuggestionIndex (fst (handleKeyDown "ArrowUp" s)) < n)%Z
  /\ (0 <= i ->
      fst (handleKeyDown "ArrowUp" (fst (handleKeyDown "ArrowDown" s))) = s)%Z.
Proof.
  intros Hs n i Hn Hi.
  assert (Up : forall t, showSuggestions t = true ->
                 fst (handleKeyDown "ArrowUp" t)
                 = withIndex t
                     (if (0 <? activeSuggestionIndex t)%Z
                      then activeSuggestionIndex t - 1
                      else Z.of_nat (List.length (drugSuggestions t)) - 1)%Z).
  { intros t Ht. unfold handleKeyDown. now rewrite Ht. }
  repeat split.
  - cbn [repeat]. rewrite pressAll_cons.
    rewrite arrowDown_step by (assumption || lia). fold n i.
    assert (B : (0 <= (i + 1) mod n < n)%Z) by (apply Z.mod_pos_bound; lia).
    rewrite arrowDown_repeat;
      cbn [withIndex drugSuggestions activeSuggestionIndex showSuggestions];
      fold n; try assumption.
    unfold withIndex. f_equal. now rewrite Zplus_mod_idemp_l.
  - now apply Up.
  - rewrite Up by assumption. cbn [withIndex activeSuggestionIndex]. fold n i.
    destruct (Z.ltb_spec 0 i); lia.
  - rewrite Up by assumption. cbn [withIndex activeSuggestionIndex]. fold n i.
    destruct (Z.ltb_spec 0 i); lia.
  - intros H0. rewrite arrowDown_step by (assumption || lia).
    rewrite Up by exact Hs.
    subst n i. destruct s as [l a sh].
    cbn [withIndex drugSuggestions activeSuggestionIndex showSuggestions] in *.
    set (n := Z.of_nat (Datatypes.length l)) in *.
    destruct (Z.eq_dec a (n - 1)) as [E | E].
    + replace ((a + 1) mod n)%Z with 0%Z
        by (replace (a + 1)%Z with n by lia; now rewrite Z.mod_same by lia).
      rewrite Z.ltb_irrefl. unfold withIndex.
      cbn [drugSuggestions showSuggestions]. f_equal. lia.
    + rewrite Z.mod_small by lia.
      destruct (Z.ltb_spec 0 (a + 1)); [| lia].
      unfold withIndex. cbn [drugSuggestions showSuggestions]. f_equal. lia.
Qed.

Lemma arrow_keys_cycle_example :
  let s := {| drugSuggestions := ["aspirin"; "atenolol"; "amlodipine"];
              activeSuggestionIndex := (-1)%Z; showSuggestions := true |} in
  activeSuggestionIndex (pressAll (repeat "ArrowDown" 4) s) = 0%Z.
Proof.
  intros s.
  destruct (arrow_keys_cycle s 3 eq_refl) as [H _]; [cbn; lia | cbn; lia |].
  rewrite H. reflexivity.
Defined.

(** X8.  Enter hands a suggestion to [handleSuggestionSelect] only when the
    suggestions are shown and the active index points at a non-empty entry
    of the list, which is then the suggestion handed over; the list is
    emptied and hidden and the index reset.  While the suggestions are
    hidden no key changes anything. *)
Theorem enter_selects_active_suggestion (key : string) (s : State) :
  (forall s' suggestion,
     handleKeyDown key s = (s', Some suggestion) ->
     key = "Enter" /\ showSuggestions s = true
     /\ (0 <= activeSuggestionIndex s)%Z
     /\ nth_error (drugSuggestions s) (Z.to_nat (activeSuggestionIndex s))
        = Some suggestion
     /\ suggestion <> ""
     /\ s' = {| drugSuggestions := []; activeSuggestionIndex := (-1)%Z;
                showSuggestions := false |})
  /\ (showSuggestions s = false -> handleKeyDown key s = (s, None)).
Proof.
  split.
  - intros s' suggestion. unfold handleKeyDown.
    destruct (showSuggestions s); cbn [negb]; [| discriminate].
    destruct (String.eqb key "ArrowDown"); [discriminate |].
    destruct (String.eqb key "ArrowUp"); [discriminate |].
    destruct (String.eqb_spec key "Enter") as [-> | _].
    + unfold at_index.
      destruct (Z.ltb_spec (activeSuggestionIndex s) 0) as [L | L];
        [discriminate |].
      destruct (nth_error (drugSuggestions s)
                  (Z.to_nat (activeSuggestionIndex s))) as [x |] eqn:N;
        [| discriminate].
      destruct (Z.leb_spec 0 (activeSuggestionIndex s)); [| lia].
      cbn [andb]. destruct (truthy x) eqn:T; [| discriminate].
      intros [= <- <-]. repeat split; try assumption.
      intros ->. discriminate T.
    + destruct (String.eqb key "Escape"); discriminate.
  - intros H. unfold handleKeyDown. now rewrite H.
Qed.

End Navigation.

(** ** The medication list *)

Section Medications.

Import NewAudit MedicationList.

Lemma setField_keeps_id (med : MedicationInfo) (field : Key) (value : string) :
  field <> K_id -> med_id (setField med field value) = med_id med.
Proof. destruct med, field; cbn; congruence. Qed.

Lemma handleMedicationChange_ids (id : string) (field : Key) (value : string)
    (meds : list MedicationInfo) :
  field <> K_id ->
  map med_id (handleMedicationChange id field value meds) = map med_id meds.
Proof.
  intros F. unfold handleMedicationChange. rewrite map_map.
  apply map_ext. intros med.
  destruct (String.eqb (med_id med) id); [now apply setField_keeps_id | easy].
Qed.

Lemma removal_length (id : string) (meds : list MedicationInfo) :
  NoDup (map med_id meds) ->
  (List.length meds
   <= S (List.length
           (filter (fun med => negb (String.eqb (med_id med) id)) meds)))%nat.
Proof.
  induction meds as [| m rest IH]; cbn; [lia |].
  intros D. inversion D as [| ? ? Hnot Hrest]; subst.
  destruct (String.eqb_spec (med_id m) id) as [E | E]; cbn.
  - assert (F : filter (fun med => negb (String.eqb (med_id med) id)) rest
                = rest).
    { apply forallb_filter_id. apply forallb_forall. intros x Hx.
      destruct (String.eqb_spec (med_id x) id) as [E' | E']; [| reflexivity].
      exfalso. apply Hnot. rewrite E, <- E'. now apply in_map. }
    rewrite F. lia.
  - specialize (IH Hrest). lia.
Qed.

(** X9.  The operations on the medication list keep the identifiers as they
    are: editing a field other than [id] or the drug name changes no
    identifier and touches no medication with another identifier, and with
    distinct identifiers the list stays free of duplicates when a medication
    with a new identifier is added or one is removed. *)
Theorem medication_ids_stay_unique (host : Host)
    (meds : list MedicationInfo) :
  NoDup (map med_id meds) ->
  (forall id field value,
     field <> K_id ->
     map med_id (handleMedicationChange id field value meds) = map med_id meds
     /\ forall m, In m meds -> med_id m <> id ->
          In m (handleMedicationChange id field value meds))
  /\ (forall id value,
        map med_id (handleDrugNameChange host id value meds)
        = map med_id meds)
  /\ (forall newId,
        ~ In newId (map med_id meds) ->
        NoDup (map med_id (addMedication newId meds)))
  /\ (forall seen id update,
        removeMedication seen id = Some update ->
        NoDup (map med_id (update meds))).
Proof.
  intros D. repeat apply conj.
  - intros id field value F. split; [now apply handleMedicationChange_ids |].
    intros m Hm Hid. unfold handleMedicationChange. apply in_map_iff.
    exists m. split; [| assumption].
    destruct (String.eqb_spec (med_id m) id); [contradiction | reflexivity].
  - intros id value. unfold handleDrugNameChange.
    destruct (truthy (trim host value));
      rewrite ?handleMedicationChange_ids by discriminate; reflexivity.
  - intros newId Hnew. unfold addMedication. rewrite map_app. cbn.
    apply NoDup_app; [assumption | repeat constructor; intros [] |].
    intros x Hx [<- | []]. contradiction.
  - intros seen id update. unfold removeMedication.
    destruct (List.length seen <=? 1)%nat; [discriminate |].
    intros [= <-]. clear seen. induction meds as [| m rest IH]; cbn.
    + constructor.
    + inversion D as [| ? ? Hnot Hrest]; subst.
      destruct (negb (String.eqb (med_id m) id)); cbn; [| now apply IH].
      constructor; [| now apply IH].
      intros Hin. apply Hnot. apply in_map_iff in Hin.
      destruct Hin as (x & Ex & Hx). apply filter_In in Hx.
      apply in_map_iff. exists x. tauto.
Qed.

Lemma medication_ids_stay_unique_example :
  NoDup (map med_id (addMedication "2" initialMedications)).
Proof.
  destruct (medication_ids_stay_unique exampleHost initialMedications)
    as (_ & _ & H & _).
  - repeat constructor. intros [].
  - apply H. intros [E | []]. discriminate E.
Defined.

(** X10.  [removeMedication] never empties a list whose identifiers are
    distinct when its updater is applied to the list it has seen: with one
    medication (or none) it only alerts, and otherwise the medication with
    the identifier is gone, at least one medication is left and all the
    others are kept. *)
Theorem remove_keeps_one_medication (meds : list MedicationInfo)
    (id : string) :
  NoDup (map med_id meds) ->
  match removeMedication meds id with
  | None => (List.length meds <= 1)%nat
  | Some update =>
      update meds <> []
      /\ ~ In id (map med_id (update meds))
      /\ (forall m, In m meds -> med_id m <> id -> In m (update meds))
      /\ (List.length meds <= S (List.length (update meds)))%nat
  end.
Proof.
  intros D. unfold removeMedication.
  destruct (Nat.leb_spec (List.length meds) 1) as [L | L]; [assumption |].
  pose proof (removal_length id meds D) as R.
  repeat split.
  - intros E. rewrite E in R. cbn in R. lia.
  - intros Hin. apply in_map_iff in Hin. destruct Hin as (x & Ex & Hx).
    apply filter_In in Hx. destruct Hx as [_ Hx].
    rewrite Ex, String.eqb_refl in Hx. discriminate Hx.
  - intros m Hm Hid. apply filter_In. split; [assumption |].
    destruct (String.eqb_spec (med_id m) id); [contradiction | reflexivity].
  - exact R.
Qed.

Lemma remove_keeps_one_medication_example :
  match removeMedication (addMedication "2" initialMedications) "1" with
  | None => False
  | Some update => update (addMedication "2" initialMedications) <> []
  end.
Proof.
  pose proof (remove_keeps_one_medication
                (addMedication "2" initialMedications) "1") as H.
  assert (D : NoDup (map med_id (addMedication "2" initialMedications))).
  { repeat constructor; [intros [E | []]; discriminate E | intros []]. }
  specialize (H D).
  destruct (removeMedication (addMedication "2" initialMedications) "1");
    [tauto | cbn in H; lia].
Defined.

(** X11.  The guard of [removeMedication] looks at the list as it was when
    the button was pressed, and the removal happens 200 ms later: two
    removals requested on the same list of two medications with distinct
    identifiers both pass the guard, and once both updaters have run the
    list is empty. *)
Theorem two_quick_removals_empty_list (m1 m2 : MedicationInfo) :
  med_id m1 <> med_id m2 ->
  exists update1 update2,
    removeMedication [m1; m2] (med_id m1) = Some update1
    /\ removeMedication [m1; m2] (med_id m2) = Some update2
    /\ update2 (update1 [m1; m2]) = []
    /\ update1 (update2 [m1; m2]) = [].
Proof.
  intros N. do 2 eexists. repeat split; cbn.
  - rewrite String.eqb_refl. cbn.
    destruct (String.eqb_spec (med_id m2) (med_id m1)); [congruence |]. cbn.
    now rewrite String.eqb_refl.
  - destruct (String.eqb_spec (med_id m1) (med_id m2)); [congruence |]. cbn.
    rewrite String.eqb_refl. cbn. now rewrite String.eqb_refl.
Qed.

Lemma two_quick_removals_empty_list_example :
  exists update1 update2,
    removeMedication [blankMedication "1"; blankMedication "2"] "1"
    = Some update1
    /\ removeMedication [blankMedication "1"; blankMedication "2"] "2"
       = Some update2
    /\ update2 (update1 [blankMedication "1"; blankMedication "2"]) = [].
Proof.
  destruct (two_quick_removals_empty_list (blankMedication "1")
              (blankMedication "2")) as (u1 & u2 & H1 & H2 & H3 & _).
  - discriminate.
  - exists u1, u2. auto.
Defined.

End Medications.

(** ** Prescription lines *)

Section Lines.

Import NewAudit Submission.

Variable host : Host.
Variable parseInt : string -> number.
Variable order : option Z.

Lemma or_one_truthy (x : number) : truthyNumber (or_one x).
Proof.
  assert (one : truthyNumber (Fin 1)).
  { split; [discriminate | intros [= H]; lra]. }
  destruct x as [r | | |]; cbn; try exact one; try (split; discriminate).
  destruct (Req_dec_T r 0) as [E | E].
  - rewrite Reqb_true by assumption. exact one.
  - rewrite Reqb_false by assumption. split; [discriminate |].
    intros [= H]. contradiction.
Qed.

Lemma or_zero_not_NaN (x : number) : or_zero x <> NaN.
Proof.
  destruct x as [r | | |]; cbn; try discriminate.
  destruct (Reqb r 0); discriminate.
Qed.

Lemma unitOr_filled (u : option string) : unitOr u "정" <> "".
Proof.
  destruct u as [s |]; cbn; [| discriminate].
  unfold or_else. destruct (truthy s) eqn:T; [| discriminate].
  intros ->. discriminate T.
Qed.

Lemma or_else_empty (s : string) : or_else s "" = s.
Proof. unfold or_else, truthy. now destruct (String.eqb_spec s ""). Qed.

Lemma lineOf_builtFrom (med : MedicationInfo) (r : DrugSearchResponse) :
  builtFrom parseInt order med (lineOf host parseInt order med r).
Proof. unfold builtFrom, lineOf; cbn. now rewrite or_else_empty. Qed.

Lemma defaultLine_builtFrom (med : MedicationInfo) :
  builtFrom parseInt order med (defaultLine host parseInt order med).
Proof. unfold builtFrom, defaultLine; cbn. now rewrite or_else_empty. Qed.

Lemma mapWithResults_builtFrom (meds : list MedicationInfo)
    (drugResults : list DrugSearchResponse) :
  forall index lines,
    mapWithResults host parseInt order meds drugResults index = Some lines ->
    Forall2 (builtFrom parseInt order) meds lines.
Proof.
  induction meds as [| med rest IH]; intros index lines; cbn.
  - intros [= <-]. constructor.
  - destruct (nth_error drugResults index) as [r |]; [| discriminate].
    destruct (mapWithResults host parseInt order rest drugResults (S index))
      as [ls |] eqn:E; [| discriminate].
    intros [= <-]. constructor; [apply lineOf_builtFrom | now apply (IH _ _ E)].
Qed.

Lemma mapWithResults_short (meds : list MedicationInfo)
    (drugResults : list DrugSearchResponse) :
  forall index,
    (List.length drugResults < index + List.length meds)%nat ->
    (0 < List.length meds)%nat ->
    mapWithResults host parseInt order meds drugResults index = None.
Proof.
  induction meds as [| med rest IH]; intros index; cbn.
  - intros L M. lia.
  - intros L _. destruct (nth_error drugResults index) as [r |] eqn:N.
    + assert (index < List.length drugResults)%nat
        by (apply nth_error_Some; congruence).
      rewrite IH by lia. reflexivity.
    + reflexivity.
Qed.

Lemma prescriptionsData_builtFrom (meds : list MedicationInfo)
    (batch : BatchSearch) :
  Forall2 (builtFrom parseInt order) meds (prescriptionsData host parseInt order meds batch).
Proof.
  assert (F : Forall2 (builtFrom parseInt order) meds
                (map (defaultLine host parseInt order) meds)).
  { induction meds; cbn; constructor;
      [apply defaultLine_builtFrom | assumption]. }
  unfold prescriptionsData. destruct batch as [| drugResults]; [exact F |].
  destruct (mapWithResults host parseInt order meds drugResults 0) eqn:E;
    [| exact F].
  now apply (mapWithResults_builtFrom _ _ _ _ E).
Qed.

(** X12.  Whatever the batch search returned, [prescriptionsData] has one
    line per medication, in the order of the medications, carrying the
    medication's product name and dosage text; its unit is never blank (the
    default is "정") and its doses per day and duration are never 0 or NaN
    (the default is 1). *)
Theorem prescription_lines_follow_medications
    (meds : list MedicationInfo) (batch : BatchSearch) :
  let lines := prescriptionsData host parseInt order meds batch in
  List.length lines = List.length meds
  /\ map drug_korean_name lines = map productName meds
  /\ map dose_amount lines = map dosage meds
  /\ forall line, In line lines ->
       dose_unit line <> ""
       /\ truthyNumber (doses_per_day line)
       /\ truthyNumber (duration_days line).
Proof.
  intros lines. pose proof (prescriptionsData_builtFrom meds batch) as F.
  fold lines in F. clearbody lines.
  induction F as [| med line meds' lines' B F IH].
  - split; [reflexivity | split; [reflexivity | split; [reflexivity |]]].
    intros ? [].
  - destruct IH as (L & N & D & A).
    destruct B as (_ & Bn & _ & Bd & Bu & Bf & Bt).
    cbn. split; [congruence | split; [congruence | split; [congruence |]]].
    intros line0 [<- | Hin]; [| now apply A].
    rewrite Bu, Bf, Bt.
    split; [apply unitOr_filled | split; apply or_one_truthy].
Qed.

(** X13.  When the batch search fails, or returns fewer results than there
    are medications, every line is the default one: no drug identifier, and
    a [real_amount] that is the parsed dosage, or 0 when the dosage does not
    parse, and never NaN. *)
Theorem short_batch_gives_default_lines
    (meds : list MedicationInfo) (drugResults : list DrugSearchResponse) :
  (List.length drugResults < List.length meds)%nat ->
  prescriptionsData host parseInt order meds (BatchResults drugResults)
  = prescriptionsData host parseInt order meds BatchFailed
  /\ forall line,
       In line (prescriptionsData host parseInt order meds
                  (BatchResults drugResults)) ->
       drug_id line = None /\ real_amount line <> NaN.
Proof.
  intros L.
  assert (E : prescriptionsData host parseInt order meds
                (BatchResults drugResults)
              = map (defaultLine host parseInt order) meds).
  { unfold prescriptionsData. now rewrite mapWithResults_short by lia. }
  split; [exact E |].
  intros line Hin. rewrite E in Hin. apply in_map_iff in Hin.
  destruct Hin as (med & <- & _). cbn. split; [reflexivity |].
  apply or_zero_not_NaN.
Qed.

(** X14.  [real_amount] treats an unusable dosage differently with and
    without a package size (약품규격_숫자): without one it is the parsed
    dosage, with 0 for a dosage that does not parse; with one it is the
    package size times the dosage, where a dosage that is 0 or does not
    parse counts as 1. *)
Theorem real_amount_of_unusable_dosage (dosage : string) :
  (forall data,
     (forall d v, data = Some d -> 약품규격_숫자 d = Some v ->
                  scalarTruthy v = false) ->
     realAmount host dosage data = or_zero (parseFloat host dosage)
     /\ realAmount host dosage data <> NaN)
  /\ (forall d v,
        약품규격_숫자 d = Some v -> scalarTruthy v = true ->
        realAmount host dosage (Some d)
        = (parseFloatScalar host v * or_one (parseFloat host dosage))%js
        /\ (parseFloat host dosage = NaN \/ parseFloat host dosage = Fin 0 ->
            realAmount host dosage (Some d)
            = (parseFloatScalar host v * Fin 1)%js)).
Proof.
  split.
  - intros data H.
    assert (E : realAmount host dosage data
                = or_zero (parseFloat host dosage)).
    { unfold realAmount. destruct data as [d |]; [| reflexivity].
      destruct (약품규격_숫자 d) as [v |] eqn:S; [| reflexivity].
      now rewrite (H d v eq_refl S). }
    split; [exact E |]. rewrite E. apply or_zero_not_NaN.
  - intros d v S T. unfold realAmount. rewrite S, T.
    split; [reflexivity |].
    intros [-> | ->]; cbn; [reflexivity |].
    now rewrite Reqb_true by reflexivity.
Qed.

End Lines.

Lemma short_batch_gives_default_lines_example :
  let med :=
    {| NewAudit.med_id := "1"; NewAudit.productName := "metformin";
       NewAudit.ingredientName := ""; NewAudit.dosage := "1.0";
       NewAudit.frequency := "2"; NewAudit.duration := "7";
       NewAudit.unit := None |} in
  map Submission.real_amount
    (Submission.prescriptionsData exampleHost (fun _ => NaN) (Some 9%Z)
       [med] (Submission.BatchResults []))
  = [Fin 1].
Proof.
  intros med.
  destruct (short_batch_gives_default_lines exampleHost (fun _ => NaN)
              (Some 9%Z) [med] []) as [E _]; [cbn; lia |].
  rewrite E. cbn. rewrite Reqb_false by lra. reflexivity.
Defined.

(** ** Resident registration numbers *)

Section Resident.

Import ResidentNumber.

Lemma onlyDigits_stripNonDigits (value : string) :
  onlyDigits (stripNonDigits value) = true.
Proof.
  induction value as [| c rest IH]; cbn; [reflexivity |].
  destruct (isDigit c) eqn:D; cbn; [now rewrite D | exact IH].
Qed.

Lemma stripNonDigits_digits (value : string) :
  onlyDigits value = true -> stripNonDigits value = value.
Proof.
  induction value as [| c rest IH]; cbn; [reflexivity |].
  intros H. apply andb_prop in H. destruct H as [D R].
  rewrite D. now rewrite IH.
Qed.

Lemma digitIs_1 (c : Ascii.ascii) :
  digitIs (parseIntChar (String c "")) 1 = Ascii.eqb c "1".
Proof. destruct c as [[] [] [] [] [] [] [] []]; reflexivity. Qed.

Lemma digitIs_2 (c : Ascii.ascii) :
  digitIs (parseIntChar (String c "")) 2 = Ascii.eqb c "2".
Proof. destruct c as [[] [] [] [] [] [] [] []]; reflexivity. Qed.

Lemma digitIs_3 (c : Ascii.ascii) :
  digitIs (parseIntChar (String c "")) 3 = Ascii.eqb c "3".
Proof. destruct c as [[] [] [] [] [] [] [] []]; reflexivity. Qed.

Lemma one_char_neq (a b : Ascii.ascii) :
  a <> b -> String a "" <> String b "".
Proof. intros N [= E]. contradiction. Qed.

End Resident.

Section PrescriptionForm.

Import ResidentNumber PrescriptionInputForm.

(** X15.  Whatever is typed into the prescription form, in any order, both
    halves of the resident number hold digits only; text made of digits is
    stored as typed, and the patient name is stored as typed whatever it
    holds. *)
Theorem resident_number_fields_hold_digits
    (events : list (Input * string)) (value : string) :
  let form := typeAll events initialFormData in
  onlyDigits (residentNumberFront form) = true
  /\ onlyDigits (residentNumberBack form) = true
  /\ patientName (handleInputChange In_patientName value form) = value
  /\ (onlyDigits value = true ->
      residentNumberFront (handleInputChange In_residentNumberFront value form)
      = value
      /\ residentNumberBack (handleInputChange In_residentNumberBack value form)
         = value).
Proof.
  intros form.
  assert (I : forall evs f,
             onlyDigits (residentNumberFront f) = true ->
             onlyDigits (residentNumberBack f) = true ->
             onlyDigits (residentNumberFront (typeAll evs f)) = true
             /\ onlyDigits (residentNumberBack (typeAll evs f)) = true).
  { induction evs as [| [name v] rest IH]; intros f F B; [now split |].
    apply IH; destruct name; cbn; auto using onlyDigits_stripNonDigits. }
  destruct (I events initialFormData eq_refl eq_refl) as [F B].
  repeat split; try assumption.
  - cbn. now apply stripNonDigits_digits.
  - cbn. now apply stripNonDigits_digits.
Qed.

(** X16.  [extractInfoFromResidentNumber] gives nothing unless the front half
    has six characters and the back half one.  Otherwise the birth date has
    the shape CCyy-mm-dd with yy, mm and dd cut from the front half; the
    century is 19 for the digits 1 and 2 and 20 for every other character;
    the sex is M for the digits 1 and 3 and F for every other character. *)
Theorem extractInfoFromResidentNumber_shape (front back : string) :
  match extractInfoFromResidentNumber front back with
  | None => String.length front <> 6%nat \/ String.length back <> 1%nat
  | Some (birthDate, sex) =>
      String.length front = 6%nat /\ String.length back = 1%nat
      /\ String.length birthDate = 10%nat
      /\ substring 2 2 birthDate ++ substring 5 2 birthDate
         ++ substring 8 2 birthDate = front
      /\ substring 4 1 birthDate = "-" /\ substring 7 1 birthDate = "-"
      /\ (substring 0 2 birthDate = "19" /\ (back = "1" \/ back = "2")
          \/ substring 0 2 birthDate = "20" /\ back <> "1" /\ back <> "2")
      /\ (sex = "M" /\ (back = "1" \/ back = "3")
          \/ sex = "F" /\ back <> "1" /\ back <> "3")
  end.
Proof.
  destruct front as [| a [| b [| c [| d [| e [| f [| g rest]]]]]]];
    try (cbn; left; discriminate).
  all: destruct back as [| k [| k' rest']];
    try (cbn; right; discriminate).
  unfold extractInfoFromResidentNumber.
  cbn [String.length Nat.eqb negb orb].
  rewrite digitIs_1, digitIs_2, digitIs_3.
  destruct (Ascii.eqb_spec k "1") as [-> | N1];
    [cbn; repeat split; auto |].
  destruct (Ascii.eqb_spec k "2") as [-> | N2];
    [cbn; repeat split; auto; right; repeat split; discriminate |].
  destruct (Ascii.eqb_spec k "3") as [-> | N3];
    [cbn; repeat split; auto; right; repeat split; discriminate |].
  cbn. repeat split; auto; right; repeat split;
    auto using one_char_neq.
Qed.

(** X17.  [autoSearchPatient] starts a search exactly when the name is not
    empty, the front half has six characters and the back half one; the
    search then carries the name and what
    [extractInfoFromResidentNumber] derived, and otherwise the patient
    status is reset. *)
Theorem autoSearchPatient_searches_complete_forms (name front back : string) :
  (name <> "" /\ String.length front = 6%nat /\ String.length back = 1%nat
   -> exists birthDate sex,
        extractInfoFromResidentNumber front back = Some (birthDate, sex)
        /\ autoSearchPatient name front back
           = SearchPatientByInfo name birthDate sex)
  /\ (name = "" \/ String.length front <> 6%nat \/ String.length back <> 1%nat
      -> autoSearchPatient name front back = ResetStatus).
Proof.
  unfold autoSearchPatient, extractInfoFromResidentNumber, truthy. split.
  - intros (N & F & B). rewrite F, B.
    destruct (String.eqb_spec name ""); [contradiction |]. cbn.
    eauto.
  - intros [-> | [F | B]]; [reflexivity | |].
    + apply Nat.eqb_neq in F. rewrite F.
      now rewrite orb_true_r.
    + apply Nat.eqb_neq in B. rewrite B.
      now rewrite !orb_true_r.
Qed.

End PrescriptionForm.

Section NewPatient.

Import ResidentNumber Verification.

Lemma seven_digits_first (back : string) :
  onlyDigits back = true -> String.length back = 7%nat ->
  exists c rest, back = String c rest /\ isDigit c = true.
Proof.
  destruct back as [| c rest]; [discriminate |].
  cbn. intros D _. apply andb_prop in D. destruct D as [D _]. eauto.
Qed.

Lemma gender_sex_of_digit (c : Ascii.ascii) (rest : string) :
  isDigit c = true ->
  ((genderOf (String c rest) = "male" /\ sexOf (String c rest) = "F")
   <-> (c = "5" \/ c = "7" \/ c = "9")%char)
  /\ ~ (genderOf (String c rest) = "female" /\ sexOf (String c rest) = "M").
Proof.
  destruct c as [[] [] [] [] [] [] [] []]; try discriminate; intros _;
    vm_compute; (split; [split |]);
    intuition (discriminate || auto).
Qed.

(** X18.  In the new-patient dialogue the gender written into the patient
    record and the sex sent to the duplicate check are derived from the same
    digit by two rules.  Once the back half holds seven digits, the record
    says male while the duplicate check is asked about F exactly when that
    digit is 5, 7 or 9; the opposite disagreement never happens. *)
Theorem gender_and_duplicate_check_sex_disagree
    (value : string) (prev : IdentityVerification) :
  let change :=
    handleVerificationInputChange In_residentNumberBack value prev in
  name prev <> "" ->
  onlyDigits (residentNumberFront prev) = true ->
  String.length (residentNumberFront prev) = 6%nat ->
  String.length (stripNonDigits value) = 7%nat ->
  exists gender birthDate sex,
    newGender change = Some gender
    /\ handleSendVerificationCode (updated change)
       = CheckPatientDuplicate (name prev) birthDate sex
    /\ ((gender = "male" /\ sex = "F")
        <-> (charAt0 (stripNonDigits value) = "5"
             \/ charAt0 (stripNonDigits value) = "7"
             \/ charAt0 (stripNonDigits value) = "9"))
    /\ ~ (gender = "female" /\ sex = "M").
Proof.
  intros change N F L B. subst change.
  pose proof (onlyDigits_stripNonDigits value) as D.
  set (back := stripNonDigits value) in *.
  destruct (seven_digits_first back D B) as (c & rest & E & Dc).
  exists (genderOf back), (birthDateOf (residentNumberFront prev) back),
    (sexOf back).
  split; [| split].
  - unfold handleVerificationInputChange; cbn. fold back. now rewrite B.
  - unfold handleVerificationInputChange, handleSendVerificationCode; cbn.
    fold back. rewrite F, L, D, B. unfold truthy.
    destruct (String.eqb_spec (name prev) ""); [contradiction |].
    destruct (String.eqb_spec (residentNumberFront prev) "") as [Z | _];
      [rewrite Z in L; discriminate L |].
    destruct (String.eqb_spec back "") as [Z | _];
      [rewrite Z in B; discriminate B |].
    reflexivity.
  - rewrite E. destruct (gender_sex_of_digit c rest Dc) as [I O].
    split; [| exact O]. cbn [charAt0].
    rewrite I. split.
    + intros [-> | [-> | ->]]; auto.
    + intros [[= ->] | [[= ->] | [= ->]]]; auto.
Qed.

Lemma gender_and_duplicate_check_sex_disagree_example :
  let prev :=
    {| name := "Kim"; residentNumberFront := "800615";
       residentNumberBack := ""; verificationCode := "";
       isVerified := false |} in
  exists gender birthDate sex,
    newGender (handleVerificationInputChange In_residentNumberBack
                 "5-123456" prev) = Some gender
    /\ handleSendVerificationCode
         (updated (handleVerificationInputChange In_residentNumberBack
                     "5-123456" prev))
       = CheckPatientDuplicate "Kim" birthDate sex
    /\ gender = "male" /\ sex = "F".
Proof.
  intros prev.
  destruct (gender_and_duplicate_check_sex_disagree "5-123456" prev)
    as (gender & birthDate & sex & G & S & I & _);
    [discriminate | reflexivity | reflexivity | reflexivity |].
  exists gender, birthDate, sex. repeat split; try assumption;
    apply I; left; reflexivity.
Defined.

(** X19.  The new-patient dialogue and the prescription form read a resident
    number alike: for a six-character front half and a non-empty back half,
    the birth date and the sex sent to the duplicate check are those
    [extractInfoFromResidentNumber] gives for the first character of the
    back half. *)
Theorem dialogue_and_form_read_resident_number_alike (front back : string) :
  String.length front = 6%nat -> back <> "" ->
  PrescriptionInputForm.extractInfoFromResidentNumber front (charAt0 back)
  = Some (birthDateOf front back, sexOf back).
Proof.
  intros F B. unfold PrescriptionInputForm.extractInfoFromResidentNumber.
  rewrite F. destruct back as [| c rest]; [contradiction |]. reflexivity.
Qed.

Lemma dialogue_and_form_read_resident_number_alike_example :
  PrescriptionInputForm.extractInfoFromResidentNumber "800615"
    (charAt0 "1234567")
  = Some (birthDateOf "800615" "1234567", sexOf "1234567").
Proof.
  apply dialogue_and_form_read_resident_number_alike;
    [reflexivity | discriminate].
Defined.

End NewPatient.

(** ** Patient identifiers *)

Section Identifiers.

Import ResidentNumber PatientIds.

Lemma matchId_uint (d : Decimal.uint) :
  matchId (NilEmpty.string_of_uint d) = None.
Proof. induction d; cbn; auto. Qed.

Lemma matchId_showZ (n : Z) : matchId (showZ n) = None.
Proof.
  unfold showZ. destruct (Z.to_int n) as [d | d]; cbn.
  - destruct d; try apply (matchId_uint (_ d)); reflexivity.
  - destruct d; try apply (matchId_uint (_ d)); reflexivity.
Qed.

Lemma Math_max_all_zeros (ids : list Z) :
  ids <> [] ->
  Math_max_all (map numberOf (map showZ ids)) = Finite 0.
Proof.
  assert (Z0 : forall n, numberOf (showZ n) = 0%Z).
  { intros n. unfold numberOf. now rewrite matchId_showZ. }
  assert (G : forall l,
             fold_left (fun m n => match m with
                                   | NegInfinity => Finite n
                                   | Finite k => Finite (Z.max k n)
                                   end)
               (map numberOf (map showZ l)) (Finite 0) = Finite 0).
  { induction l as [| n l IH]; cbn; [reflexivity |]. now rewrite Z0. }
  destruct ids as [| n l]; [contradiction |]. intros _.
  unfold Math_max_all. cbn. rewrite Z0. apply G.
Qed.

(** X20.  The patient list holds the numeric identifiers of the server, and
    the pattern P\d{4}(\d{3}) matches none of their decimal texts.  So
    [generatePatientId] returns P<year>001 whatever patients exist, and
    P<year>-Infinity when there is none. *)
Theorem generatePatientId_of_numeric_ids (year : Z) (ids : list Z) :
  generatePatientId year (map showZ ids)
  = "P" ++ showZ year
    ++ match ids with [] => "-Infinity" | _ :: _ => "001" end.
Proof.
  unfold generatePatientId. destruct ids as [| n l]; [reflexivity |].
  rewrite Math_max_all_zeros by discriminate. reflexivity.
Qed.

End Identifiers.

(** ** The history list *)

Section History.

Import AuditHistory HistoryList.

Lemma every_dash (lines : list Prescription) :
  forallb (fun p => String.eqb (audit_result p) "-") lines
  = negb (existsb isPending lines) && negb (existsb isAbnormal lines).
Proof.
  induction lines as [| p rest IH]; [reflexivity |].
  cbn [forallb existsb]. rewrite IH. unfold isPending, isAbnormal.
  destruct (String.eqb_spec (audit_result p) "-") as [-> | N].
  - reflexivity.
  - destruct (String.eqb (audit_result p) "대기중"); cbn;
      rewrite ?andb_false_r; reflexivity.
Qed.

Lemma existsb_filter_length {A : Type} (f : A -> bool) (l : list A) :
  existsb f l = true <-> (0 < List.length (filter f l))%nat.
Proof.
  induction l as [| a l IH]; cbn; [split; [discriminate | lia] |].
  destruct (f a); cbn; [split; [lia | reflexivity] | exact IH].
Qed.

(** X21.  The status filter of the history list and the badge of a row are
    computed from the same lines.  "completed" lists exactly the rows whose
    badge reads "정상" and "pending" exactly those whose badge reads "대기중";
    "failed" lists exactly the rows with a non-zero count of abnormal lines,
    which are the rows whose badge reads "이상" and, besides, the rows that
    have both a pending and an abnormal line, whose badge reads "대기중". *)
Theorem status_filter_and_badge (record : AuditRecord) :
  let badge := text (getStatusBadge record) in
  (matchesStatus "completed" record = true <-> badge = "정상")
  /\ (matchesStatus "pending" record = true <-> badge = "대기중")
  /\ (matchesStatus "failed" record = true
      <-> (0 < getAbnormalCount record)%nat)
  /\ (matchesStatus "failed" record = true
      <-> badge = "이상"
          \/ (existsb isPending (prescriptions record) = true
              /\ existsb isAbnormal (prescriptions record) = true))
  /\ matchesStatus "all" record = true.
Proof.
  intros badge. subst badge. rewrite getStatusBadge_text.
  unfold matchesStatus, getAbnormalCount.
  rewrite <- existsb_filter_length, every_dash. cbn.
  destruct (existsb isPending (prescriptions record)),
           (existsb isAbnormal (prescriptions record));
    cbn; repeat split; try discriminate; try reflexivity; auto;
    try (intros [H | [H1 H2]]; discriminate).
Qed.

(** X22.  The list shows a prefix of the filtered rows, every one of which
    passes the filter; the "더보기" button is offered exactly while some
    filtered row is not shown, and pressing it then shows more rows. *)
Theorem load_more_reveals_hidden_rows (host : Host)
    (toLowerCase : string -> string) (includes : string -> string -> bool)
    (searchTerm statusFilter : string) (auditRecords : list AuditRecord)
    (displayCount : nat) :
  let filtered :=
    filteredRecords host toLowerCase includes searchTerm statusFilter
      auditRecords in
  let shown := displayedRecords filtered displayCount in
  (exists hidden, filtered = (shown ++ hidden)%list)
  /\ List.length shown = Nat.min displayCount (List.length filtered)
  /\ (forall row, In row shown ->
        In row auditRecords /\ matchesStatus statusFilter row = true)
  /\ (hasMoreRecords filtered displayCount = false <-> shown = filtered)
  /\ (hasMoreRecords filtered displayCount = true ->
      (List.length shown
       < List.length (displayedRecords filtered (handleLoadMore displayCount)))
      %nat).
Proof.
  intros filtered shown. subst shown. unfold displayedRecords.
  split; [| split; [| split; [| split]]].
  - exists (skipn displayCount filtered). symmetry. apply firstn_skipn.
  - apply length_firstn.
  - intros row Hin.
    assert (F : In row filtered).
    { rewrite <- (firstn_skipn displayCount filtered).
      apply in_or_app. now left. }
    apply filter_In in F. destruct F as [I M].
    apply andb_prop in M. tauto.
  - unfold hasMoreRecords. rewrite Nat.ltb_ge. split.
    + apply firstn_all2.
    + intros E. apply (f_equal (@List.length _)) in E.
      rewrite length_firstn in E. lia.
  - unfold hasMoreRecords, handleLoadMore. rewrite Nat.ltb_lt.
    rewrite !length_firstn. lia.
Qed.

Lemma load_more_reveals_hidden_rows_example :
  let rows := map (fun r => exampleRecord [r]) ["-"; "금기"; "-"] in
  (List.length (HistoryList.displayedRecords
                  (HistoryList.filteredRecords exampleHost (fun s => s)
                     (fun _ _ => false) "" "all" rows) 2)
   < List.length (HistoryList.displayedRecords
                    (HistoryList.filteredRecords exampleHost (fun s => s)
                       (fun _ _ => false) "" "all" rows)
                    (HistoryList.handleLoadMore 2)))%nat.
Proof.
  intros rows.
  apply (load_more_reveals_hidden_rows exampleHost (fun s => s)
           (fun _ _ => false) "" "all" rows 2).
  reflexivity.
Defined.

(** X23.  "상세보기" hands the lines of a row to the popup, which counts
    issues by another rule: a pending line is an issue for the popup and not
    abnormal for the list, a line spelled "정상" is abnormal for the list and
    no issue for the popup.  So the popup's issue count plus the "정상" lines
    equals the list's abnormal count plus the pending lines, and a row whose
    badge reads "정상" opens a popup without issues. *)
Theorem history_row_and_popup_counts (record : AuditRecord) :
  let lines := prescriptions record in
  let popup := convertToPopupPrescriptions lines in
  (List.length (filter AuditResultPopup.isIssue popup)
   + List.length
       (filter (fun p => String.eqb (audit_result p) "정상") lines)
   = getAbnormalCount record + List.length (filter isPending lines))%nat
  /\ (text (getStatusBadge record) = "정상" ->
      AuditResultPopup.getPopupTitle popup = "✅ 처방 감사 결과"
      /\ AuditResultPopup.getSectionTitle popup
         = "처방 감사 결과 (모두 정상)").
Proof.
  intros lines popup. subst popup. unfold getAbnormalCount. fold lines.
  split.
  - clearbody lines. induction lines as [| p rest IH]; [reflexivity |].
    unfold convertToPopupPrescriptions in *. cbn [map filter].
    unfold AuditResultPopup.isIssue at 1. unfold isAbnormal at 1.
    unfold isPending at 1. cbn [AuditResultPopup.audit_result].
    destruct (String.eqb_spec (audit_result p) "-") as [E | _].
    { rewrite E.
      replace ("-" =? "정상")%string with false by reflexivity.
      replace ("-" =? "대기중")%string with false by reflexivity.
      cbn [negb andb List.length]. lia. }
    destruct (String.eqb_spec (audit_result p) "정상") as [E | _].
    { rewrite E.
      replace ("정상" =? "대기중")%string with false by reflexivity.
      cbn [negb andb List.length]. lia. }
    destruct (String.eqb (audit_result p) "대기중");
      cbn [negb andb List.length]; lia.
  - rewrite getStatusBadge_text. fold lines.
    destruct (existsb isPending lines) eqn:P; [discriminate |].
    destruct (existsb isAbnormal lines) eqn:A; [discriminate |]. intros _.
    assert (I : existsb AuditResultPopup.isIssue
                  (convertToPopupPrescriptions lines) = false).
    { clearbody lines. induction lines as [| p rest IH]; [reflexivity |].
      cbn [existsb] in P, A. apply orb_false_iff in P, A.
      destruct P as [P1 P2], A as [A1 A2].
      unfold convertToPopupPrescriptions in *. cbn [map existsb].
      rewrite (IH P2 A2), orb_false_r.
      unfold AuditResultPopup.isIssue, isAbnormal, isPending in *.
      cbn [AuditResultPopup.audit_result].
      destruct (String.eqb_spec (audit_result p) "-") as [E | _];
        [reflexivity |].
      rewrite P1 in A1. discriminate A1. }
    unfold AuditResultPopup.getPopupTitle, AuditResultPopup.getSectionTitle.
    now rewrite I.
Qed.

End History.

(** ** The result popup *)

Section Popup.

Import AuditResultPopup PopupActions.

Lemma getBaseInfo_description (result : string) :
  description (getBaseInfo result) <> ""
  /\ description (getBaseInfo result) = getDefaultDescription result.
Proof.
  unfold getBaseInfo, getDefaultDescription.
  repeat match goal with
         | |- context [if ?b then _ else _] => destruct b
         end; cbn; split; (discriminate || reflexivity).
Qed.

(** X24.  The description that [getAuditResultInfo] gives for a line is never
    empty: it is the information stored with the line when that is not empty
    and the text of [getDefaultDescription] otherwise.  So the fallback in
    [prescription.information || auditInfo.description] never changes the
    information row, and the badge is the normal one exactly for the lines
    that are not counted as issues. *)
Theorem audit_result_info_description (prescription : Prescription) :
  let auditInfo := getAuditResultInfo prescription in
  description auditInfo <> ""
  /\ description auditInfo
     = (if present (information prescription)
        then match information prescription with
             | Some info => info
             | None => ""
             end
        else getDefaultDescription (audit_result prescription))
  /\ informationRow prescription = description auditInfo
  /\ (badgeClass auditInfo = "normal" <-> isIssue prescription = false)
  /\ label auditInfo = label (getBaseInfo (audit_result prescription)).
Proof.
  intros auditInfo. subst auditInfo.
  destruct (getBaseInfo_description (audit_result prescription)) as [N D].
  assert (B : badgeClass (getBaseInfo (audit_result prescription)) = "normal"
              <-> isIssue prescription = false).
  { unfold getBaseInfo, isIssue.
    destruct (String.eqb_spec (audit_result prescription) "금기") as [-> | _];
      [cbn; split; discriminate |].
    destruct (String.eqb_spec (audit_result prescription) "용량조절필요")
      as [-> | _]; [cbn; split; discriminate |].
    destruct (String.eqb_spec (audit_result prescription) "투여간격조절필요")
      as [-> | _]; [cbn; split; discriminate |].
    destruct (String.eqb (audit_result prescription) "정상"),
             (String.eqb (audit_result prescription) "-");
      cbn; split; (discriminate || reflexivity). }
  unfold informationRow, getAuditResultInfo, present, or_else.
  destruct (information prescription) as [info |]; cbn.
  - destruct (truthy info) eqn:T; cbn.
    + repeat split; try apply B; try reflexivity.
      intros ->. discriminate T.
    + repeat split; try apply B; try assumption; reflexivity.
  - repeat split; try apply B; try assumption; reflexivity.
Qed.

Lemma existsb_eqb_In (x : Z) (l : list Z) :
  existsb (Z.eqb x) l = true <-> In x l.
Proof.
  rewrite existsb_exists. split.
  - intros (y & Hin & E). apply Z.eqb_eq in E. now subst.
  - intros Hin. exists x. split; [assumption | apply Z.eqb_refl].
Qed.

Lemma toggle_In (prescriptionId other : Z) (prev : list Z) :
  In other (handlePrescriptionToggle prescriptionId prev)
  <-> (if Z.eqb other prescriptionId
       then ~ In prescriptionId prev else In other prev).
Proof.
  unfold handlePrescriptionToggle.
  destruct (existsb (Z.eqb prescriptionId) prev) eqn:E.
  - apply existsb_eqb_In in E. rewrite filter_In.
    destruct (Z.eqb_spec other prescriptionId) as [-> | N]; cbn.
    + split; [intros [_ H]; discriminate H | tauto].
    + tauto.
  - assert (N : ~ In prescriptionId prev).
    { intros H. apply existsb_eqb_In in H. congruence. }
    rewrite in_app_iff. cbn.
    destruct (Z.eqb_spec other prescriptionId) as [-> | D].
    + tauto.
    + split; [intros [H | [H | []]]; [assumption | congruence] | tauto].
Qed.

Lemma toggle_NoDup (prescriptionId : Z) (prev : list Z) :
  NoDup prev -> NoDup (handlePrescriptionToggle prescriptionId prev).
Proof.
  intros D. unfold handlePrescriptionToggle.
  destruct (existsb (Z.eqb prescriptionId) prev) eqn:E.
  - now apply NoDup_filter.
  - apply NoDup_app; [assumption | repeat constructor; intros [] |].
    intros x Hx [<- | []]. apply existsb_eqb_In in Hx. congruence.
Qed.

(** X25.  A click in the fax dialog toggles one line and no other: the
    clicked identifier is selected afterwards exactly when it was not before,
    every other identifier keeps its state, no identifier is ever selected
    twice, and a second click on an unselected line restores the selection. *)
Theorem prescription_toggle_flips_one_line
    (prescriptionId : Z) (prev : list Z) :
  (In prescriptionId (handlePrescriptionToggle prescriptionId prev)
   <-> ~ In prescriptionId prev)
  /\ (forall other, other <> prescriptionId ->
        (In other (handlePrescriptionToggle prescriptionId prev)
         <-> In other prev))
  /\ (NoDup prev -> NoDup (handlePrescriptionToggle prescriptionId prev))
  /\ (~ In prescriptionId prev ->
      handlePrescriptionToggle prescriptionId
        (handlePrescriptionToggle prescriptionId prev) = prev).
Proof.
  split; [| split; [| split]].
  - rewrite toggle_In, Z.eqb_refl. tauto.
  - intros other N. rewrite toggle_In.
    now destruct (Z.eqb_spec other prescriptionId).
  - apply toggle_NoDup.
  - intros N. unfold handlePrescriptionToggle at 2.
    assert (E : existsb (Z.eqb prescriptionId) prev = false).
    { destruct (existsb (Z.eqb prescriptionId) prev) eqn:E; [| reflexivity].
      apply existsb_eqb_In in E. contradiction. }
    rewrite E. unfold handlePrescriptionToggle.
    rewrite existsb_app. cbn. rewrite Z.eqb_refl, orb_true_r.
    rewrite filter_app. cbn. rewrite Z.eqb_refl. cbn.
    rewrite app_nil_r. apply forallb_filter_id.
    apply forallb_forall. intros x Hx.
    destruct (Z.eqb_spec x prescriptionId) as [-> | _];
      [contradiction | reflexivity].
Qed.

End Popup.

Section Fax.

Import AuditResultPopup PopupActions.

Variable sort :
  (Prescription -> Prescription -> Z) -> list Prescription -> list Prescription.

Lemma toggleAll_invariant (P : Z -> Prop) (clicks : list Z) :
  (forall c, In c clicks -> P c) ->
  forall selected,
    NoDup selected -> (forall x, In x selected -> P x) ->
    NoDup (toggleAll clicks selected)
    /\ forall x, In x (toggleAll clicks selected) -> P x.
Proof.
  induction clicks as [| c rest IH]; intros C selected D S; [now split |].
  cbn. apply IH.
  - intros c' H. apply C. now right.
  - now apply toggle_NoDup.
  - intros x H. pose proof (proj1 (toggle_In c x selected) H) as H'.
    destruct (Z.eqb_spec x c) as [E | _];
      [apply C; now left | now apply S].
Qed.

Lemma NoDup_map_eq {A B : Type} (f : A -> B) (l : list A) (x y : A) :
  NoDup (map f l) -> In x l -> In y l -> f x = f y -> x = y.
Proof.
  induction l as [| a l IH]; cbn; [intros _ [] |].
  intros D Hx Hy E. apply NoDup_cons_iff in D. destruct D as [N D].
  destruct Hx as [<- | Hx], Hy as [<- | Hy]; try reflexivity.
  - exfalso. apply N. rewrite E. now apply in_map.
  - exfalso. apply N. rewrite <- E. now apply in_map.
  - now apply IH.
Qed.

Lemma filter_map_length {A B : Type} (f : A -> B) (g : B -> bool)
    (l : list A) :
  List.length (filter (fun x => g (f x)) l)
  = List.length (filter g (map f l)).
Proof.
  induction l as [| a l IH]; cbn; [reflexivity |].
  destruct (g (f a)); cbn; now rewrite IH.
Qed.

Lemma string_append_assoc (a b c : string) :
  ((a ++ b) ++ c = a ++ (b ++ c))%string.
Proof. induction a as [| x a IH]; cbn; [reflexivity | now rewrite IH]. Qed.

Lemma selected_length (selected ids : list Z) :
  NoDup selected -> NoDup ids -> (forall x, In x selected -> In x ids) ->
  List.length (filter (fun i => existsb (Z.eqb i) selected) ids)
  = List.length selected.
Proof.
  intros Ds Di S. apply Permutation_length. apply NoDup_Permutation.
  - now apply NoDup_filter.
  - assumption.
  - intros x. rewrite filter_In, existsb_eqb_In. split; [tauto |].
    intros H. split; [now apply S | assumption].
Qed.

(** X26.  The fax dialog offers the issue lines only.  If the identifiers of
    the lines are distinct, then whatever is clicked there, the report is
    refused exactly when nothing is selected; otherwise it is headed as a
    report of issues, it holds as many lines as are selected, and every one
    of them is counted as an issue. *)
Theorem fax_report_holds_selected_issues
    (prescriptions : list Prescription) (clicks : list Z) :
  NoDup (map id prescriptions) ->
  (forall c, In c clicks -> In c (map id (selectable prescriptions))) ->
  let selected := toggleAll clicks [] in
  match handleGenerateFaxReport sort selected prescriptions with
  | NothingSelected _ => selected = []
  | Printed content =>
      selected <> []
      /\ header content = "⚠️ 처방 이상 사항 보고서"
      /\ summary content
         = "처방 감사 결과 (총 " ++ showCount (List.length selected)
           ++ "건, 이상 " ++ showCount (List.length selected) ++ "건)"
  end.
Proof.
  intros D C selected.
  destruct (toggleAll_invariant
              (fun c => In c (map id (selectable prescriptions)))
              clicks C [] (NoDup_nil _) (fun x H => match H with end))
    as [Ds S].
  fold selected in Ds, S. clearbody selected.
  unfold handleGenerateFaxReport.
  destruct selected as [| s0 rest]; [reflexivity |].
  cbn [List.length Nat.eqb]. split; [discriminate |].
  set (selected := s0 :: rest) in *.
  set (data := filter (fun p => existsb (Z.eqb (id p)) selected)
                 prescriptions).
  assert (I : forall p, In p data -> isIssue p = true).
  { intros p Hp. apply filter_In in Hp. destruct Hp as [Hin Hsel].
    apply existsb_eqb_In in Hsel. apply S in Hsel.
    apply in_map_iff in Hsel. destruct Hsel as (q & E & Hq).
    apply filter_In in Hq. destruct Hq as [Hq Iq].
    now rewrite (NoDup_map_eq id prescriptions p q D Hin Hq (eq_sym E)). }
  assert (L : List.length data = List.length selected).
  { unfold data.
    rewrite (filter_map_length id (fun i => existsb (Z.eqb i) selected)).
    apply selected_length; try assumption.
    intros x Hx. apply S in Hx. apply in_map_iff in Hx.
    destruct Hx as (q & E & Hq). apply filter_In in Hq.
    rewrite <- E. apply in_map. tauto. }
  assert (F : filter isIssue data = data).
  { apply forallb_filter_id. now apply forallb_forall. }
  assert (E : existsb isIssue data = true).
  { destruct data as [| p ps] eqn:Ed; [discriminate L |].
    cbn. rewrite (I p) by now left. reflexivity. }
  unfold generateFaxContent. cbn [header summary].
  rewrite E, F, L. split; [reflexivity |].
  rewrite !string_append_assoc. reflexivity.
Qed.

Lemma negb_isNormal (p : Prescription) : negb (isNormal p) = isIssue p.
Proof. unfold isNormal, isIssue. now rewrite negb_orb. Qed.

Lemma ordered_split (l : list Prescription) :
  ordered l = true ->
  l = (filter isIssue l ++ filter isNormal l)%list.
Proof.
  induction l as [| a rest IH]; [reflexivity |].
  cbn [ordered filter]. intros H. apply andb_prop in H. destruct H as [A O].
  specialize (IH O). rewrite <- negb_isNormal.
  destruct (isNormal a) eqn:Na; cbn [negb].
  - assert (N : forallb isNormal rest = true).
    { apply forallb_forall. intros b Hb.
      rewrite forallb_forall in A. specialize (A b Hb).
      unfold compareLines in A. rewrite Na in A.
      destruct (isNormal b); [reflexivity | discriminate A]. }
    rewrite (forallb_filter_id _ _ N).
    assert (Z : filter isIssue rest = []).
    { clear -N. induction rest as [| b rest IH]; [reflexivity |].
      cbn in N |- *. apply andb_prop in N. destruct N as [Nb N].
      rewrite <- negb_isNormal, Nb. cbn. now apply IH. }
    now rewrite Z.
  - cbn. now rewrite <- IH.
Qed.

(** X27.  The list of the popup and the fax report are printed in the order
    [sort] gives with the comparator of the component.  For any sort that
    orders by the comparator and is stable, that order is: the issue lines
    in their original order, then the normal lines in their original
    order. *)
Theorem sorted_lines_put_issues_first (prescriptionsToUse : list Prescription) :
  ordered (sort compareLines prescriptionsToUse) = true ->
  stable (sort compareLines prescriptionsToUse) prescriptionsToUse ->
  lines (generateFaxContent sort prescriptionsToUse)
  = (filter isIssue prescriptionsToUse
     ++ filter isNormal prescriptionsToUse)%list.
Proof.
  intros O [Sn Si]. cbn [generateFaxContent lines].
  rewrite (ordered_split _ O), Sn. f_equal.
  rewrite <- (filter_ext _ _ negb_isNormal (sort compareLines _)), Si.
  apply filter_ext, negb_isNormal.
Qed.

End Fax.

Lemma fax_report_holds_selected_issues_example :
  let line (i : Z) (result : string) :=
    {| AuditResultPopup.id := i;
       AuditResultPopup.drug_korean_name := "metformin";
       AuditResultPopup.audit_result := result;
       AuditResultPopup.information := None;
       AuditResultPopup.dose_amount := None;
       AuditResultPopup.dose_unit := None;
       AuditResultPopup.doses_per_day := None;
       AuditResultPopup.duration_days := None;
       AuditResultPopup.audit_comment := None |} in
  match PopupActions.handleGenerateFaxReport PopupActions.abnormalFirst
          (PopupActions.toggleAll [2; 3; 2]%Z [])
          [line 1%Z "-"; line 2%Z "금기"; line 3%Z "용량조절필요"] with
  | PopupActions.NothingSelected _ => False
  | PopupActions.Printed content =>
      PopupActions.summary content = "처방 감사 결과 (총 1건, 이상 1건)"
  end.
Proof.
  intros line.
  pose proof (fax_report_holds_selected_issues PopupActions.abnormalFirst
                [line 1%Z "-"; line 2%Z "금기"; line 3%Z "용량조절필요"]
                [2; 3; 2]%Z) as H.
  assert (D : NoDup (map AuditResultPopup.id
                       [line 1%Z "-"; line 2%Z "금기";
                        line 3%Z "용량조절필요"])).
  { cbn. repeat constructor; cbn; intuition discriminate. }
  specialize (H D). cbn zeta in H.
  destruct (PopupActions.handleGenerateFaxReport _ _ _) as [m | content].
  - assert (E : PopupActions.toggleAll [2; 3; 2]%Z [] = []).
    { apply H. cbn. intuition (subst; auto). }
    discriminate E.
  - apply H. cbn. intuition (subst; auto).
Defined.

Lemma sorted_lines_put_issues_first_example :
  let line (i : Z) (result : string) :=
    {| AuditResultPopup.id := i;
       AuditResultPopup.drug_korean_name := "metformin";
       AuditResultPopup.audit_result := result;
       AuditResultPopup.information := None;
       AuditResultPopup.dose_amount := None;
       AuditResultPopup.dose_unit := None;
       AuditResultPopup.doses_per_day := None;
       AuditResultPopup.duration_days := None;
       AuditResultPopup.audit_comment := None |} in
  map AuditResultPopup.id
    (PopupActions.lines
       (PopupActions.generateFaxContent PopupActions.abnormalFirst
          [line 1%Z "-"; line 2%Z "금기"; line 3%Z "정상";
           line 4%Z "대기중"]))
  = [2; 4; 1; 3]%Z.
Proof.
  intros line.
  rewrite (sorted_lines_put_issues_first PopupActions.abnormalFirst);
    [reflexivity | reflexivity | split; reflexivity].
Defined.

(** ** Submitting an audit *)

(** X28.  [handleAuditExecution] posts the patient record exactly when
    gender, birth date, weight and height are filled in, the patient is on
    dialysis or creatinine, eGFR and CrCl are filled in, and at least one
    medication has a name, a dosage, a frequency and a duration; otherwise it
    stops with an alert.  The posted eGFR, CrCl, normalised CrCl and BSA are
    never NaN, while weight and height are posted as parsed, unchecked. *)
Theorem audit_is_posted_for_complete_forms (host : Host)
    (patientInfo : PatientInfo) (medications : list NewAudit.MedicationInfo) :
  let complete :=
    gender patientInfo <> "" /\ birthDate patientInfo <> ""
    /\ weight patientInfo <> "" /\ height patientInfo <> ""
    /\ (isOnDialysis patientInfo = true
        \/ (scr patientInfo <> "" /\ egfr patientInfo <> ""
            /\ crcl patientInfo <> ""))
    /\ exists med, In med medications
                   /\ NewAudit.validMedication host med = true in
  match NewAudit.handleAuditExecution host patientInfo medications with
  | NewAudit.Alert _ => ~ complete
  | NewAudit.PostPatient body =>
      complete
      /\ NewAudit.PatientData.egfr body <> NaN
      /\ NewAudit.PatientData.crcl body <> NaN
      /\ NewAudit.PatientData.crcl_normalized body <> NaN
      /\ NewAudit.PatientData.bsa body <> NaN
      /\ NewAudit.PatientData.weight_kg body
         = parseFloat host (weight patientInfo)
      /\ NewAudit.PatientData.height_cm body
         = parseFloat host (height patientInfo)
  end.
Proof.
  intros complete. subst complete. unfold NewAudit.handleAuditExecution.
  assert (V : (List.length (filter (NewAudit.validMedication host)
                              medications) =? 0)%nat = false
              <-> exists med, In med medications
                    /\ NewAudit.validMedication host med = true).
  { rewrite Nat.eqb_neq. split.
    - intros N. destruct (filter _ medications) as [| med l] eqn:E;
        [contradiction |].
      exists med. apply filter_In. rewrite E. now left.
    - intros (med & Hin & Hv) E. apply length_zero_iff_nil in E.
      assert (H : In med (filter (NewAudit.validMedication host) medications))
        by now apply filter_In.
      rewrite E in H. destruct H. }
  unfold truthy.
  destruct (String.eqb_spec (gender patientInfo) ""); cbn [negb orb andb];
    [intros (H & _); contradiction |].
  destruct (String.eqb_spec (birthDate patientInfo) "");
    cbn [negb orb andb]; [intros (_ & H & _); contradiction |].
  destruct (String.eqb_spec (weight patientInfo) ""); cbn [negb orb andb];
    [intros (_ & _ & H & _); contradiction |].
  destruct (String.eqb_spec (height patientInfo) ""); cbn [negb orb andb];
    [intros (_ & _ & _ & H & _); contradiction |].
  destruct (isOnDialysis patientInfo); cbn [negb orb andb].
  - destruct (List.length _ =? 0)%nat eqn:E.
    + intros (_ & _ & _ & _ & _ & H). apply V in H. discriminate H.
    + repeat split; auto; try (cbn; apply or_zero_not_NaN).
      now apply V.
  - destruct (String.eqb_spec (scr patientInfo) ""); cbn [negb orb andb];
      [intros (_ & _ & _ & _ & [H | (H & _)] & _);
       [discriminate H | contradiction] |].
    destruct (String.eqb_spec (egfr patientInfo) ""); cbn [negb orb andb];
      [intros (_ & _ & _ & _ & [H | (_ & H & _)] & _);
       [discriminate H | contradiction] |].
    destruct (String.eqb_spec (crcl patientInfo) ""); cbn [negb orb andb];
      [intros (_ & _ & _ & _ & [H | (_ & _ & H)] & _);
       [discriminate H | contradiction] |].
    destruct (List.length _ =? 0)%nat eqn:E.
    + intros (_ & _ & _ & _ & _ & H). apply V in H. discriminate H.
    + repeat split; auto; try (cbn; apply or_zero_not_NaN).
      now apply V.
Qed.

(** ** The popup hook *)

(** X29.  Whatever sequence of [openAuditPopup], [closeAuditPopup] and
    [resetAuditPopup] is called, the popup is shown exactly when its data is
    present, so the test [showAuditPopup && auditPopupData] of the pages
    depends on the flag alone; and closing navigates exactly when
    [autoNavigate] is set, to [navigatePath]. *)
Theorem popup_shown_iff_data_present (options : UseAuditPopup.Options)
    (calls : list UseAuditPopup.Call) :
  let s := UseAuditPopup.run options calls UseAuditPopup.initialState in
  (UseAuditPopup.showAuditPopup s = true
   <-> UseAuditPopup.auditPopupData s <> None)
  /\ snd (UseAuditPopup.call options UseAuditPopup.CloseAuditPopup s)
     = (if UseAuditPopup.autoNavigate options
        then Some (UseAuditPopup.navigatePath options) else None)
  /\ fst (UseAuditPopup.call options UseAuditPopup.CloseAuditPopup s)
     = UseAuditPopup.initialState.
Proof.
  intros s. split; [| split; reflexivity]. subst s.
  assert (I : forall cs st,
             (UseAuditPopup.showAuditPopup st = true
              <-> UseAuditPopup.auditPopupData st <> None) ->
             (UseAuditPopup.showAuditPopup (UseAuditPopup.run options cs st)
              = true
              <-> UseAuditPopup.auditPopupData
                    (UseAuditPopup.run options cs st) <> None)).
  { induction cs as [| c cs IH]; intros st H; [exact H |].
    cbn. apply IH. destruct c; cbn; split; congruence. }
  apply I. cbn. split; congruence.
Qed.

(** ** What is posted for a dialysis patient *)

(** X30.  With a [parseFloat] that gives NaN on the empty string, as that of
    JavaScript does, the audit form of NewAudit.tsx and the registration form
    of PatientManagement.tsx post the same renal values for a patient on
    dialysis: creatinine 10, and 0 for eGFR, CrCl and normalised CrCl.  In
    NewAudit.tsx the zeros come from the blank fields of the form, in
    PatientManagement.tsx they are written out. *)
Theorem dialysis_patient_posted_alike (host : Host) (today : Date)
    (patientInfo : PatientInfo) (newPatientData : PatientManagement.Patient) :
  parseFloat host "" = NaN ->
  NewAudit_reachable host today patientInfo ->
  isOnDialysis patientInfo = true ->
  PatientManagement.isOnDialysis newPatientData = true ->
  let body := NewAudit.patientData host patientInfo in
  let m := PatientManagement.measurement host newPatientData in
  NewAudit.PatientData.scr_mg_dl body = Fin 10
  /\ NewAudit.PatientData.egfr body = Fin 0
  /\ NewAudit.PatientData.crcl body = Fin 0
  /\ NewAudit.PatientData.crcl_normalized body = Fin 0
  /\ NewAudit.PatientData.is_hd body = true
  /\ PatientManagement.scr_mg_dl m = Fin 10
  /\ PatientManagement.m_egfr m = Fin 0
  /\ PatientManagement.m_crcl m = Fin 0
  /\ PatientManagement.crcl_normalized m = Fin 0
  /\ PatientManagement.is_hd m = true.
Proof.
  intros P R D D' body m. subst body m.
  destruct (NewAudit_dialysis_invariant host today patientInfo R D)
    as (E1 & E2 & E3).
  unfold NewAudit.patientData, PatientManagement.measurement.
  cbn [NewAudit.PatientData.scr_mg_dl NewAudit.PatientData.egfr
       NewAudit.PatientData.crcl NewAudit.PatientData.crcl_normalized
       NewAudit.PatientData.is_hd PatientManagement.scr_mg_dl
       PatientManagement.m_egfr PatientManagement.m_crcl
       PatientManagement.crcl_normalized PatientManagement.is_hd].
  rewrite D, D', E1, E2, E3, P. cbn [or_zero].
  unfold lit. repeat split; f_equal; lra.
Qed.

Lemma dialysis_patient_posted_alike_example :
  let patientInfo :=
    NewAudit.handlePatientInfoChange exampleHost (ValidDate 2025 5 15 0)
      (NewAudit.CheckboxChange true) NewAudit.initialPatientInfo in
  NewAudit.PatientData.egfr (NewAudit.patientData exampleHost patientInfo)
  = Fin 0.
Proof.
  intros patientInfo.
  assert (D : PatientManagement.isOnDialysis
                {| PatientManagement.id := "";
                   PatientManagement.patientId := "";
                   PatientManagement.name := "";
                   PatientManagement.birthDate := "";
                   PatientManagement.gender := "";
                   PatientManagement.phone := "";
                   PatientManagement.address := "";
                   PatientManagement.emergencyContact := "";
                   PatientManagement.emergencyPhone := "";
                   PatientManagement.medicalHistory := "";
                   PatientManagement.allergies := "";
                   PatientManagement.notes := "";
                   PatientManagement.weight := "";
                   PatientManagement.height := "";
                   PatientManagement.scr := "";
                   PatientManagement.crcl := "";
                   PatientManagement.crclNormalized := "";
                   PatientManagement.egfr := "";
                   PatientManagement.bsa := "";
                   PatientManagement.isOnDialysis := true |} = true)
    by reflexivity.
  assert (R : NewAudit_reachable exampleHost (ValidDate 2025 5 15 0)
                patientInfo)
    by (apply reach_change, reach_initial).
  exact (proj1 (proj2 (dialysis_patient_posted_alike exampleHost
                         (ValidDate 2025 5 15 0) patientInfo _
                         eq_refl R eq_refl D))).
Defined.
